(** * OS-PAW: request-parameter validation and spatial-filter construction

    A shallow embedding of [os_paw/api_utils.py] together with the Python
    built-ins that file relies on ([str.split], [str.join], [str.strip],
    [str.lower], [float], [str], [max], [min], [zip]).

    Conventions of the embedding:
    - Python text is a Rocq [string]; characters are read as ASCII code
      points.
    - Python [float] values are IEEE-754 binary64 numbers, represented by
      [spec_float] with precision 53 and maximal exponent 1024.
    - A Python call that may raise is a function into [result]; the
      exception classes that the module can raise are the constructors of
      [exn].
    - [dict]s whose contents are JSON data are association lists.
    - [assert] statements are executed, as they are when the interpreter
      runs without optimisation.
    - Of the [geojson] package the module uses [LineString] and [Feature];
      what the geometry constructor does to coordinates is a parameter.

    The file has two parts: the embedding with the vocabulary of the
    statements, then the facts, module by module. *)

From Stdlib Require Import ZArith QArith List String Ascii Bool Lia.
From Stdlib Require Import SpecFloat.
Import ListNotations.

#[local] Set Warnings "-register-all".

Local Close Scope Q_scope.
Local Open Scope string_scope.
Local Open Scope Z_scope.

(** ** Exceptions and the error monad *)

Inductive exn : Type :=
| AssertionError (msg : string)
| ValueError (msg : string)
| IndexError (msg : string)
| KeyError (key : string)
| TypeError (msg : string)
| AttributeError (msg : string)
| UnboundLocalError (name : string)
| PlainException (msg : string).

Inductive result (A : Type) : Type :=
| Ok (a : A)
| Raise (e : exn).

Arguments Ok {A} a.
Arguments Raise {A} e.

Definition bind {A B : Type} (r : result A) (k : A -> result B) : result B :=
  match r with
  | Ok a => k a
  | Raise e => Raise e
  end.

Declare Scope py_scope.
Delimit Scope py_scope with py.
Notation "x <- c ;; k" := (bind c (fun x => k))
  (at level 61, c at next level, right associativity) : py_scope.
Notation "c ;;; k" := (bind c (fun _ => k))
  (at level 61, right associativity) : py_scope.
Local Open Scope py_scope.

(** [[f(x) for x in xs]]: the elements are visited from left to right and the
    first exception ends the comprehension. *)
Fixpoint comprehension {A B : Type} (f : A -> result B) (xs : list A)
  : result (list B) :=
  match xs with
  | [] => Ok []
  | x :: xs' => y <- f x ;; ys <- comprehension f xs' ;; Ok (y :: ys)
  end.

(** [a and b] on expressions that may raise: [b] is evaluated only when [a]
    is true. *)
Definition and_then (a b : result bool) : result bool :=
  x <- a ;; if x then b else Ok false.

Infix "&&&" := and_then (at level 40, left associativity) : py_scope.

(** [assert cond, message]: the message is evaluated only when the
    condition is false. *)
Definition py_assert (cond : result bool) (message : result string)
  : result unit :=
  c <- cond ;;
  if c then Ok tt else (m <- message ;; Raise (AssertionError m)).

(** ** Text built-ins *)

Module Str.

Definition nl : ascii := "010"%char.

(** [s.split(sep)] for a one-character separator. *)
Fixpoint split (sep : ascii) (s : string) : list string :=
  match s with
  | EmptyString => [EmptyString]
  | String c s' =>
      if Ascii.eqb c sep then EmptyString :: split sep s'
      else match split sep s' with
           | [] => [String c EmptyString]
           | t :: ts => String c t :: ts
           end
  end.

(** [sep.join(parts)]. *)
Fixpoint join (sep : string) (parts : list string) : string :=
  match parts with
  | [] => EmptyString
  | [p] => p
  | p :: ps => p ++ sep ++ join sep ps
  end.

(** Characters removed by [str.strip()] with no argument. *)
Definition is_space (c : ascii) : bool :=
  let n := N_of_ascii c in
  ((9 <=? n) && (n <=? 13) || (28 <=? n) && (n <=? 32))%N.

Fixpoint lstrip (s : string) : string :=
  match s with
  | EmptyString => EmptyString
  | String c s' => if is_space c then lstrip s' else s
  end.

Fixpoint rstrip (s : string) : string :=
  match s with
  | EmptyString => EmptyString
  | String c s' =>
      match rstrip s' with
      | EmptyString => if is_space c then EmptyString else String c EmptyString
      | r => String c r
      end
  end.

Definition strip (s : string) : string := rstrip (lstrip s).

Definition lower_char (c : ascii) : ascii :=
  let n := N_of_ascii c in
  if ((65 <=? n) && (n <=? 90))%N then ascii_of_N (n + 32) else c.

(** [s.lower()]. *)
Fixpoint lower (s : string) : string :=
  match s with
  | EmptyString => EmptyString
  | String c s' => String (lower_char c) (lower s')
  end.

(** [c in s] for a character [c]. *)
Fixpoint mem (c : ascii) (s : string) : bool :=
  match s with
  | EmptyString => false
  | String d s' => Ascii.eqb d c || mem c s'
  end.

(** [t in s] for text [t]. *)
Fixpoint contains (s t : string) : bool :=
  String.prefix t s ||
  match s with
  | EmptyString => false
  | String _ s' => contains s' t
  end.

(** Decimal text of an integer, as [str(n)] prints it. *)
Fixpoint digits_of_pos (fuel : nat) (n : Z) (acc : string) : string :=
  match fuel with
  | O => acc
  | S fuel' =>
      let acc' := String (ascii_of_N (Z.to_N (48 + n mod 10))) acc in
      if n <? 10 then acc' else digits_of_pos fuel' (n / 10) acc'
  end.

Definition of_Z (n : Z) : string :=
  match n with
  | Z0 => "0"
  | Zpos p => digits_of_pos (Pos.size_nat p) n EmptyString
  | Zneg p => String "-" (digits_of_pos (Pos.size_nat p) (Zpos p) EmptyString)
  end.

Definition backslash : ascii := ascii_of_N 92.
Definition double_quote : ascii := ascii_of_N 34.
Definition single_quote : ascii := ascii_of_N 39.

Definition hex_digit (n : N) : ascii :=
  if (n <? 10)%N then ascii_of_N (48 + n) else ascii_of_N (87 + n).

Definition escape_char (quote c : ascii) : string :=
  let n := N_of_ascii c in
  let esc (d : ascii) := String backslash (String d EmptyString) in
  if Ascii.eqb c quote || Ascii.eqb c backslash then esc c
  else if (n =? 9)%N then esc "t"%char
  else if (n =? 10)%N then esc "n"%char
  else if (n =? 13)%N then esc "r"%char
  else if (n <? 32)%N || (127 <=? n)%N
       then String backslash (String "x" (String (hex_digit (n / 16))
              (String (hex_digit (n mod 16)) EmptyString)))
  else String c EmptyString.

Fixpoint escape (quote : ascii) (s : string) : string :=
  match s with
  | EmptyString => EmptyString
  | String c s' => escape_char quote c ++ escape quote s'
  end.

(** [repr(s)]: single quotes, unless the text has a single quote and no
    double quote. *)
Definition repr (s : string) : string :=
  let quote : ascii :=
    if mem single_quote s && negb (mem double_quote s)
    then double_quote else single_quote in
  String quote (escape quote s ++ String quote EmptyString).

End Str.

(** ** Python floats *)

Module PyFloat.

Definition prec : Z := 53.
Definition emax : Z := 1024.

Definition float : Type := spec_float.

Definition nan : float := S754_nan.
Definition inf (neg : bool) : float := S754_infinity neg.

(** The double nearest to [m * 10 ^ e10] (ties to even), signed by [neg];
    this is what the runtime's correctly rounded [strtod] returns. *)
Definition of_decimal (neg : bool) (m e10 : Z) : float :=
  match m with
  | Zpos p =>
      if 0 <=? e10
      then binary_round prec emax neg (p * Z.to_pos (10 ^ e10)) 0
      else SFdiv prec emax (S754_finite neg p 0)
                 (S754_finite false (Z.to_pos (10 ^ (- e10))) 0)
  | _ => S754_zero neg
  end.

(** *** [float(text)] *)

(** Whitespace that [float] skips on both sides of its argument. *)
Definition is_space (c : ascii) : bool :=
  let n := N_of_ascii c in
  ((9 <=? n) && (n <=? 13) || (n =? 32))%N.

Definition is_digit (c : ascii) : bool :=
  let n := N_of_ascii c in ((48 <=? n) && (n <=? 57))%N.

Definition digit_value (c : ascii) : Z := Z.of_N (N_of_ascii c) - 48.

Fixpoint lstrip (s : string) : string :=
  match s with
  | EmptyString => EmptyString
  | String c s' => if is_space c then lstrip s' else s
  end.

Fixpoint rstrip (s : string) : string :=
  match s with
  | EmptyString => EmptyString
  | String c s' =>
      match rstrip s' with
      | EmptyString => if is_space c then EmptyString else String c EmptyString
      | r => String c r
      end
  end.

(** Underscores are dropped when they stand between two digits; any other
    underscore makes the text invalid.  [prev] is the character before
    [s]. *)
Fixpoint drop_underscores (prev : option ascii) (s : string)
  : option string :=
  match s with
  | EmptyString =>
      match prev with
      | Some "_"%char => None
      | _ => Some EmptyString
      end
  | String c s' =>
      if Ascii.eqb c "_" then
        match prev with
        | Some p => if is_digit p then drop_underscores (Some c) s' else None
        | None => None
        end
      else
        let ok := match prev with
                  | Some "_"%char => is_digit c
                  | _ => true
                  end in
        if ok then option_map (String c) (drop_underscores (Some c) s')
        else None
  end.

(** Reads a run of digits: the value accumulated on top of [acc], the
    number of digits read and the remaining text. *)
Fixpoint take_digits (acc count : Z) (s : string) : Z * Z * string :=
  match s with
  | String c s' =>
      if is_digit c
      then take_digits (10 * acc + digit_value c) (count + 1) s'
      else (acc, count, s)
  | EmptyString => (acc, count, s)
  end.

Definition take_sign (s : string) : bool * string :=
  match s with
  | String "-" s' => (true, s')
  | String "+" s' => (false, s')
  | _ => (false, s)
  end.

(** The exponent part; when the letter is not followed by digits nothing
    is consumed. *)
Definition take_exponent (s : string) : Z * string :=
  match s with
  | String c s' =>
      if Ascii.eqb c "e" || Ascii.eqb c "E" then
        let '(neg, s'') := take_sign s' in
        let '(v, n, rest) := take_digits 0 0 s'' in
        if 0 <? n then ((if neg then - v else v), rest) else (0, s)
      else (0, s)
  | EmptyString => (0, s)
  end.

(** A decimal numeral: digits, optional point and digits, optional
    exponent.  At least one digit is needed around the point and the whole
    text must be consumed. *)
Definition parse_decimal (neg : bool) (s : string) : option float :=
  let '(ip, ni, r1) := take_digits 0 0 s in
  let '(m, nf, r2) :=
    match r1 with
    | String "." r => take_digits ip 0 r
    | _ => (ip, 0, r1)
    end in
  if 0 <? ni + nf then
    match take_exponent r2 with
    | (e, EmptyString) => Some (of_decimal neg m (e - nf))
    | _ => None
    end
  else None.

Definition parse_inf_or_nan (neg : bool) (s : string) : option float :=
  let l := Str.lower s in
  if String.eqb l "inf" || String.eqb l "infinity" then Some (inf neg)
  else if String.eqb l "nan" then Some nan
  else None.

(** [float(s)]; [None] stands for the [ValueError] the call raises. *)
Definition of_string (s : string) : option float :=
  match drop_underscores None (rstrip (lstrip s)) with
  | None => None
  | Some t =>
      let '(neg, body) := take_sign t in
      match parse_decimal neg body with
      | Some x => Some x
      | None => parse_inf_or_nan neg body
      end
  end.

(** *** [str(x)] *)

Definition same_finite (x : float) (m : positive) (e : Z) : bool :=
  match x with
  | S754_finite false m' e' => Pos.eqb m' m && Z.eqb e' e
  | _ => false
  end.

(** The least [k] with [num / den < 10 ^ k], searched upwards from [k]:
    the position of the decimal point of a positive rational. *)
Fixpoint point_above (fuel : nat) (num den k : Z) : Z :=
  match fuel with
  | O => k
  | S fuel' =>
      if num <? den * 10 ^ k then k else point_above fuel' num den (k + 1)
  end.

Fixpoint point_below (fuel : nat) (num den k : Z) : Z :=
  match fuel with
  | O => k
  | S fuel' =>
      if num * 10 ^ (1 - k) <? den
      then point_below fuel' num den (k - 1) else k
  end.

Definition decimal_point (num den : Z) : Z :=
  if den <=? num
  then point_above (S (Z.to_nat (Z.log2 num))) num den 1
  else point_below (S (Z.to_nat (Z.log2 den))) num den 0.

(** The decimal [c * 10 ^ q] with at most [n] significant digits that
    [float] reads back as the double [m * 2 ^ e], the nearer of the two
    neighbours of the double when both do; [n] grows until one is found,
    which gives the shortest such numeral. *)
Fixpoint shortest (fuel : nat) (n k num den : Z) (m : positive) (e : Z)
  : Z * Z :=
  let q := k - n in
  let N := if q <=? 0 then num * 10 ^ (- q) else num in
  let D := if q <=? 0 then den else den * 10 ^ q in
  let lo := N / D in
  let hi := lo + 1 in
  let near := if 2 * (N mod D) <=? D then lo else hi in
  match fuel with
  | O => (near, q)
  | S fuel' =>
      let lo_ok := same_finite (of_decimal false lo q) m e in
      let hi_ok := same_finite (of_decimal false hi q) m e in
      if lo_ok && hi_ok then (near, q)
      else if lo_ok then (lo, q)
      else if hi_ok then (hi, q)
      else shortest fuel' (n + 1) k num den m e
  end.

Fixpoint drop_zeros (fuel : nat) (c q : Z) : Z * Z :=
  match fuel with
  | O => (c, q)
  | S fuel' =>
      if (c mod 10 =? 0) && negb (c =? 0)
      then drop_zeros fuel' (c / 10) (q + 1) else (c, q)
  end.

(** Digits and decimal-point position of the shortest numeral of the
    positive double [m * 2 ^ e]: its value is [0.d1d2... * 10 ^ decpt]. *)
Definition shortest_digits (m : positive) (e : Z) : string * Z :=
  let num := if 0 <=? e then Zpos m * 2 ^ e else Zpos m in
  let den := if 0 <=? e then 1 else 2 ^ (- e) in
  let k := decimal_point num den in
  let '(c, q) := shortest 16 1 k num den m e in
  let '(c', q') := drop_zeros 17 c q in
  let digits := Str.of_Z c' in
  (digits, q' + Z.of_nat (String.length digits)).

Fixpoint zeros (n : nat) : string :=
  match n with
  | O => EmptyString
  | S n' => String "0" (zeros n')
  end.

Definition exponent_text (x : Z) : string :=
  let a := Str.of_Z (Z.abs x) in
  (if x <? 0 then "-" else "+") ++ (if Z.abs x <? 10 then "0" ++ a else a).

(** Layout used by [repr]: scientific notation when the decimal point lies
    outside the range (-4, 16], positional notation with at least one
    digit after the point otherwise. *)
Definition layout (digits : string) (decpt : Z) : string :=
  let nd := Z.of_nat (String.length digits) in
  if (decpt <=? -4) || (16 <? decpt) then
    match digits with
    | String d EmptyString => String d EmptyString ++ "e" ++ exponent_text (decpt - 1)
    | String d rest => String d ("." ++ rest) ++ "e" ++ exponent_text (decpt - 1)
    | EmptyString => EmptyString
    end
  else if decpt <=? 0 then "0." ++ zeros (Z.to_nat (- decpt)) ++ digits
  else if nd <=? decpt then digits ++ zeros (Z.to_nat (decpt - nd)) ++ ".0"
  else substring 0 (Z.to_nat decpt) digits ++ "."
       ++ substring (Z.to_nat decpt) (Z.to_nat (nd - decpt)) digits.

(** [str(x)], which for a float is [repr(x)]. *)
Definition to_string (x : float) : string :=
  match x with
  | S754_nan => "nan"
  | S754_infinity neg => if neg then "-inf" else "inf"
  | S754_zero neg => if neg then "-0.0" else "0.0"
  | S754_finite neg m e =>
      let '(digits, decpt) := shortest_digits m e in
      (if neg then "-" ++ layout digits decpt else layout digits decpt)
  end.

(** *** Comparisons *)

(** The number a float stands for; a float that is not a number has
    none. *)
Inductive ereal : Type :=
| NegInf
| Finite (q : Q)
| PosInf.

Definition value_of (x : float) : option ereal :=
  match x with
  | S754_nan => None
  | S754_infinity neg => Some (if neg then NegInf else PosInf)
  | S754_zero _ => Some (Finite 0%Q)
  | S754_finite neg m e =>
      Some (Finite (inject_Z (if neg then Zneg m else Zpos m) * Qpower 2 e)%Q)
  end.

Definition ereal_ltb (a b : ereal) : bool :=
  match a, b with
  | NegInf, NegInf => false
  | NegInf, _ => true
  | Finite _, NegInf => false
  | Finite p, Finite q => match (p ?= q)%Q with Lt => true | _ => false end
  | Finite _, PosInf => true
  | PosInf, _ => false
  end.

(** [x < y] and [x > y] between floats: the numbers are compared, and a
    comparison with a float that is not a number is false. *)
Definition ltb (x y : float) : bool :=
  match value_of x, value_of y with
  | Some a, Some b => ereal_ltb a b
  | _, _ => false
  end.

Definition gtb (x y : float) : bool := ltb y x.

(** [x < n] and [x > n] for an integer [n]: Python compares the float with
    the integer exactly. *)
Definition lt_Z (x : float) (n : Z) : bool :=
  match value_of x with
  | Some a => ereal_ltb a (Finite (inject_Z n))
  | None => false
  end.

Definition gt_Z (x : float) (n : Z) : bool :=
  match value_of x with
  | Some a => ereal_ltb (Finite (inject_Z n)) a
  | None => false
  end.

(** [max(xs)] and [min(xs)] over a non-empty sequence: the running result
    is replaced only by an element that compares strictly greater
    (smaller). *)
Definition py_max (first : float) (rest : list float) : float :=
  fold_left (fun best x => if gtb x best then x else best) rest first.

Definition py_min (first : float) (rest : list float) : float :=
  fold_left (fun best x => if ltb x best then x else best) rest first.

Definition is_nan (x : float) : bool :=
  match x with S754_nan => true | _ => false end.

End PyFloat.

(** ** Python values *)

(** JSON-shaped data: what a GeoJSON feature is made of. *)
Inductive value : Type :=
| VNone
| VBool (b : bool)
| VInt (n : Z)
| VFloat (x : PyFloat.float)
| VStr (s : string)
| VList (items : list value)
| VDict (entries : list (string * value)).

Fixpoint lookup (k : string) (entries : list (string * value)) : option value :=
  match entries with
  | [] => None
  | (k', v) :: rest => if String.eqb k' k then Some v else lookup k rest
  end.

Definition type_name (v : value) : string :=
  match v with
  | VNone => "NoneType"
  | VBool _ => "bool"
  | VInt _ => "int"
  | VFloat _ => "float"
  | VStr _ => "str"
  | VList _ => "list"
  | VDict _ => "dict"
  end.

Definition not_subscriptable (v : value) : exn :=
  TypeError ("'" ++ type_name v ++ "' object is not subscriptable").

(** [v[k]] for a text key [k]. *)
Definition subscript_key (v : value) (k : string) : result value :=
  match v with
  | VDict entries =>
      match lookup k entries with
      | Some x => Ok x
      | None => Raise (KeyError k)
      end
  | VList _ => Raise (TypeError "list indices must be integers or slices, not str")
  | VStr _ => Raise (TypeError "string indices must be integers, not 'str'")
  | _ => Raise (not_subscriptable v)
  end.

Definition chars (s : string) : list value :=
  map (fun c => VStr (String c EmptyString)) (list_ascii_of_string s).

(** [v[0]]. *)
Definition subscript_first (v : value) : result value :=
  match v with
  | VList (x :: _) => Ok x
  | VList [] => Raise (IndexError "list index out of range")
  | VStr (String c _) => Ok (VStr (String c EmptyString))
  | VStr EmptyString => Raise (IndexError "string index out of range")
  | VDict _ => Raise (KeyError "0")
  | _ => Raise (not_subscriptable v)
  end.

(** [v[::-1]]. *)
Definition reversed_slice (v : value) : result value :=
  match v with
  | VList items => Ok (VList (rev items))
  | VStr s => Ok (VStr (string_of_list_ascii (rev (list_ascii_of_string s))))
  | VDict _ => Raise (TypeError "unhashable type: 'slice'")
  | _ => Raise (not_subscriptable v)
  end.

(** The elements that [for x in v] visits. *)
Definition iterate (v : value) : result (list value) :=
  match v with
  | VList items => Ok items
  | VStr s => Ok (chars s)
  | VDict entries => Ok (map (fun kv => VStr (fst kv)) entries)
  | _ => Raise (TypeError ("'" ++ type_name v ++ "' object is not iterable"))
  end.

(** Truth value of [v], as [or] and [if] test it. *)
Definition truthy (v : value) : bool :=
  match v with
  | VNone => false
  | VBool b => b
  | VInt n => negb (n =? 0)
  | VFloat (S754_zero _) => false
  | VFloat _ => true
  | VStr EmptyString => false
  | VStr _ => true
  | VList [] => false
  | VList _ => true
  | VDict [] => false
  | VDict _ => true
  end.

(** [repr(v)]. *)
Fixpoint py_repr (v : value) : string :=
  match v with
  | VNone => "None"
  | VBool true => "True"
  | VBool false => "False"
  | VInt n => Str.of_Z n
  | VFloat x => PyFloat.to_string x
  | VStr s => Str.repr s
  | VList items => "[" ++ Str.join ", " (map py_repr items) ++ "]"
  | VDict entries =>
      "{" ++ Str.join ", "
               (map (fun kv => Str.repr (fst kv) ++ ": " ++ py_repr (snd kv))
                    entries) ++ "}"
  end.

(** [str(v)]: text is returned as it is, everything else as [repr] prints
    it. *)
Definition py_str (v : value) : string :=
  match v with
  | VStr s => s
  | _ => py_repr v
  end.

(** [float(tok)] for text [tok]. *)
Definition to_float (tok : string) : result PyFloat.float :=
  match PyFloat.of_string tok with
  | Some x => Ok x
  | None => Raise (ValueError ("could not convert string to float: " ++ Str.repr tok))
  end.

(** [xs[i]] on a list. *)
Definition list_item {A : Type} (xs : list A) (i : nat) : result A :=
  match nth_error xs i with
  | Some x => Ok x
  | None => Raise (IndexError "list index out of range")
  end.

(** [zip] applied to the unpacked [rows]: the columns of [rows], as many as
    the shortest row has elements. *)
Fixpoint zip_cons {A : Type} (row : list A) (cols : list (list A))
  : list (list A) :=
  match row, cols with
  | x :: row', col :: cols' => (x :: col) :: zip_cons row' cols'
  | _, _ => []
  end.

Fixpoint zip_star {A : Type} (rows : list (list A)) : list (list A) :=
  match rows with
  | [] => []
  | [row] => map (fun x => [x]) row
  | row :: rows' => zip_cons row (zip_star rows')
  end.

Definition seq_max (xs : list PyFloat.float) : result PyFloat.float :=
  match xs with
  | x :: rest => Ok (PyFloat.py_max x rest)
  | [] => Raise (ValueError "max() arg is an empty sequence")
  end.

Definition seq_min (xs : list PyFloat.float) : result PyFloat.float :=
  match xs with
  | x :: rest => Ok (PyFloat.py_min x rest)
  | [] => Raise (ValueError "min() arg is an empty sequence")
  end.

Definition quoted (s : string) : string :=
  String Str.double_quote (s ++ String Str.double_quote EmptyString).

(** ** The [geojson] package, as far as [api_utils] uses it *)

Module GeoJSON.

Section Package.

(** What a geometry constructor does to the coordinates it is given
    (checking that the leaves are numbers, rounding them to the package's
    precision).  It differs between releases of the package and nothing
    below depends on it. *)
Variable clean_coordinates : value -> result value.

(** [LineString(coordinates)]: a mapping that records the name of the
    class under the key [type]. *)
Definition LineString (coordinates : value) : result value :=
  cleaned <- clean_coordinates
               (if truthy coordinates then coordinates else VList []) ;;
  Ok (VDict [("type", VStr "LineString"); ("coordinates", cleaned)]).

End Package.

(** [Feature(geometry=g, properties=p)]. *)
Definition Feature (geometry properties : value) : value :=
  VDict [("type", VStr "Feature");
         ("geometry", if truthy geometry then geometry else VNone);
         ("properties", if truthy properties then properties else VDict [])].

(** On coordinates that are nested lists of integers every release of the
    package returns them as they are; this instance is meant for such
    data. *)
Fixpoint clean_integers (v : value) : result value :=
  match v with
  | VList items =>
      cleaned <-
        (fix go (l : list value) : result (list value) :=
           match l with
           | [] => Ok []
           | x :: l' =>
               y <- match x with
                    | VList _ => clean_integers x
                    | VInt n => Ok (VInt n)
                    | _ => Raise (ValueError
                                    (py_repr x ++ " is not a JSON compliant number"))
                    end ;;
               ys <- go l' ;;
               Ok (y :: ys)
           end) items ;;
      Ok (VList cleaned)
  | _ => Raise (TypeError ("'" ++ type_name v ++ "' object is not iterable"))
  end.

End GeoJSON.

(** ** [os_paw/api_utils.py] *)

Module ApiUtils.

Definition VALID_SPATIAL_REFERENCE_SYSTEMS : list string :=
  ["EPSG:4326"; "EPSG:27700"].

Definition tuple_repr (items : list string) : string :=
  "(" ++ Str.join ", " (map Str.repr items) ++ ")".

Definition get_feature_geometry_type (feature : value) : result value :=
  match (g <- subscript_key feature "geometry" ;; subscript_key g "type") with
  | Raise (KeyError _) =>
      Raise (PlainException "Feature is not in standard GeoJSON format.")
  | r => r
  end.

Section Conversion.

Variable clean_coordinates : value -> result value.

Definition convert_single_feature_to_geojson
  (single_feature : value) (geometry_type : value -> result value)
  : result value :=
  new_coordinates <-
    (g <- subscript_key single_feature "geometry" ;;
     c <- subscript_key g "coordinates" ;;
     subscript_first c) ;;
  new_linestring <- geometry_type new_coordinates ;;
  properties <- subscript_key single_feature "properties" ;;
  Ok (GeoJSON.Feature new_linestring properties).

Definition convert_features_to_geojson (features : list value)
  : result (list value) :=
  comprehension
    (fun feat => convert_single_feature_to_geojson feat
                   (GeoJSON.LineString clean_coordinates))
    features.

End Conversion.

Definition srs_message (srs_string : string) : string :=
  srs_string ++ " is not a valid Spatial Reference System."
  ++ String Str.nl "Valid Spatial Reference Systems are: "
  ++ tuple_repr VALID_SPATIAL_REFERENCE_SYSTEMS ++ ".".

Definition validate_srs (srs_string : string) : result value :=
  py_assert
    (Ok (existsb (String.eqb srs_string) VALID_SPATIAL_REFERENCE_SYSTEMS))
    (Ok (srs_message srs_string)) ;;;
  Ok VNone.

(** The local variable [msg] of [_validate_bbox]; it is bound on two
    branches only. *)
Definition bbox_msg (srs : string) : result string :=
  if String.eqb srs "EPSG:4326" then
    Ok ("Format bbox as a comma-separated string of the form "
        ++ quoted "latitude_SW, longitude_SW, latitude_NE, longitude_NE"
        ++ ".")
  else if String.eqb srs "EPSG:27700" then
    Ok ("Format bbox as a comma-separated string of the form "
        ++ quoted "Easting_SW, Northing_SW, Easting_NE, Northing_NE"
        ++ ".")
  else Raise (UnboundLocalError "msg").

Definition latitude_message (min_y max_y : Z) (msg : string) : string :=
  "British Latitude values must be between " ++ Str.of_Z min_y ++ " and "
  ++ Str.of_Z max_y ++ ". " ++ msg.

Definition longitude_message (min_x max_x : Z) (msg : string) : string :=
  "British Longitude values must be between " ++ Str.of_Z min_x ++ " and "
  ++ Str.of_Z max_x ++ ". " ++ msg.

(** [float(bbox_list[i]) > lo and float(bbox_list[i]) < hi]. *)
Definition token_within (bbox_list : list string) (i : nat) (lo hi : Z)
  : result bool :=
  (t <- list_item bbox_list i ;; x <- to_float t ;; Ok (PyFloat.gt_Z x lo))
  &&&
  (t <- list_item bbox_list i ;; x <- to_float t ;; Ok (PyFloat.lt_Z x hi)).

Definition _validate_bbox (bbox_string srs : string)
  (min_x max_x min_y max_y : Z) : result value :=
  let bbox_list := Str.split "," bbox_string in
  let msg := bbox_msg srs in
  py_assert
    (token_within bbox_list 0 min_y max_y
     &&& token_within bbox_list 2 min_y max_y)
    (m <- msg ;; Ok (latitude_message min_y max_y m)) ;;;
  py_assert
    (token_within bbox_list 1 min_x max_x
     &&& token_within bbox_list 3 min_x max_x)
    (m <- msg ;; Ok (longitude_message min_x max_x m)) ;;;
  Ok VNone.

Definition validate_bbox (bbox_string srs : string) : result value :=
  validate_srs srs ;;;
  if String.eqb srs "EPSG:4326" then
    _validate_bbox bbox_string "EPSG:4326" (-7) 2 49 61
  else if String.eqb srs "EPSG:27700" then
    _validate_bbox bbox_string "EPSG:27700" 0 700000 0 1250000
  else Ok VNone.

Definition lower_method (v : value) : result string :=
  match v with
  | VStr s => Ok (Str.lower s)
  | _ => Raise (AttributeError
                  ("'" ++ type_name v ++ "' object has no attribute 'lower'"))
  end.

Definition not_polygon_message : string :=
  "Geometry to fetch intersecting features is not a valid GeoJSON Polygon Feature".

Definition validate_geojson_polygon (geojson : value) : result value :=
  geom_type <- (t <- get_feature_geometry_type geojson ;; lower_method t) ;;
  if negb (String.eqb geom_type "polygon")
  then Raise (PlainException not_polygon_message)
  else Ok VNone.

Definition geojson_polygon_to_string (geojson : value) : result string :=
  ring <- (g <- subscript_key geojson "geometry" ;;
           c <- subscript_key g "coordinates" ;;
           r <- subscript_first c ;;
           iterate r) ;;
  polygon_coord_strings <-
    comprehension
      (fun coord =>
         flipped <- (r <- reversed_slice coord ;; iterate r) ;;
         parts <- comprehension (fun yx => Ok (py_str yx)) flipped ;;
         Ok (Str.join "," parts))
      ring ;;
  Ok (Str.join " " polygon_coord_strings).

(** The comprehension that opens [_validate_polygon_string]. *)
Definition polygon_coords_of (polygon_string : string)
  : result (list (list PyFloat.float)) :=
  comprehension
    (fun coords => comprehension to_float (Str.split "," coords))
    (Str.split " " polygon_string).

Definition polygon_msg (srs : string) : result string :=
  if String.eqb srs "EPSG:4326" then
    Ok ("Format polygon as a space-separated string of comma-separated coordinates the form "
        ++ quoted "lat1,lon1 lat2,lon2 lat3,lon3 ... latn,lonn" ++ ".")
  else if String.eqb srs "EPSG:27700" then
    Ok ("Format polygon as a space-separated string of comma-separated coordinates the form "
        ++ quoted "lat1,lon1 lat2,lon2 lat3,lon3 ... latn,lonn" ++ ".")
  else Raise (UnboundLocalError "msg").

Definition _validate_polygon_string (polygon_string srs : string)
  (min_x max_x min_y max_y : Z) : result value :=
  polygon_coords <- polygon_coords_of polygon_string ;;
  let polygon_coords_transposed := zip_star polygon_coords in
  max_lat <- (col <- list_item polygon_coords_transposed 0 ;; seq_max col) ;;
  min_lat <- (col <- list_item polygon_coords_transposed 0 ;; seq_min col) ;;
  max_lon <- (col <- list_item polygon_coords_transposed 1 ;; seq_max col) ;;
  min_lon <- (col <- list_item polygon_coords_transposed 1 ;; seq_min col) ;;
  let msg := polygon_msg srs in
  py_assert
    (Ok (PyFloat.gt_Z min_lat min_y) &&& Ok (PyFloat.lt_Z max_lat max_y))
    (m <- msg ;; Ok (latitude_message min_y max_y m)) ;;;
  py_assert
    (Ok (PyFloat.gt_Z min_lon min_x) &&& Ok (PyFloat.lt_Z max_lon max_x))
    (m <- msg ;; Ok (longitude_message min_x max_x m)) ;;;
  Ok VNone.

Definition validate_polygon_string (polygon_string srs : string)
  : result value :=
  validate_srs srs ;;;
  if String.eqb srs "EPSG:4326" then
    _validate_polygon_string polygon_string "EPSG:4326" (-7) 2 49 61
  else if String.eqb srs "EPSG:27700" then
    _validate_polygon_string polygon_string "EPSG:27700" 0 700000 0 1250000
  else Ok VNone.

Fixpoint spaces (n : nat) : string :=
  match n with
  | O => EmptyString
  | S n' => String " " (spaces n')
  end.

(** The lines of the triple-quoted template of [create_polygon_filter],
    with its two fields filled in. *)
Definition template_lines (srs_num poly_string : string) : list string :=
  [ "<ogc:Filter>";
    spaces 16 ++ "<ogc:Intersects>";
    spaces 20 ++ "<ogc:PropertyName>SHAPE</ogc:PropertyName>";
    spaces 20 ++ "<gml:Polygon srsName="
      ++ quoted ("urn:ogc:def:crs:EPSG::" ++ srs_num) ++ ">";
    spaces 24 ++ "<gml:outerBoundaryIs>";
    spaces 28 ++ "<gml:LinearRing>";
    spaces 32 ++ "<gml:coordinates>" ++ poly_string ++ "</gml:coordinates>";
    spaces 28 ++ "</gml:LinearRing>";
    spaces 24 ++ "</gml:outerBoundaryIs>";
    spaces 20 ++ "</gml:Polygon>";
    spaces 16 ++ "</ogc:Intersects>";
    spaces 12 ++ "</ogc:Filter>" ].

(** [template.format(srs_num=..., poly_string=...)]. *)
Definition filled_template (srs_num poly_string : string) : string :=
  Str.join (String Str.nl EmptyString) (template_lines srs_num poly_string).

Definition create_polygon_filter (polygon_string srs : string)
  : result string :=
  srs_num <- list_item (Str.split ":" srs) 1 ;;
  let xml := filled_template srs_num polygon_string in
  let xml := Str.join EmptyString
               (map Str.strip (Str.split Str.nl xml)) in
  Ok xml.

(** *** The remaining validators of the module *)

Inductive API_Service : Type := wfs | wmts | vts | zxy.

(** The members in the order of their definition, and [api.name]. *)
Definition API_Service_members : list API_Service := [wfs; wmts; vts; zxy].

Definition member_name (api : API_Service) : string :=
  match api with
  | wfs => "wfs"
  | wmts => "wmts"
  | vts => "vts"
  | zxy => "zxy"
  end.

(** [repr] of a list and of a set of texts; the elements of a set come in
    the order in which the set is iterated. *)
Definition list_repr (items : list string) : string :=
  "[" ++ Str.join ", " (map Str.repr items) ++ "]".

Definition set_repr (items : list string) : string :=
  match items with
  | [] => "set()"
  | _ => "{" ++ Str.join ", " (map Str.repr items) ++ "}"
  end.

(** [x in s] for a set or a tuple of texts. *)
Definition set_mem (x : string) (s : list string) : bool :=
  existsb (String.eqb x) s.

(** The parentheses around the one text do not make a tuple: the valid
    output formats are a text. *)
Definition VALID_OUTPUT_FORMATS : string := "geojson".

Definition output_format_message (output_format_string : string) : string :=
  output_format_string ++ " is not a valid output format. "
  ++ String Str.nl "Valid output formats are: "
  ++ VALID_OUTPUT_FORMATS ++ ".".

Definition validate_output_format (output_format_string : string)
  : result value :=
  py_assert
    (Ok (Str.contains VALID_OUTPUT_FORMATS (Str.lower output_format_string)))
    (Ok (output_format_message output_format_string)) ;;;
  Ok VNone.

Definition find_most_similar_products (type_name : string)
  (all_products : list string) : list string :=
  filter (fun product =>
            Str.contains (Str.lower product) (Str.lower type_name))
         all_products.

(** A dictionary of the module [products], which is not among the sources:
    a set of names under the key [Open] and one under the key [Premium],
    each given in the order of its iteration. *)
Record product_dict : Type :=
  ProductDict { open_products : list string; premium_products : list string }.

Definition premium_only_message (type_name : string)
  (suggestions : list string) : string :=
  quoted type_name ++ " is only available as a Premium Product. "
  ++ String Str.nl (String Str.nl " Best matches: ")
  ++ list_repr suggestions.

Definition invalid_product_message (type_name : string)
  (all_products suggestions : list string) : string :=
  quoted type_name ++ " is not a valid Product. "
  ++ String Str.nl (String Str.nl "Available Products: ")
  ++ String Str.nl (set_repr all_products)
  ++ String Str.nl (String Str.nl "Best matches: ")
  ++ list_repr suggestions.

Definition api_service_message : string :=
  "Please use " ++ list_repr (map member_name API_Service_members).

(** [if v:] for an argument that is [False] by default and a text when it
    is given: the text, when there is one and it is not empty. *)
Definition supplied (argument : option string) : option string :=
  match argument with
  | Some (String c s) => Some (String c s)
  | _ => None
  end.

Section Catalogue.

(** [hasattr(API_Service, name)]: true of the names of the members, and of
    whatever else the class of an enumeration has as an attribute. *)
Variable has_attribute : string -> bool.

(** [getattr(products, name)]. *)
Variable products_attribute : string -> result product_dict.

(** The union of two sets; the order of its iteration is left open. *)
Variable set_union : list string -> list string -> list string.

Definition validate_api_service (api_service : string) : result value :=
  if negb (has_attribute api_service)
  then Raise (TypeError api_service_message)
  else Ok VNone.

Definition validate_type_name (type_name api_service : string)
  (allow_premium : bool) : result value :=
  let api_service := Str.lower api_service in
  validate_api_service api_service ;;;
  product_dict <- products_attribute (api_service ++ "_products") ;;
  let open_products := open_products product_dict in
  let premium_products := premium_products product_dict in
  let all_products := set_union open_products premium_products in
  let suggestions := find_most_similar_products type_name all_products in
  if negb allow_premium then
    if negb (set_mem type_name open_products)
       && set_mem type_name premium_products
    then Raise (ValueError (premium_only_message type_name suggestions))
    else if negb (set_mem type_name all_products)
    then Raise (ValueError
                  (invalid_product_message type_name all_products suggestions))
    else Ok (VBool (set_mem type_name open_products))
  else
    (if allow_premium then
       if negb (set_mem type_name all_products)
       then Raise (ValueError
                     (invalid_product_message type_name all_products
                        suggestions))
       else Ok tt
     else Ok tt) ;;;
    Ok (VBool true).

Definition validate_request_params (api_service : string)
  (allow_premium : bool) (type_name srs output_format : string)
  (bbox polygon_string : option string) : result value :=
  validate_type_name type_name api_service allow_premium ;;;
  validate_srs srs ;;;
  match supplied bbox with
  | Some b => validate_bbox b srs
  | None => Ok VNone
  end ;;;
  match supplied polygon_string with
  | Some p => validate_polygon_string p srs
  | None => Ok VNone
  end ;;;
  validate_output_format output_format ;;;
  Ok VNone.

End Catalogue.

Definition validate_api_key (api_key : value) : result value :=
  py_assert
    (Ok (Nat.eqb (String.length (py_str api_key)) 32))
    (Ok "OS Data Hub API Keys are 32 characters.") ;;;
  Ok VNone.

End ApiUtils.

(** ** Vocabulary of the statements *)

(** The extent that [validate_bbox] and [validate_polygon_string] pass on
    for each reference system: [min_x], [max_x], [min_y], [max_y]. *)
Record extent : Type := Extent { min_x : Z; max_x : Z; min_y : Z; max_y : Z }.

Definition extent_of (srs : string) : option extent :=
  if String.eqb srs "EPSG:4326" then Some (Extent (-7) 2 49 61)
  else if String.eqb srs "EPSG:27700" then Some (Extent 0 700000 0 1250000)
  else None.

(** The test that both validators apply to a value: [x > lo and x < hi]. *)
Definition within (lo hi : Z) (x : PyFloat.float) : bool :=
  PyFloat.gt_Z x lo && PyFloat.lt_Z x hi.

(** [x] is a number and lies in the open interval from [lo] to [hi]. *)
Definition strictly_inside (lo hi : Z) (x : PyFloat.float) : Prop :=
  exists q, PyFloat.value_of x = Some (PyFloat.Finite q)
            /\ (inject_Z lo < q)%Q /\ (q < inject_Z hi)%Q.

(** The order in which [_validate_bbox] reads the tokens of a bounding
    box: the two of the first assertion, then the two of the second. *)
Definition reading_order : list nat := [0; 2; 1; 3]%nat.

(** The range that the token at position [i] is held against, and the
    text of the assertion that fails when the token is outside: the
    positions 0 and 2 belong to the assertion on the latitude, 1 and 3 to
    the assertion on the longitude. *)
Definition range_at (ext : extent) (i : nat) : Z * Z :=
  if Nat.even i then (min_y ext, max_y ext) else (min_x ext, max_x ext).

Definition message_at (ext : extent) (fmt : string) (i : nat) : string :=
  if Nat.even i
  then ApiUtils.latitude_message (min_y ext) (max_y ext) fmt
  else ApiUtils.longitude_message (min_x ext) (max_x ext) fmt.

(** The token at position [i] is there, is a number and is inside its
    range. *)
Definition inside_at (tokens : list string) (ext : extent) (i : nat) : Prop :=
  exists t x,
    nth_error tokens i = Some t /\ PyFloat.of_string t = Some x
    /\ within (fst (range_at ext i)) (snd (range_at ext i)) x = true.

(** What goes wrong at position [i], for the extent [ext] and the format
    explanation [fmt]: the token is missing, is not a number, or is a
    number outside its range. *)
Inductive failure_at (tokens : list string) (ext : extent) (fmt : string)
  (i : nat) : exn -> Prop :=
| MissingToken :
    nth_error tokens i = None ->
    failure_at tokens ext fmt i (IndexError "list index out of range")
| BadToken (t : string) :
    nth_error tokens i = Some t -> PyFloat.of_string t = None ->
    failure_at tokens ext fmt i
      (ValueError ("could not convert string to float: " ++ Str.repr t))
| TokenOutside (t : string) (x : PyFloat.float) :
    nth_error tokens i = Some t -> PyFloat.of_string t = Some x ->
    within (fst (range_at ext i)) (snd (range_at ext i)) x = false ->
    failure_at tokens ext fmt i (AssertionError (message_at ext fmt i)).

(** The failure of a bounding box: what goes wrong at the first position,
    in the reading order, at which something goes wrong; the tokens read
    before are numbers inside their ranges. *)
Definition bbox_failure (tokens : list string) (ext : extent) (fmt : string)
  (e : exn) : Prop :=
  exists before i after,
    reading_order = (before ++ i :: after)%list
    /\ Forall (inside_at tokens ext) before
    /\ failure_at tokens ext fmt i e.

(** The same, computed along a list of positions. *)
Fixpoint first_failure (tokens : list string) (ext : extent) (fmt : string)
  (order : list nat) : option exn :=
  match order with
  | [] => None
  | i :: rest =>
      match nth_error tokens i with
      | None => Some (IndexError "list index out of range")
      | Some t =>
          match PyFloat.of_string t with
          | None =>
              Some (ValueError ("could not convert string to float: "
                                ++ Str.repr t))
          | Some x =>
              if within (fst (range_at ext i)) (snd (range_at ext i)) x
              then first_failure tokens ext fmt rest
              else Some (AssertionError (message_at ext fmt i))
          end
      end
  end.

(** A bounding box with fewer than four tokens, or with a token among the
    first four that is not a number. *)
Definition malformed_bbox (tokens : list string) : Prop :=
  (List.length tokens < 4)%nat
  \/ exists t, In t (firstn 4 tokens) /\ PyFloat.of_string t = None.

(** The text an exception carries. *)
Definition payload (e : exn) : string :=
  match e with
  | AssertionError msg | ValueError msg | IndexError msg | TypeError msg
  | AttributeError msg | PlainException msg => msg
  | KeyError key => Str.repr key
  | UnboundLocalError name =>
      "cannot access local variable '" ++ name
      ++ "' where it is not associated with a value"
  end.

(** Two characters, then two texts, that differ at most in the case of
    their letters. *)
Definition same_letter (c d : ascii) : Prop :=
  c = d \/ Str.lower_char c = d \/ c = Str.lower_char d.

Fixpoint eq_nocase (s t : string) : Prop :=
  match s, t with
  | EmptyString, EmptyString => True
  | String c s', String d t' => same_letter c d /\ eq_nocase s' t'
  | _, _ => False
  end.

(** The single-line filter that the specification gives as the output
    form, for the code [code] of the reference system and the coordinate
    text [coords]. *)
Definition spec_filter_form (code coords : string) : string :=
  "<ogc:Filter><ogc:Intersects><ogc:PropertyName>SHAPE</ogc:PropertyName><gml:Polygon srsName="
  ++ quoted ("urn:ogc:def:crs:EPSG::" ++ code)
  ++ "><gml:outerBoundaryIs><gml:LinearRing><gml:coordinates>"
  ++ coords
  ++ "</gml:coordinates></gml:LinearRing></gml:outerBoundaryIs></gml:Polygon></ogc:Intersects></ogc:Filter>".

(** The polygon text of the specification's example. *)
Definition example_polygon : string :=
  "49.9,-1.1 50.1,-1.1 50.1,-0.9 49.9,-0.9".

(** A polygon text whose two vertices stand on two lines. *)
Definition two_line_polygon : string := "50,0" ++ String Str.nl " 51,1".

(** The values of the example polygon, vertex by vertex. *)
Definition example_pairs : list (PyFloat.float * PyFloat.float) :=
  [ (S754_finite false 7022800668930867 (-47),
     S754_finite true 4953959590107546 (-52));
    (S754_finite false 7050948166601933 (-47),
     S754_finite true 4953959590107546 (-52));
    (S754_finite false 7050948166601933 (-47),
     S754_finite true 8106479329266893 (-53));
    (S754_finite false 7022800668930867 (-47),
     S754_finite true 8106479329266893 (-53)) ].

(** A polygon text whose second vertex has a latitude that is not a
    number. *)
Definition nan_polygon : string := "50,0 nan,0 51,1".

(** The rows of a polygon text that is well formed: one pair of values for
    each vertex. *)
Definition rows_of (pairs : list (PyFloat.float * PyFloat.float))
  : list (list PyFloat.float) :=
  map (fun p => [fst p; snd p]) pairs.

(** A GeoJSON feature with the given geometry type, coordinates and
    properties. *)
Definition feature (geometry_type : string) (coordinates properties : value)
  : value :=
  VDict [("type", VStr "Feature");
         ("geometry", VDict [("type", VStr geometry_type);
                             ("coordinates", coordinates)]);
         ("properties", properties)].

(** The features that [convert_single_feature_to_geojson] converts: they
    have a first ring that the geometry constructor accepts, and
    properties. *)
Definition convertible (clean_coordinates : value -> result value)
  (f : value) : Prop :=
  exists ring cleaned props,
    (g <- subscript_key f "geometry" ;;
     c <- subscript_key g "coordinates" ;;
     subscript_first c) = Ok ring
    /\ clean_coordinates (if truthy ring then ring else VList []) = Ok cleaned
    /\ subscript_key f "properties" = Ok props.

(** A feature typed [LineString], with integer coordinates. *)
Definition linestring_feature (properties : value) : value :=
  feature "LineString"
    (VList [VList [VInt 0; VInt 51]; VList [VInt 1; VInt 52]]) properties.

(** A ring of coordinate pairs as GeoJSON holds it, and the text of one
    pair with its second value first. *)
Definition ring_value (pairs : list (value * value)) : value :=
  VList (map (fun p => VList [fst p; snd p]) pairs).

Definition pair_text (p : value * value) : string :=
  py_str (snd p) ++ "," ++ py_str (fst p).

(** The ring that the parsed vertices of a polygon text stand for, each
    vertex turned around into the order of GeoJSON. *)
Definition ring_of_parsed (vertices : list (list PyFloat.float)) : value :=
  VList (map (fun v => VList (rev (map VFloat v))) vertices).

(** A token in the notation that [str] gives to a float, and a vertex made
    of two such tokens. *)
Definition canonical_token (tok : string) : Prop :=
  exists x, PyFloat.of_string tok = Some x /\ PyFloat.to_string x = tok.

Definition canonical_vertex (v : string) : Prop :=
  exists a b, Str.split "," v = [a; b]
              /\ canonical_token a /\ canonical_token b.

(** A ring with integer coordinates, and the text of a polygon with integer
    literals. *)
Definition integer_ring : value :=
  ring_value [(VInt 0, VInt 51); (VInt 1, VInt 51); (VInt 1, VInt 52)].

Definition integer_polygon : string := "51,0 51,1 52,1".

(** The exception that [float] raises on a token that is no numeral. *)
Definition float_error (t : string) : exn :=
  ValueError ("could not convert string to float: " ++ Str.repr t).

(** A float that is a number. *)
Definition is_number (x : PyFloat.float) : bool := negb (PyFloat.is_nan x).

(** Text made of the whitespace that [float] skips, and a token with such
    text on either side. *)
Fixpoint blank (w : string) : bool :=
  match w with
  | EmptyString => true
  | String c w' => PyFloat.is_space c && blank w'
  end.

Definition padded (t u : string) : Prop :=
  exists w w', blank w = true /\ blank w' = true /\ u = w ++ t ++ w'.

(** A class of services and a module of products to run the validators
    on. *)
Definition example_services (name : string) : bool :=
  ApiUtils.set_mem name (map ApiUtils.member_name ApiUtils.API_Service_members).

Definition example_products (name : string) : result ApiUtils.product_dict :=
  if String.eqb name "wfs_products"
  then Ok (ApiUtils.ProductDict ["Zoomstack_Names"; "Zoomstack_Sites"]
             ["Topography_TopographicArea"])
  else Raise (AttributeError
                ("module 'os_paw.products' has no attribute "
                 ++ Str.repr name)).

(** The characters of the numerals that [str] writes for integers and
    floats, and the texts made of such characters. *)
Definition numeral_char (c : ascii) : bool :=
  PyFloat.is_digit c || Str.mem c ".e+-infa".

Fixpoint numeral_text (s : string) : bool :=
  match s with
  | EmptyString => true
  | String c s' => numeral_char c && numeral_text s'
  end.

(** An integer or a float. *)
Definition is_numeric (v : value) : bool :=
  match v with
  | VInt _ | VFloat _ => true
  | _ => false
  end.

(** The text of a position of any length: its values from the last to the
    first, with commas in between. *)
Definition position_text (position : list value) : string :=
  Str.join "," (map py_str (rev position)).

(** ** Facts about the text built-ins *)

Module StrFacts.

Import Str.

Lemma split_not_nil (c : ascii) (s : string) : split c s <> [].
Proof.
  destruct s as [|d s]; simpl; [discriminate|].
  destruct (Ascii.eqb d c); [discriminate|].
  destruct (split c s); discriminate.
Qed.

Lemma split_absent (c : ascii) (s : string) :
  mem c s = false -> split c s = [s].
Proof.
  induction s as [|d s IH]; simpl; intros H; [reflexivity|].
  apply orb_false_iff in H. destruct H as [Hd Hs].
  rewrite Hd, (IH Hs). reflexivity.
Qed.

Lemma split_present (c : ascii) (s : string) :
  mem c s = true -> exists t u rest, split c s = t :: u :: rest.
Proof.
  induction s as [|d s IH]; simpl; intros H; [discriminate|].
  destruct (Ascii.eqb d c) eqn:Hd.
  - destruct (split c s) as [|u rest] eqn:E.
    + exfalso. exact (split_not_nil c s E).
    + exists EmptyString, u, rest. reflexivity.
  - simpl in H. destruct (IH H) as (t & u & rest & E).
    rewrite E. exists (String d t), u, rest. reflexivity.
Qed.

Lemma split_app_sep (c : ascii) (a b : string) :
  mem c a = false -> split c (a ++ String c b) = a :: split c b.
Proof.
  induction a as [|d a IH]; simpl; intros H.
  - rewrite Ascii.eqb_refl. reflexivity.
  - apply orb_false_iff in H. destruct H as [Hd Ha].
    rewrite Hd, (IH Ha). reflexivity.
Qed.

Lemma mem_app (c : ascii) (a b : string) :
  mem c (a ++ b) = mem c a || mem c b.
Proof.
  induction a as [|d a IH]; simpl; [reflexivity|].
  rewrite IH, orb_assoc. reflexivity.
Qed.

Lemma join_split (c : ascii) (s : string) :
  join (String c EmptyString) (split c s) = s.
Proof.
  induction s as [|d s IH]; simpl; [reflexivity|].
  destruct (Ascii.eqb_spec d c) as [->|Hd].
  - destruct (split c s) as [|u rest] eqn:E.
    + exfalso. exact (split_not_nil c s E).
    + simpl. simpl in IH. rewrite IH. reflexivity.
  - destruct (split c s) as [|u rest] eqn:E.
    + exfalso. exact (split_not_nil c s E).
    + destruct rest as [|v rest]; simpl in *; rewrite <- IH; reflexivity.
Qed.

Lemma prefix_refl (t : string) : String.prefix t t = true.
Proof.
  induction t as [|c t IH]; simpl; [reflexivity|].
  destruct (ascii_dec c c) as [_|H]; [exact IH | contradiction].
Qed.

Lemma contains_unfold (s t : string) :
  contains s t
  = String.prefix t s
    || match s with
       | EmptyString => false
       | String _ s' => contains s' t
       end.
Proof. destruct s; reflexivity. Qed.

Lemma contains_suffix (a b : string) : contains (a ++ b) b = true.
Proof.
  induction a as [|c a IH]; rewrite contains_unfold.
  - cbn [append]. rewrite prefix_refl. reflexivity.
  - cbn [append]. rewrite IH. apply orb_true_r.
Qed.

Lemma prefix_mem (c : ascii) (t s : string) :
  String.prefix t s = true -> mem c t = true -> mem c s = true.
Proof.
  revert s. induction t as [|d t IH]; intros s Hp Hm; [discriminate|].
  destruct s as [|e s]; simpl in Hp; [discriminate|].
  destruct (ascii_dec d e) as [<-|_]; [|discriminate].
  simpl in *. destruct (Ascii.eqb d c); [reflexivity|].
  simpl in *. apply (IH s Hp Hm).
Qed.

(** Text that lacks a character of [t] does not contain [t]. *)
Lemma contains_needs (c : ascii) (s t : string) :
  mem c t = true -> mem c s = false -> contains s t = false.
Proof.
  intros Ht. induction s as [|d s IH]; intros Hs.
  - destruct t; [discriminate | reflexivity].
  - simpl in Hs. apply orb_false_iff in Hs. destruct Hs as [Hd Hs].
    rewrite contains_unfold, (IH Hs), orb_false_r.
    destruct (String.prefix t (String d s)) eqn:Hp; [|reflexivity].
    pose proof (prefix_mem c t (String d s) Hp Ht) as H.
    simpl in H. rewrite Hd, Hs in H. discriminate.
Qed.

Lemma contains_refl (t : string) : contains t t = true.
Proof.
  rewrite contains_unfold, prefix_refl. reflexivity.
Qed.

Lemma contains_app_r (a b t : string) :
  contains b t = true -> contains (a ++ b) t = true.
Proof.
  intros H. induction a as [|c a IH]; [exact H|].
  rewrite contains_unfold. cbn [append]. rewrite IH. apply orb_true_r.
Qed.

Lemma escape_char_comma (q c : ascii) :
  q = single_quote \/ q = double_quote ->
  Ascii.eqb c "," = false -> mem "," (escape_char q c) = false.
Proof.
  intros [->| ->];
    destruct c as [[] [] [] [] [] [] [] []]; intros H;
    first [discriminate H | reflexivity].
Qed.

Lemma escape_comma (q : ascii) (t : string) :
  q = single_quote \/ q = double_quote ->
  mem "," t = false -> mem "," (escape q t) = false.
Proof.
  intros Hq. induction t as [|c t IH]; intros H; [reflexivity|].
  simpl in H. apply orb_false_iff in H. destruct H as [Hc Ht].
  cbn [escape]. rewrite mem_app, (escape_char_comma q c Hq Hc), (IH Ht).
  reflexivity.
Qed.

Lemma repr_comma (t : string) : mem "," t = false -> mem "," (repr t) = false.
Proof.
  intros H. unfold repr.
  assert (Hq : forall b : bool,
             (if b then double_quote else single_quote) = single_quote
             \/ (if b then double_quote else single_quote) = double_quote)
    by (intros []; auto).
  specialize (Hq (mem single_quote t && negb (mem double_quote t))).
  revert Hq.
  generalize (if mem single_quote t && negb (mem double_quote t)
              then double_quote else single_quote).
  intros q Hq.
  assert (Hqc : Ascii.eqb q "," = false) by (destruct Hq as [->| ->]; reflexivity).
  cbn [mem]. rewrite Hqc, mem_app, (escape_comma q t Hq H).
  cbn [mem]. rewrite Hqc. reflexivity.
Qed.

Lemma split_parts_free (c : ascii) (s : string) :
  Forall (fun l => mem c l = false) (split c s).
Proof.
  induction s as [|d s IH]; simpl; [repeat constructor|].
  destruct (Ascii.eqb d c) eqn:Hd; [constructor; [reflexivity | exact IH]|].
  destruct (split c s) as [|t ts]; [repeat constructor; simpl; now rewrite Hd|].
  inversion IH as [|? ? Ht Hts]; subst.
  constructor; [simpl; now rewrite Hd, Ht | exact Hts].
Qed.

End StrFacts.

(** ** Facts about comprehensions *)

Module ComprehensionFacts.

Lemma comprehension_length {A B : Type} (f : A -> result B) (xs : list A)
  (ys : list B) :
  comprehension f xs = Ok ys -> List.length ys = List.length xs.
Proof.
  revert ys. induction xs as [|x xs IH]; simpl; intros ys H.
  - injection H as <-. reflexivity.
  - destruct (f x) as [y|e]; simpl in H; [|discriminate].
    destruct (comprehension f xs) as [ys'|e]; simpl in H; [|discriminate].
    injection H as <-. simpl. now rewrite (IH ys').
Qed.

Lemma comprehension_nth {A B : Type} (f : A -> result B) (xs : list A)
  (ys : list B) (i : nat) (x : A) :
  comprehension f xs = Ok ys -> nth_error xs i = Some x ->
  exists y, nth_error ys i = Some y /\ f x = Ok y.
Proof.
  revert ys i. induction xs as [|x' xs IH]; simpl; intros ys i H Hi.
  - destruct i; discriminate.
  - destruct (f x') as [y'|e] eqn:Ey; simpl in H; [|discriminate].
    destruct (comprehension f xs) as [ys'|e]; simpl in H; [|discriminate].
    injection H as <-. destruct i as [|i]; simpl in *.
    + injection Hi as <-. eauto.
    + apply (IH ys' i eq_refl Hi).
Qed.

Lemma comprehension_total {A B : Type} (f : A -> result B) (xs : list A) :
  Forall (fun x => exists y, f x = Ok y) xs ->
  exists ys, comprehension f xs = Ok ys.
Proof.
  induction 1 as [|x xs [y Hy] _ [ys IH]]; simpl; [eauto|].
  rewrite Hy, IH. simpl. eauto.
Qed.

End ComprehensionFacts.

(** ** The order of floats *)

Module FloatOrder.

Import PyFloat.

Lemma ltb_finite (p q : Q) :
  ereal_ltb (Finite p) (Finite q) = true <-> (p < q)%Q.
Proof.
  unfold ereal_ltb. rewrite Qlt_alt.
  destruct (p ?= q)%Q; split; intros H; try reflexivity; discriminate H.
Qed.

Lemma ltb_finite_false (p q : Q) :
  ereal_ltb (Finite p) (Finite q) = false <-> (q <= p)%Q.
Proof.
  rewrite <- not_true_iff_false, ltb_finite. split.
  - apply Qnot_lt_le.
  - intros H1 H2. apply (Qlt_not_le _ _ H2 H1).
Qed.

Lemma ltb_trans (a b c : ereal) :
  ereal_ltb a b = true -> ereal_ltb b c = true -> ereal_ltb a c = true.
Proof.
  destruct a as [|p|], b as [|q|], c as [|r|]; try reflexivity; try discriminate.
  rewrite !ltb_finite. apply Qlt_trans.
Qed.

(** [a < b] and [b <= c] give [a < c]. *)
Lemma ltb_le_trans (a b c : ereal) :
  ereal_ltb a b = true -> ereal_ltb c b = false -> ereal_ltb a c = true.
Proof.
  destruct a as [|p|], b as [|q|], c as [|r|]; try reflexivity; try discriminate.
  rewrite ltb_finite_false, !ltb_finite. apply Qlt_le_trans.
Qed.

(** [a <= b] and [b < c] give [a < c]. *)
Lemma le_ltb_trans (a b c : ereal) :
  ereal_ltb b a = false -> ereal_ltb b c = true -> ereal_ltb a c = true.
Proof.
  destruct a as [|p|], b as [|q|], c as [|r|]; try reflexivity; try discriminate.
  rewrite ltb_finite_false, !ltb_finite. apply Qle_lt_trans.
Qed.

Lemma number_value (x : float) :
  is_nan x = false <-> exists v, value_of x = Some v.
Proof.
  destruct x; simpl; split; intros H; try reflexivity; eauto.
  - discriminate H.
  - destruct H as [v H]. discriminate H.
Qed.

Lemma min_step_number (x best : float) :
  is_nan x = false -> is_nan best = false ->
  is_nan (if ltb x best then x else best) = false.
Proof. intros; destruct (ltb x best); assumption. Qed.

Lemma max_step_number (x best : float) :
  is_nan x = false -> is_nan best = false ->
  is_nan (if gtb x best then x else best) = false.
Proof. intros; destruct (gtb x best); assumption. Qed.

(** Among numbers, the minimum is above a bound exactly when every element
    is. *)
Lemma py_min_above (lo : Z) (rest : list float) (first : float) :
  is_nan first = false -> Forall (fun x => is_nan x = false) rest ->
  gt_Z (py_min first rest) lo = true
  <-> Forall (fun x => gt_Z x lo = true) (first :: rest).
Proof.
  revert first. induction rest as [|x rest IH]; intros first Hf Hr.
  - simpl. split; [intros H; repeat constructor; exact H|].
    intros H. inversion H; assumption.
  - inversion Hr as [|? ? Hx Hrest]; subst.
    change (py_min first (x :: rest))
      with (py_min (if ltb x first then x else first) rest).
    rewrite (IH _ (min_step_number x first Hx Hf) Hrest).
    apply number_value in Hf, Hx. destruct Hf as [vf Ef], Hx as [vx Ex].
    assert (Hstep : gt_Z (if ltb x first then x else first) lo = true
                    <-> gt_Z first lo = true /\ gt_Z x lo = true).
    { unfold ltb, gt_Z. rewrite Ex, Ef.
      destruct (ereal_ltb vx vf) eqn:E; rewrite ?Ex, ?Ef.
      - split; [|tauto]. intros H. split; [|exact H].
        apply (ltb_trans _ _ _ H E).
      - split; [|tauto]. intros H. split; [exact H|].
        apply (ltb_le_trans _ _ _ H E). }
    split.
    + intros H. inversion H as [|? ? Hb Hrest']; subst.
      apply Hstep in Hb. destruct Hb. repeat constructor; assumption.
    + intros H. inversion H as [|? ? H1 H2]; subst.
      inversion H2 as [|? ? H3 H4]; subst.
      constructor; [apply Hstep; tauto | assumption].
Qed.

(** Among numbers, the maximum is below a bound exactly when every element
    is. *)
Lemma py_max_below (hi : Z) (rest : list float) (first : float) :
  is_nan first = false -> Forall (fun x => is_nan x = false) rest ->
  lt_Z (py_max first rest) hi = true
  <-> Forall (fun x => lt_Z x hi = true) (first :: rest).
Proof.
  revert first. induction rest as [|x rest IH]; intros first Hf Hr.
  - simpl. split; [intros H; repeat constructor; exact H|].
    intros H. inversion H; assumption.
  - inversion Hr as [|? ? Hx Hrest]; subst.
    change (py_max first (x :: rest))
      with (py_max (if gtb x first then x else first) rest).
    rewrite (IH _ (max_step_number x first Hx Hf) Hrest).
    apply number_value in Hf, Hx. destruct Hf as [vf Ef], Hx as [vx Ex].
    assert (Hstep : lt_Z (if gtb x first then x else first) hi = true
                    <-> lt_Z first hi = true /\ lt_Z x hi = true).
    { unfold gtb, ltb, lt_Z. rewrite Ex, Ef.
      destruct (ereal_ltb vf vx) eqn:E; rewrite ?Ex, ?Ef.
      - split; [|tauto]. intros H. split; [|exact H].
        apply (ltb_trans _ _ _ E H).
      - split; [|tauto]. intros H. split; [exact H|].
        apply (le_ltb_trans _ _ _ E H). }
    split.
    + intros H. inversion H as [|? ? Hb Hrest']; subst.
      apply Hstep in Hb. destruct Hb. repeat constructor; assumption.
    + intros H. inversion H as [|? ? H1 H2]; subst.
      inversion H2 as [|? ? H3 H4]; subst.
      constructor; [apply Hstep; tauto | assumption].
Qed.

End FloatOrder.

(** ** Reference systems *)

Module SrsFacts.

Import ApiUtils.

Lemma validate_srs_supported (srs : string) :
  In srs VALID_SPATIAL_REFERENCE_SYSTEMS -> validate_srs srs = Ok VNone.
Proof.
  intros [<-|[<-|[]]]; reflexivity.
Qed.

Lemma validate_srs_unsupported (srs : string) :
  ~ In srs VALID_SPATIAL_REFERENCE_SYSTEMS ->
  validate_srs srs = Raise (AssertionError (srs_message srs)).
Proof.
  intros H. unfold validate_srs, py_assert. simpl.
  destruct (String.eqb_spec srs "EPSG:4326") as [->|_].
  - exfalso. apply H. simpl. auto.
  - destruct (String.eqb_spec srs "EPSG:27700") as [->|_].
    + exfalso. apply H. simpl. auto.
    + reflexivity.
Qed.

Lemma extent_of_supported (srs : string) :
  In srs VALID_SPATIAL_REFERENCE_SYSTEMS <-> exists ext, extent_of srs = Some ext.
Proof.
  unfold extent_of. split.
  - intros [<-|[<-|[]]]; simpl; eauto.
  - intros [ext H].
    destruct (String.eqb_spec srs "EPSG:4326") as [->|_]; [simpl; auto|].
    destruct (String.eqb_spec srs "EPSG:27700") as [->|_]; [simpl; auto|].
    discriminate.
Qed.

(** C2. Under a reference system other than the two supported ones,
    [validate_bbox] and [validate_polygon_string] fail with the assertion of
    [validate_srs], whatever the coordinate text is: the text is not looked
    at. *)
Theorem unsupported_srs_rejected_before_parsing (srs text : string) :
  ~ In srs VALID_SPATIAL_REFERENCE_SYSTEMS ->
  validate_bbox text srs = Raise (AssertionError (srs_message srs))
  /\ validate_polygon_string text srs
     = Raise (AssertionError (srs_message srs)).
Proof.
  intros H. unfold validate_bbox, validate_polygon_string.
  rewrite (validate_srs_unsupported srs H). split; reflexivity.
Qed.

Lemma unsupported_srs_rejected_before_parsing_witness :
  validate_bbox "not,a,bounding,box" "EPSG:3857"
  = Raise (AssertionError (srs_message "EPSG:3857"))
  /\ validate_polygon_string "not,a,bounding,box" "EPSG:3857"
     = Raise (AssertionError (srs_message "EPSG:3857")).
Proof.
  apply (unsupported_srs_rejected_before_parsing "EPSG:3857" "not,a,bounding,box").
  simpl. intros [H|[H|[]]]; discriminate H.
Defined.

End SrsFacts.

(** ** Bounding boxes *)

Module BboxFacts.

Import ApiUtils.

(** The text [49.5] is read as the number 99/2, and the two bounding
    boxes of the specification behave as it says. *)
Example float_of_text :
  exists x q,
    PyFloat.of_string "49.5" = Some x
    /\ PyFloat.value_of x = Some (PyFloat.Finite q) /\ (q == 99 # 2)%Q.
Proof.
  do 2 eexists. split; [vm_compute; reflexivity|].
  split; [reflexivity | vm_compute; reflexivity].
Qed.

Example bbox_of_the_specification :
  validate_bbox "49.5,-6,60,1" "EPSG:4326" = Ok VNone
  /\ exists fmt,
      bbox_msg "EPSG:4326" = Ok fmt
      /\ validate_bbox "48,-6,60,1" "EPSG:4326"
         = Raise (AssertionError (latitude_message 49 61 fmt)).
Proof.
  split; [vm_compute; reflexivity|].
  eexists. split; [reflexivity | vm_compute; reflexivity].
Qed.

(** A value exactly on a bound is outside. *)
Example bound_is_outside :
  exists fmt,
    bbox_msg "EPSG:4326" = Ok fmt
    /\ validate_bbox "49.5,2,60,1" "EPSG:4326"
       = Raise (AssertionError (longitude_message (-7) 2 fmt))
    /\ validate_bbox "49.5,1.9999999999999999999,60,1" "EPSG:4326"
       = Raise (AssertionError (longitude_message (-7) 2 fmt))
    /\ validate_bbox "49.5,1.999999999999999,60,1" "EPSG:4326" = Ok VNone.
Proof.
  eexists. split; [reflexivity|]. repeat split; vm_compute; reflexivity.
Qed.

Lemma within_inside (lo hi : Z) (x : PyFloat.float) :
  within lo hi x = true <-> strictly_inside lo hi x.
Proof.
  unfold within, strictly_inside, PyFloat.gt_Z, PyFloat.lt_Z.
  rewrite andb_true_iff.
  destruct (PyFloat.value_of x) as [[|q|]|].
  - split; [intros [H _]; discriminate H | intros (q & H & _); discriminate].
  - rewrite !FloatOrder.ltb_finite. split.
    + intros [H1 H2]. exists q. auto.
    + intros (q' & E & H1 & H2). injection E as <-. auto.
  - split; [intros [_ H]; discriminate H | intros (q & H & _); discriminate].
  - split; [intros [H _]; discriminate H | intros (q & H & _); discriminate].
Qed.

Lemma nan_not_inside (lo hi : Z) : ~ strictly_inside lo hi PyFloat.nan.
Proof.
  intros (q & H & _). discriminate.
Qed.

Lemma token_within_eq (tokens : list string) (i : nat) (lo hi : Z) :
  token_within tokens i lo hi
  = match nth_error tokens i with
    | None => Raise (IndexError "list index out of range")
    | Some t =>
        match PyFloat.of_string t with
        | None => Raise (ValueError ("could not convert string to float: "
                                     ++ Str.repr t))
        | Some x => Ok (within lo hi x)
        end
    end.
Proof.
  unfold token_within, and_then, bind, list_item, to_float, within.
  destruct (nth_error tokens i) as [t|]; [|reflexivity].
  destruct (PyFloat.of_string t) as [x|]; [|reflexivity].
  destruct (PyFloat.gt_Z x lo); reflexivity.
Qed.

(** What [_validate_bbox] does when the first four tokens are numeric. *)
Lemma bbox_numeric (bbox srs fmt : string) (lo_x hi_x lo_y hi_y : Z)
  (t0 t1 t2 t3 : string) (extra : list string) (a b c d : PyFloat.float) :
  Str.split "," bbox = t0 :: t1 :: t2 :: t3 :: extra ->
  bbox_msg srs = Ok fmt ->
  PyFloat.of_string t0 = Some a -> PyFloat.of_string t1 = Some b ->
  PyFloat.of_string t2 = Some c -> PyFloat.of_string t3 = Some d ->
  _validate_bbox bbox srs lo_x hi_x lo_y hi_y
  = if within lo_y hi_y a && within lo_y hi_y c
    then if within lo_x hi_x b && within lo_x hi_x d
         then Ok VNone
         else Raise (AssertionError (longitude_message lo_x hi_x fmt))
    else Raise (AssertionError (latitude_message lo_y hi_y fmt)).
Proof.
  intros Hs Hm Ha Hb Hc Hd. unfold _validate_bbox.
  rewrite Hs, Hm, !token_within_eq. cbn [nth_error].
  rewrite Ha, Hb, Hc, Hd. unfold py_assert, and_then, bind.
  destruct (within lo_y hi_y a), (within lo_y hi_y c),
    (within lo_x hi_x b), (within lo_x hi_x d); reflexivity.
Qed.

Lemma validate_bbox_extent (bbox srs : string) (ext : extent) :
  extent_of srs = Some ext ->
  validate_bbox bbox srs
  = _validate_bbox bbox srs (min_x ext) (max_x ext) (min_y ext) (max_y ext)
  /\ exists fmt, bbox_msg srs = Ok fmt.
Proof.
  unfold extent_of, validate_bbox, bbox_msg.
  destruct (String.eqb_spec srs "EPSG:4326") as [->|_].
  - intros H. injection H as <-. split; [reflexivity | eauto].
  - destruct (String.eqb_spec srs "EPSG:27700") as [->|_]; [|discriminate].
    intros H. injection H as <-. split; [reflexivity | eauto].
Qed.

Ltac run_bbox :=
  unfold py_assert, and_then, bind;
  repeat match goal with
         | |- context [match PyFloat.of_string ?t with _ => _ end] =>
             let E := fresh "Eparse" in destruct (PyFloat.of_string t) eqn:E
         | |- context [if within ?lo ?hi ?x then _ else _] =>
             let E := fresh "Ewithin" in destruct (within lo hi x) eqn:E
         end.

(** A bounding box with four tokens or more passes exactly when its first
    four tokens are numbers inside the extent: the first and the third in
    the range of [y], the second and the fourth in the range of [x]. *)
Lemma validate_bbox_passes_iff (bbox srs : string) (ext : extent)
  (t0 t1 t2 t3 : string) (extra : list string) :
  extent_of srs = Some ext ->
  Str.split "," bbox = t0 :: t1 :: t2 :: t3 :: extra ->
  validate_bbox bbox srs = Ok VNone
  <-> exists a b c d,
      PyFloat.of_string t0 = Some a /\ PyFloat.of_string t1 = Some b
      /\ PyFloat.of_string t2 = Some c /\ PyFloat.of_string t3 = Some d
      /\ strictly_inside (min_y ext) (max_y ext) a
      /\ strictly_inside (min_x ext) (max_x ext) b
      /\ strictly_inside (min_y ext) (max_y ext) c
      /\ strictly_inside (min_x ext) (max_x ext) d.
Proof.
  intros Hext Hs. destruct (validate_bbox_extent bbox srs ext Hext) as [-> [fmt Hm]].
  split.
  - unfold _validate_bbox. rewrite Hs, Hm, !token_within_eq. cbn [nth_error].
    run_bbox; intros H; try discriminate H.
    do 4 eexists. repeat split; try reflexivity; apply within_inside; assumption.
  - intros (a & b & c & d & Ha & Hb & Hc & Hd & Ia & Ib & Ic & Id).
    rewrite (bbox_numeric bbox srs fmt _ _ _ _ t0 t1 t2 t3 extra a b c d Hs Hm Ha Hb Hc Hd).
    apply within_inside in Ia, Ib, Ic, Id. rewrite Ia, Ib, Ic, Id. reflexivity.
Qed.

(** The outcome is a function of the first four tokens. *)
Lemma validate_bbox_first_four (bbox bbox' srs : string)
  (t0 t1 t2 t3 : string) (extra extra' : list string) :
  Str.split "," bbox = t0 :: t1 :: t2 :: t3 :: extra ->
  Str.split "," bbox' = t0 :: t1 :: t2 :: t3 :: extra' ->
  validate_bbox bbox' srs = validate_bbox bbox srs.
Proof.
  intros Hs Hs'. unfold validate_bbox, _validate_bbox.
  rewrite Hs, Hs', !token_within_eq. reflexivity.
Qed.

(** C9. When a bounding box has more than four tokens, [validate_bbox]
    under a supported reference system passes exactly when the first four
    tokens are numbers strictly inside the extent, and its outcome is the
    same whatever the tokens after the fourth are. *)
Theorem validate_bbox_ignores_extra_tokens (bbox srs : string) (ext : extent)
  (t0 t1 t2 t3 : string) (extra : list string) :
  extent_of srs = Some ext ->
  Str.split "," bbox = t0 :: t1 :: t2 :: t3 :: extra ->
  extra <> [] ->
  (validate_bbox bbox srs = Ok VNone
   <-> exists a b c d,
       PyFloat.of_string t0 = Some a /\ PyFloat.of_string t1 = Some b
       /\ PyFloat.of_string t2 = Some c /\ PyFloat.of_string t3 = Some d
       /\ strictly_inside (min_y ext) (max_y ext) a
       /\ strictly_inside (min_x ext) (max_x ext) b
       /\ strictly_inside (min_y ext) (max_y ext) c
       /\ strictly_inside (min_x ext) (max_x ext) d)
  /\ (forall bbox' extra',
        Str.split "," bbox' = t0 :: t1 :: t2 :: t3 :: extra' ->
        validate_bbox bbox' srs = validate_bbox bbox srs).
Proof.
  intros Hext Hs _. split.
  - apply (validate_bbox_passes_iff bbox srs ext t0 t1 t2 t3 extra Hext Hs).
  - intros bbox' extra' Hs'.
    apply (validate_bbox_first_four bbox bbox' srs t0 t1 t2 t3 extra extra' Hs Hs').
Qed.

(** A bounding box whose first four tokens are numbers passes exactly when
    the four values are inside the extent; it fails with the assertion on
    the latitude when the first or the third value is outside the range of
    [y], and with the assertion on the longitude when those are inside and
    the second or the fourth value is outside the range of [x]. *)
Theorem validate_bbox_exact (bbox srs : string) (ext : extent)
  (t0 t1 t2 t3 : string) (extra : list string) (a b c d : PyFloat.float) :
  extent_of srs = Some ext ->
  Str.split "," bbox = t0 :: t1 :: t2 :: t3 :: extra ->
  PyFloat.of_string t0 = Some a -> PyFloat.of_string t1 = Some b ->
  PyFloat.of_string t2 = Some c -> PyFloat.of_string t3 = Some d ->
  exists fmt,
    bbox_msg srs = Ok fmt
    /\ (validate_bbox bbox srs = Ok VNone
        <-> strictly_inside (min_y ext) (max_y ext) a
            /\ strictly_inside (min_x ext) (max_x ext) b
            /\ strictly_inside (min_y ext) (max_y ext) c
            /\ strictly_inside (min_x ext) (max_x ext) d)
    /\ (~ (strictly_inside (min_y ext) (max_y ext) a
           /\ strictly_inside (min_y ext) (max_y ext) c) ->
        validate_bbox bbox srs
        = Raise (AssertionError
                   (latitude_message (min_y ext) (max_y ext) fmt)))
    /\ (strictly_inside (min_y ext) (max_y ext) a ->
        strictly_inside (min_y ext) (max_y ext) c ->
        ~ (strictly_inside (min_x ext) (max_x ext) b
           /\ strictly_inside (min_x ext) (max_x ext) d) ->
        validate_bbox bbox srs
        = Raise (AssertionError
                   (longitude_message (min_x ext) (max_x ext) fmt))).
Proof.
  intros Hext Hs Ha Hb Hc Hd.
  destruct (validate_bbox_extent bbox srs ext Hext) as [-> [fmt Hm]].
  exists fmt. split; [exact Hm|].
  rewrite (bbox_numeric bbox srs fmt _ _ _ _ t0 t1 t2 t3 extra a b c d
             Hs Hm Ha Hb Hc Hd).
  rewrite <- !within_inside.
  destruct (within (min_y ext) (max_y ext) a),
    (within (min_y ext) (max_y ext) c),
    (within (min_x ext) (max_x ext) b),
    (within (min_x ext) (max_x ext) d); cbn [andb];
    repeat split; try tauto; try congruence;
    intros Hrun; try discriminate Hrun;
    try (exfalso; apply Hrun; split; reflexivity);
    try (destruct Hrun as (? & ? & ? & ?); discriminate).
Qed.

Lemma validate_bbox_exact_witness :
  exists fmt,
    bbox_msg "EPSG:4326" = Ok fmt
    /\ (validate_bbox "48,-6,60,1" "EPSG:4326" = Ok VNone
        <-> strictly_inside 49 61 (S754_finite false 6755399441055744 (-47))
            /\ strictly_inside (-7) 2 (S754_finite true 6755399441055744 (-50))
            /\ strictly_inside 49 61 (S754_finite false 8444249301319680 (-47))
            /\ strictly_inside (-7) 2 (S754_finite false 4503599627370496 (-52)))
    /\ (~ (strictly_inside 49 61 (S754_finite false 6755399441055744 (-47))
           /\ strictly_inside 49 61
                (S754_finite false 8444249301319680 (-47))) ->
        validate_bbox "48,-6,60,1" "EPSG:4326"
        = Raise (AssertionError (latitude_message 49 61 fmt)))
    /\ (strictly_inside 49 61 (S754_finite false 6755399441055744 (-47)) ->
        strictly_inside 49 61 (S754_finite false 8444249301319680 (-47)) ->
        ~ (strictly_inside (-7) 2 (S754_finite true 6755399441055744 (-50))
           /\ strictly_inside (-7) 2
                (S754_finite false 4503599627370496 (-52))) ->
        validate_bbox "48,-6,60,1" "EPSG:4326"
        = Raise (AssertionError (longitude_message (-7) 2 fmt))).
Proof.
  apply (validate_bbox_exact "48,-6,60,1" "EPSG:4326" (Extent (-7) 2 49 61)
           "48" "-6" "60" "1" []); vm_compute; reflexivity.
Defined.

Lemma validate_bbox_ignores_extra_tokens_witness :
  (validate_bbox "49.5,-6,60,1,north,9999" "EPSG:4326" = Ok VNone
   <-> exists a b c d,
       PyFloat.of_string "49.5" = Some a /\ PyFloat.of_string "-6" = Some b
       /\ PyFloat.of_string "60" = Some c /\ PyFloat.of_string "1" = Some d
       /\ strictly_inside 49 61 a /\ strictly_inside (-7) 2 b
       /\ strictly_inside 49 61 c /\ strictly_inside (-7) 2 d)
  /\ (forall bbox' extra',
        Str.split "," bbox' = "49.5" :: "-6" :: "60" :: "1" :: extra' ->
        validate_bbox bbox' "EPSG:4326"
        = validate_bbox "49.5,-6,60,1,north,9999" "EPSG:4326").
Proof.
  apply (validate_bbox_ignores_extra_tokens
           "49.5,-6,60,1,north,9999" "EPSG:4326" (Extent (-7) 2 49 61)
           "49.5" "-6" "60" "1" ["north"; "9999"]).
  - reflexivity.
  - reflexivity.
  - discriminate.
Defined.

(** C10. Four numeric tokens whose values lie strictly inside the extent
    pass [validate_bbox] in whatever order the two corners are given: the
    pairs exchanged, or the [x] values of the two corners exchanged, or the
    [y] values. No value is compared with another. *)
Theorem validate_bbox_any_corner_order (bbox srs : string) (ext : extent)
  (y1 x1 y2 x2 : string) (a b c d : PyFloat.float) :
  extent_of srs = Some ext ->
  PyFloat.of_string y1 = Some a -> PyFloat.of_string x1 = Some b ->
  PyFloat.of_string y2 = Some c -> PyFloat.of_string x2 = Some d ->
  strictly_inside (min_y ext) (max_y ext) a ->
  strictly_inside (min_x ext) (max_x ext) b ->
  strictly_inside (min_y ext) (max_y ext) c ->
  strictly_inside (min_x ext) (max_x ext) d ->
  Str.split "," bbox = [y1; x1; y2; x2]
  \/ Str.split "," bbox = [y2; x2; y1; x1]
  \/ Str.split "," bbox = [y1; x2; y2; x1]
  \/ Str.split "," bbox = [y2; x1; y1; x2] ->
  validate_bbox bbox srs = Ok VNone.
Proof.
  intros Hext Ha Hb Hc Hd Ia Ib Ic Id Hs.
  destruct Hs as [Hs|[Hs|[Hs|Hs]]];
    apply (proj2 (validate_bbox_passes_iff bbox srs ext _ _ _ _ [] Hext Hs));
    do 4 eexists; repeat split; eassumption.
Qed.

Lemma validate_bbox_any_corner_order_witness :
  validate_bbox "60,1,49.5,-6" "EPSG:4326" = Ok VNone.
Proof.
  eapply (validate_bbox_any_corner_order
            "60,1,49.5,-6" "EPSG:4326" (Extent (-7) 2 49 61)
            "49.5" "-6" "60" "1").
  - reflexivity.
  - vm_compute; reflexivity.
  - vm_compute; reflexivity.
  - vm_compute; reflexivity.
  - vm_compute; reflexivity.
  - apply within_inside; vm_compute; reflexivity.
  - apply within_inside; vm_compute; reflexivity.
  - apply within_inside; vm_compute; reflexivity.
  - apply within_inside; vm_compute; reflexivity.
  - right. left. reflexivity.
Defined.

Lemma bbox_msg_comma (srs fmt : string) :
  bbox_msg srs = Ok fmt -> Str.mem "," fmt = true.
Proof.
  unfold bbox_msg.
  destruct (String.eqb srs "EPSG:4326");
    [intros H; injection H as <-; reflexivity|].
  destruct (String.eqb srs "EPSG:27700");
    [intros H; injection H as <-; reflexivity | discriminate].
Qed.

Lemma latitude_message_explains (lo hi : Z) (fmt : string) :
  Str.contains (latitude_message lo hi fmt) fmt = true.
Proof.
  unfold latitude_message.
  repeat apply StrFacts.contains_app_r. apply StrFacts.contains_refl.
Qed.

Lemma longitude_message_explains (lo hi : Z) (fmt : string) :
  Str.contains (longitude_message lo hi fmt) fmt = true.
Proof.
  unfold longitude_message.
  repeat apply StrFacts.contains_app_r. apply StrFacts.contains_refl.
Qed.

Lemma value_error_lacks_format (t fmt : string) :
  Str.mem "," t = false -> Str.mem "," fmt = true ->
  Str.contains ("could not convert string to float: " ++ Str.repr t) fmt
  = false.
Proof.
  intros Ht Hf. apply (StrFacts.contains_needs "," _ _ Hf).
  rewrite StrFacts.mem_app, (StrFacts.repr_comma t Ht). reflexivity.
Qed.

Lemma index_error_lacks_format (fmt : string) :
  Str.mem "," fmt = true ->
  Str.contains "list index out of range" fmt = false.
Proof.
  intros Hf. apply (StrFacts.contains_needs "," _ _ Hf). reflexivity.
Qed.

Lemma failure_at_computed (tokens : list string) (ext : extent) (fmt : string)
  (i : nat) (rest : list nat) (e : exn) :
  failure_at tokens ext fmt i e ->
  first_failure tokens ext fmt (i :: rest) = Some e.
Proof.
  intros [Hn|t Hn Hp|t x Hn Hp Hw]; cbn [first_failure]; rewrite Hn;
    [reflexivity | rewrite Hp; reflexivity | rewrite Hp, Hw; reflexivity].
Qed.

Lemma inside_at_computed (tokens : list string) (ext : extent) (fmt : string)
  (i : nat) (rest : list nat) :
  inside_at tokens ext i ->
  first_failure tokens ext fmt (i :: rest)
  = first_failure tokens ext fmt rest.
Proof.
  intros (t & x & Hn & Hp & Hw). cbn [first_failure].
  rewrite Hn, Hp, Hw. reflexivity.
Qed.

(** Along any list of positions, [first_failure] is the failure at the
    first position at which something goes wrong. *)
Lemma first_failure_spec (tokens : list string) (ext : extent) (fmt : string)
  (order : list nat) (e : exn) :
  first_failure tokens ext fmt order = Some e
  <-> exists before i after,
        order = (before ++ i :: after)%list
        /\ Forall (inside_at tokens ext) before
        /\ failure_at tokens ext fmt i e.
Proof.
  split.
  - induction order as [|i rest IH]; [discriminate|].
    cbn [first_failure].
    destruct (nth_error tokens i) as [t|] eqn:Hn.
    + destruct (PyFloat.of_string t) as [x|] eqn:Hp.
      * destruct (within (fst (range_at ext i)) (snd (range_at ext i)) x)
          eqn:Hw.
        -- intros H. destruct (IH H) as (before & j & after & -> & Hb & Hf).
           exists (i :: before), j, after. split; [reflexivity|].
           split; [|exact Hf]. constructor; [|exact Hb].
           exists t, x. auto.
        -- intros H. injection H as <-. exists [], i, rest.
           split; [reflexivity|]. split; [constructor|].
           apply (TokenOutside tokens ext fmt i t x Hn Hp Hw).
      * intros H. injection H as <-. exists [], i, rest.
        split; [reflexivity|]. split; [constructor|].
        apply (BadToken tokens ext fmt i t Hn Hp).
    + intros H. injection H as <-. exists [], i, rest.
      split; [reflexivity|]. split; [constructor|].
      apply (MissingToken tokens ext fmt i Hn).
  - intros (before & i & after & -> & Hb & Hf).
    induction Hb as [|j before Hj _ IH]; cbn [app].
    + apply (failure_at_computed tokens ext fmt i after e Hf).
    + rewrite (inside_at_computed tokens ext fmt j _ Hj). exact IH.
Qed.

(** [_validate_bbox] raises the first failure in the reading order, and
    returns when there is none. *)
Lemma validate_bbox_first_failure (bbox srs fmt : string) (ext : extent) :
  extent_of srs = Some ext -> bbox_msg srs = Ok fmt ->
  validate_bbox bbox srs
  = match first_failure (Str.split "," bbox) ext fmt reading_order with
    | Some e => Raise e
    | None => Ok VNone
    end.
Proof.
  intros Hext Hm.
  destruct (validate_bbox_extent bbox srs ext Hext) as [-> _].
  unfold _validate_bbox. rewrite Hm, !token_within_eq.
  generalize (Str.split "," bbox). intros tokens.
  unfold reading_order. cbn [first_failure].
  unfold message_at, range_at. cbn [Nat.even fst snd].
  unfold py_assert, and_then, bind.
  destruct (nth_error tokens 0) as [t0|]; [|reflexivity].
  destruct (PyFloat.of_string t0) as [a|]; [|reflexivity].
  destruct (within (min_y ext) (max_y ext) a); [|reflexivity].
  destruct (nth_error tokens 2) as [t2|]; [|reflexivity].
  destruct (PyFloat.of_string t2) as [c|]; [|reflexivity].
  destruct (within (min_y ext) (max_y ext) c); [|reflexivity].
  destruct (nth_error tokens 1) as [t1|]; [|reflexivity].
  destruct (PyFloat.of_string t1) as [b|]; [|reflexivity].
  destruct (within (min_x ext) (max_x ext) b); [|reflexivity].
  destruct (nth_error tokens 3) as [t3|]; [|reflexivity].
  destruct (PyFloat.of_string t3) as [d|]; [|reflexivity].
  destruct (within (min_x ext) (max_x ext) d); reflexivity.
Qed.

(** A bounding box without a failure has four tokens that are numbers. *)
Lemma well_formed_without_failure (tokens : list string) (ext : extent)
  (fmt : string) :
  first_failure tokens ext fmt reading_order = None -> ~ malformed_bbox tokens.
Proof.
  unfold reading_order. cbn [first_failure].
  destruct tokens as [|t0 [|t1 [|t2 [|t3 extra]]]]; cbn [nth_error];
    try discriminate;
    repeat match goal with
           | |- context [match PyFloat.of_string ?t with _ => _ end] =>
               let E := fresh "Eparse" in
               destruct (PyFloat.of_string t) eqn:E; try discriminate
           | |- context [if ?b then _ else _] =>
               destruct b; try discriminate
           end.
  intros _ [H|(t & Hin & Ht)]; [simpl in H; lia|].
  simpl in Hin. destruct Hin as [<-|[<-|[<-|[<-|[]]]]]; congruence.
Qed.

(** The explanation of the format stands in the text of the assertions
    and in no other failure. *)
Lemma failure_explains (tokens : list string) (ext : extent) (fmt : string)
  (i : nat) (e : exn) :
  Forall (fun t => Str.mem "," t = false) tokens ->
  Str.mem "," fmt = true ->
  failure_at tokens ext fmt i e ->
  (Str.contains (payload e) fmt = true <-> exists m, e = AssertionError m).
Proof.
  intros Hfree Hcomma [Hn|t Hn Hp|t x Hn Hp Hw]; cbn [payload].
  - rewrite (index_error_lacks_format _ Hcomma).
    split; [discriminate | intros [m H]; discriminate H].
  - rewrite value_error_lacks_format; [| |exact Hcomma].
    + split; [discriminate | intros [m H]; discriminate H].
    + rewrite Forall_forall in Hfree. apply Hfree.
      apply (nth_error_In _ _ Hn).
  - unfold message_at. destruct (Nat.even i).
    + rewrite latitude_message_explains. split; eauto.
    + rewrite longitude_message_explains. split; eauto.
Qed.

(** C3, as amended. A bounding box with fewer than four tokens, or with a
    token among the first four that is not a number, makes [validate_bbox]
    fail under a supported reference system, and the failure is fixed by
    the order in which the tokens are read, 0, 2, 1, 3: it is what goes
    wrong at the first position of that order at which something does, the
    tokens read before being numbers inside their ranges.  At that
    position a missing token gives the [IndexError] of the list index, a
    token that is not a number the [ValueError] of [float], and their texts
    do not hold the explanation of the format; a number outside its range
    gives the assertion on the extent, whose text holds the explanation.
    No other exception fits this description. *)
Theorem malformed_bbox_fails (bbox srs : string) (ext : extent) :
  extent_of srs = Some ext ->
  malformed_bbox (Str.split "," bbox) ->
  exists e fmt,
    validate_bbox bbox srs = Raise e
    /\ bbox_msg srs = Ok fmt
    /\ bbox_failure (Str.split "," bbox) ext fmt e
    /\ (forall e', bbox_failure (Str.split "," bbox) ext fmt e' -> e' = e)
    /\ (Str.contains (payload e) fmt = true <-> exists m, e = AssertionError m).
Proof.
  intros Hext Hmal.
  destruct (validate_bbox_extent bbox srs ext Hext) as [_ [fmt Hm]].
  pose proof (validate_bbox_first_failure bbox srs fmt ext Hext Hm) as Hrun.
  destruct (first_failure (Str.split "," bbox) ext fmt reading_order)
    as [e|] eqn:Hfirst.
  - exists e, fmt. split; [exact Hrun|]. split; [exact Hm|].
    pose proof (proj1 (first_failure_spec _ _ _ _ _) Hfirst) as Hfail.
    split; [exact Hfail|]. split.
    + intros e' He'. apply first_failure_spec in He'. congruence.
    + destruct Hfail as (before & i & after & _ & _ & Hf).
      apply (failure_explains _ ext fmt i e
               (StrFacts.split_parts_free "," bbox)
               (bbox_msg_comma srs fmt Hm) Hf).
  - exfalso. exact (well_formed_without_failure _ ext fmt Hfirst Hmal).
Qed.

Lemma malformed_bbox_fails_witness :
  exists e fmt,
    validate_bbox "48,abc,60,1" "EPSG:4326" = Raise e
    /\ bbox_msg "EPSG:4326" = Ok fmt
    /\ bbox_failure (Str.split "," "48,abc,60,1") (Extent (-7) 2 49 61) fmt e
    /\ (forall e',
          bbox_failure (Str.split "," "48,abc,60,1") (Extent (-7) 2 49 61)
            fmt e' -> e' = e)
    /\ (Str.contains (payload e) fmt = true <-> exists m, e = AssertionError m).
Proof.
  apply (malformed_bbox_fails "48,abc,60,1" "EPSG:4326" (Extent (-7) 2 49 61)).
  - reflexivity.
  - right. exists "abc". split; [simpl; tauto | vm_compute; reflexivity].
Defined.

(** The failure that comes first in the reading order is the one raised:
    a first token outside its range hides a second token that is not a
    number, and a first token that is not a number hides a fourth token
    outside its range. *)
Example first_failure_is_raised :
  exists fmt,
    bbox_msg "EPSG:4326" = Ok fmt
    /\ validate_bbox "48,abc,60,1" "EPSG:4326"
       = Raise (AssertionError (latitude_message 49 61 fmt))
    /\ ~ bbox_failure (Str.split "," "48,abc,60,1") (Extent (-7) 2 49 61) fmt
           (ValueError "could not convert string to float: 'abc'")
    /\ validate_bbox "abc,1,2,300" "EPSG:4326"
       = Raise (ValueError "could not convert string to float: 'abc'")
    /\ ~ bbox_failure (Str.split "," "abc,1,2,300") (Extent (-7) 2 49 61) fmt
           (AssertionError (longitude_message (-7) 2 fmt))
    /\ validate_bbox "49.5,abc,70" "EPSG:4326"
       = Raise (AssertionError (latitude_message 49 61 fmt))
    /\ validate_bbox "49.5,abc,60" "EPSG:4326"
       = Raise (ValueError "could not convert string to float: 'abc'")
    /\ validate_bbox "49.5,-6,60" "EPSG:4326"
       = Raise (IndexError "list index out of range").
Proof.
  eexists. split; [reflexivity|].
  split; [vm_compute; reflexivity|].
  split; [intros H; apply first_failure_spec in H; vm_compute in H;
          discriminate H|].
  split; [vm_compute; reflexivity|].
  split; [intros H; apply first_failure_spec in H; vm_compute in H;
          discriminate H|].
  repeat split; vm_compute; reflexivity.
Qed.

(** C3, counterexample. The token [abc] makes [validate_bbox] fail with the
    [ValueError] of [float], whose text names the token and not the format
    of a bounding box; and the one-token box [48] fails with the assertion
    on the extent, not with a failure about its form. *)
Lemma malformed_bbox_without_explanation :
  exists fmt,
    bbox_msg "EPSG:4326" = Ok fmt
    /\ validate_bbox "abc,1,2,3" "EPSG:4326"
       = Raise (ValueError "could not convert string to float: 'abc'")
    /\ Str.contains
         (payload (ValueError "could not convert string to float: 'abc'"))
         fmt = false
    /\ validate_bbox "48" "EPSG:4326"
       = Raise (AssertionError (latitude_message 49 61 fmt)).
Proof.
  eexists. split; [reflexivity|].
  repeat split; vm_compute; reflexivity.
Qed.

End BboxFacts.

(** ** Polygon validation *)

Module PolygonFacts.

Import ApiUtils.

Lemma zip_star_rows (p : PyFloat.float * PyFloat.float)
  (pairs : list (PyFloat.float * PyFloat.float)) :
  zip_star (rows_of (p :: pairs))
  = [map fst (p :: pairs); map snd (p :: pairs)].
Proof.
  revert p. induction pairs as [|q pairs IH]; intros p; [reflexivity|].
  change (zip_star (rows_of (p :: q :: pairs)))
    with (zip_cons [fst p; snd p] (zip_star (rows_of (q :: pairs)))).
  rewrite IH. reflexivity.
Qed.

Lemma validate_polygon_extent (polygon srs : string) (ext : extent) :
  extent_of srs = Some ext ->
  validate_polygon_string polygon srs
  = _validate_polygon_string polygon srs
      (min_x ext) (max_x ext) (min_y ext) (max_y ext)
  /\ exists fmt, polygon_msg srs = Ok fmt.
Proof.
  unfold extent_of, validate_polygon_string, polygon_msg.
  destruct (String.eqb_spec srs "EPSG:4326") as [->|_].
  - intros H. injection H as <-. split; [reflexivity | eauto].
  - destruct (String.eqb_spec srs "EPSG:27700") as [->|_]; [|discriminate].
    intros H. injection H as <-. split; [reflexivity | eauto].
Qed.

(** What [_validate_polygon_string] does on a well-formed text. *)
Lemma polygon_rows (polygon srs fmt : string) (lo_x hi_x lo_y hi_y : Z)
  (p : PyFloat.float * PyFloat.float)
  (pairs : list (PyFloat.float * PyFloat.float)) :
  polygon_coords_of polygon = Ok (rows_of (p :: pairs)) ->
  polygon_msg srs = Ok fmt ->
  _validate_polygon_string polygon srs lo_x hi_x lo_y hi_y
  = if PyFloat.gt_Z (PyFloat.py_min (fst p) (map fst pairs)) lo_y
       && PyFloat.lt_Z (PyFloat.py_max (fst p) (map fst pairs)) hi_y
    then if PyFloat.gt_Z (PyFloat.py_min (snd p) (map snd pairs)) lo_x
            && PyFloat.lt_Z (PyFloat.py_max (snd p) (map snd pairs)) hi_x
         then Ok VNone
         else Raise (AssertionError (longitude_message lo_x hi_x fmt))
    else Raise (AssertionError (latitude_message lo_y hi_y fmt)).
Proof.
  intros Hc Hm. unfold _validate_polygon_string.
  rewrite Hc, Hm. cbn [bind]. rewrite zip_star_rows.
  cbn [list_item nth_error bind map seq_max seq_min].
  unfold py_assert, and_then, bind.
  destruct (PyFloat.gt_Z (PyFloat.py_min (fst p) (map fst pairs)) lo_y),
    (PyFloat.lt_Z (PyFloat.py_max (fst p) (map fst pairs)) hi_y),
    (PyFloat.gt_Z (PyFloat.py_min (snd p) (map snd pairs)) lo_x),
    (PyFloat.lt_Z (PyFloat.py_max (snd p) (map snd pairs)) hi_x);
    reflexivity.
Qed.

Lemma rows_not_empty (polygon : string)
  (pairs : list (PyFloat.float * PyFloat.float)) :
  polygon_coords_of polygon = Ok (rows_of pairs) -> pairs <> [].
Proof.
  intros H ->. apply ComprehensionFacts.comprehension_length in H.
  destruct (Str.split " " polygon) eqn:E; [|discriminate H].
  exact (StrFacts.split_not_nil " " polygon E).
Qed.

Lemma within_column (lo hi : Z) (first : PyFloat.float)
  (rest : list PyFloat.float) :
  Forall (fun x => PyFloat.is_nan x = false) (first :: rest) ->
  PyFloat.gt_Z (PyFloat.py_min first rest) lo
  && PyFloat.lt_Z (PyFloat.py_max first rest) hi = true
  <-> Forall (strictly_inside lo hi) (first :: rest).
Proof.
  intros Hn. inversion Hn as [|? ? Hf Hr]; subst.
  rewrite andb_true_iff, (FloatOrder.py_min_above lo rest first Hf Hr),
    (FloatOrder.py_max_below hi rest first Hf Hr), !Forall_forall.
  split.
  - intros [H1 H2] x Hx. apply BboxFacts.within_inside. unfold within.
    rewrite (H1 x Hx), (H2 x Hx). reflexivity.
  - intros H. split; intros x Hx; specialize (H x Hx);
      apply BboxFacts.within_inside in H; unfold within in H;
      apply andb_true_iff in H; tauto.
Qed.

Lemma Forall_columns {A B : Type} (P : A -> Prop) (Q : B -> Prop)
  (pairs : list (A * B)) :
  Forall (fun p => P (fst p) /\ Q (snd p)) pairs
  <-> Forall P (map fst pairs) /\ Forall Q (map snd pairs).
Proof.
  induction pairs as [|p pairs IH]; simpl.
  - split; [intros _; split; constructor | intros _; constructor].
  - split.
    + intros H. inversion H as [|? ? [H1 H2] H3]; subst.
      apply IH in H3. destruct H3. split; constructor; assumption.
    + intros [H1 H2]. inversion H1; inversion H2; subst.
      constructor; [tauto | apply IH; tauto].
Qed.

(** A well-formed polygon text whose values are all numbers passes exactly
    when every vertex has its first value inside the range of [y] and its
    second value inside the range of [x]; it fails with the assertion on
    the latitude when a first value is outside, and with the assertion on
    the longitude when the first values are inside and a second value is
    outside. *)
Theorem validate_polygon_string_exact (polygon srs : string) (ext : extent)
  (pairs : list (PyFloat.float * PyFloat.float)) :
  extent_of srs = Some ext ->
  polygon_coords_of polygon = Ok (rows_of pairs) ->
  Forall (fun p => PyFloat.is_nan (fst p) = false
                   /\ PyFloat.is_nan (snd p) = false) pairs ->
  exists fmt,
    polygon_msg srs = Ok fmt
    /\ (validate_polygon_string polygon srs = Ok VNone
        <-> Forall (fun p => strictly_inside (min_y ext) (max_y ext) (fst p)
                             /\ strictly_inside (min_x ext) (max_x ext) (snd p))
                   pairs)
    /\ (~ Forall (strictly_inside (min_y ext) (max_y ext)) (map fst pairs) ->
        validate_polygon_string polygon srs
        = Raise (AssertionError
                   (latitude_message (min_y ext) (max_y ext) fmt)))
    /\ (Forall (strictly_inside (min_y ext) (max_y ext)) (map fst pairs) ->
        ~ Forall (strictly_inside (min_x ext) (max_x ext)) (map snd pairs) ->
        validate_polygon_string polygon srs
        = Raise (AssertionError
                   (longitude_message (min_x ext) (max_x ext) fmt))).
Proof.
  intros Hext Hc Hn.
  destruct (validate_polygon_extent polygon srs ext Hext) as [-> [fmt Hm]].
  exists fmt. split; [exact Hm|].
  destruct pairs as [|p pairs];
    [exfalso; exact (rows_not_empty polygon [] Hc eq_refl)|].
  rewrite (polygon_rows polygon srs fmt _ _ _ _ p pairs Hc Hm).
  apply (Forall_columns (fun x => PyFloat.is_nan x = false)
           (fun x => PyFloat.is_nan x = false)) in Hn.
  destruct Hn as [Hn1 Hn2].
  pose proof (within_column (min_y ext) (max_y ext) _ _ Hn1) as Hy.
  pose proof (within_column (min_x ext) (max_x ext) _ _ Hn2) as Hx.
  rewrite (Forall_columns (strictly_inside (min_y ext) (max_y ext))
             (strictly_inside (min_x ext) (max_x ext))).
  change (map fst (p :: pairs)) with (fst p :: map fst pairs).
  change (map snd (p :: pairs)) with (snd p :: map snd pairs).
  destruct (PyFloat.gt_Z _ (min_y ext) && PyFloat.lt_Z _ (max_y ext));
    destruct (PyFloat.gt_Z _ (min_x ext) && PyFloat.lt_Z _ (max_x ext)).
  - assert (Fy := proj1 Hy eq_refl). assert (Fx := proj1 Hx eq_refl).
    repeat split; try tauto.
  - assert (Fy := proj1 Hy eq_refl).
    assert (Fx : ~ Forall (strictly_inside (min_x ext) (max_x ext))
                   (snd p :: map snd pairs))
      by (intros H; apply (proj2 Hx) in H; discriminate H).
    repeat split; try tauto; try congruence; intros Hrun; discriminate Hrun.
  - assert (Fy : ~ Forall (strictly_inside (min_y ext) (max_y ext))
                   (fst p :: map fst pairs))
      by (intros H; apply (proj2 Hy) in H; discriminate H).
    repeat split; try tauto; try congruence; intros Hrun; discriminate Hrun.
  - assert (Fy : ~ Forall (strictly_inside (min_y ext) (max_y ext))
                   (fst p :: map fst pairs))
      by (intros H; apply (proj2 Hy) in H; discriminate H).
    repeat split; try tauto; try congruence; intros Hrun; discriminate Hrun.
Qed.

Lemma validate_polygon_string_exact_witness :
  exists fmt,
    polygon_msg "EPSG:4326" = Ok fmt
    /\ (validate_polygon_string example_polygon "EPSG:4326" = Ok VNone
        <-> Forall (fun p => strictly_inside 49 61 (fst p)
                             /\ strictly_inside (-7) 2 (snd p))
                   example_pairs)
    /\ (~ Forall (strictly_inside 49 61) (map fst example_pairs) ->
        validate_polygon_string example_polygon "EPSG:4326"
        = Raise (AssertionError (latitude_message 49 61 fmt)))
    /\ (Forall (strictly_inside 49 61) (map fst example_pairs) ->
        ~ Forall (strictly_inside (-7) 2) (map snd example_pairs) ->
        validate_polygon_string example_polygon "EPSG:4326"
        = Raise (AssertionError (longitude_message (-7) 2 fmt))).
Proof.
  apply (validate_polygon_string_exact example_polygon "EPSG:4326"
           (Extent (-7) 2 49 61) example_pairs).
  - reflexivity.
  - vm_compute. reflexivity.
  - repeat constructor.
Defined.

(** C1, where the code departs from it. The polygon text
    [50,0 nan,0 51,1] has a vertex whose latitude is not a number, hence not
    inside the extent, and [validate_polygon_string] accepts it: [max] and
    [min] pass over a value that is not a number when it is not the first
    one.  The bounding box with the same value is rejected by
    [validate_bbox]. *)
Theorem polygon_with_nan_vertex_is_accepted :
  (exists vertices,
      polygon_coords_of nan_polygon = Ok vertices
      /\ In [PyFloat.nan; S754_zero false] vertices)
  /\ ~ strictly_inside 49 61 PyFloat.nan
  /\ validate_polygon_string nan_polygon "EPSG:4326" = Ok VNone
  /\ (exists fmt,
        bbox_msg "EPSG:4326" = Ok fmt
        /\ validate_bbox "50,0,nan,1" "EPSG:4326"
           = Raise (AssertionError (latitude_message 49 61 fmt))).
Proof.
  split; [|split; [|split]].
  - eexists. split; [vm_compute; reflexivity|]. simpl. tauto.
  - apply BboxFacts.nan_not_inside.
  - vm_compute. reflexivity.
  - eexists. split; [reflexivity|]. vm_compute. reflexivity.
Qed.

(** Under [EPSG:27700] the explanation of the format names the easting as
    the first token of a pair, and the first token is held against the
    range of [y], which is the range of the northing: an easting of 800000
    passes, a northing of 800000 does not. *)
Lemma national_grid_bbox_axes :
  (exists fmt,
      bbox_msg "EPSG:27700" = Ok fmt
      /\ Str.contains fmt "Easting_SW, Northing_SW, Easting_NE, Northing_NE"
         = true)
  /\ extent_of "EPSG:27700" = Some (Extent 0 700000 0 1250000)
  /\ validate_bbox "800000,100,900000,200" "EPSG:27700" = Ok VNone
  /\ (exists m, validate_bbox "100,800000,200,900000" "EPSG:27700"
                = Raise (AssertionError m)).
Proof.
  split; [eexists; split; [reflexivity | vm_compute; reflexivity]|].
  split; [reflexivity|].
  split; [vm_compute; reflexivity|].
  eexists. vm_compute. reflexivity.
Qed.

End PolygonFacts.

(** ** GeoJSON features *)

Module FeatureFacts.

Import ApiUtils.

Section Conversion.

Variable clean_coordinates : value -> result value.

Lemma convert_single_feature (f ring cleaned props : value) :
  (g <- subscript_key f "geometry" ;;
   c <- subscript_key g "coordinates" ;;
   subscript_first c) = Ok ring ->
  clean_coordinates (if truthy ring then ring else VList []) = Ok cleaned ->
  subscript_key f "properties" = Ok props ->
  convert_single_feature_to_geojson f (GeoJSON.LineString clean_coordinates)
  = Ok (GeoJSON.Feature
          (VDict [("type", VStr "LineString"); ("coordinates", cleaned)])
          props).
Proof.
  intros Hr Hc Hp. unfold convert_single_feature_to_geojson.
  rewrite Hr. cbn [bind]. unfold GeoJSON.LineString. rewrite Hc. cbn [bind].
  rewrite Hp. reflexivity.
Qed.

(** C5, as amended. When every feature of the list can be converted,
    [convert_features_to_geojson] returns a list of the same length whose
    feature at each position is the conversion of the input feature at that
    position; whatever the geometry type of the input feature is, the
    geometry of the output feature is typed [LineString], and the output
    feature has the properties of the input feature, an empty mapping
    standing in for properties that are false as a truth value. *)
Theorem convert_features_keeps_count_and_order (features : list value) :
  Forall (convertible clean_coordinates) features ->
  exists out,
    convert_features_to_geojson clean_coordinates features = Ok out
    /\ List.length out = List.length features
    /\ forall i f, nth_error features i = Some f ->
         exists o props,
           nth_error out i = Some o
           /\ convert_single_feature_to_geojson f
                (GeoJSON.LineString clean_coordinates) = Ok o
           /\ get_feature_geometry_type o = Ok (VStr "LineString")
           /\ subscript_key f "properties" = Ok props
           /\ subscript_key o "properties"
              = Ok (if truthy props then props else VDict []).
Proof.
  intros Hall. unfold convert_features_to_geojson.
  destruct (ComprehensionFacts.comprehension_total
              (fun feat => convert_single_feature_to_geojson feat
                             (GeoJSON.LineString clean_coordinates))
              features) as [out Hout].
  { apply Forall_impl with (2 := Hall).
    intros f (ring & cleaned & props & Hr & Hc & Hp).
    rewrite (convert_single_feature f ring cleaned props Hr Hc Hp). eauto. }
  exists out. split; [exact Hout|].
  split; [apply (ComprehensionFacts.comprehension_length _ _ _ Hout)|].
  intros i f Hi.
  destruct (ComprehensionFacts.comprehension_nth _ _ _ i f Hout Hi) as (o & Ho & Hconv).
  assert (Hf : convertible clean_coordinates f).
  { rewrite Forall_forall in Hall. apply Hall. apply (nth_error_In _ _ Hi). }
  destruct Hf as (ring & cleaned & props & Hr & Hc & Hp).
  rewrite (convert_single_feature f ring cleaned props Hr Hc Hp) in Hconv.
  injection Hconv as <-.
  exists (GeoJSON.Feature
            (VDict [("type", VStr "LineString"); ("coordinates", cleaned)])
            props), props.
  split; [exact Ho|].
  split; [apply (convert_single_feature f ring cleaned props Hr Hc Hp)|].
  repeat split; try assumption; reflexivity.
Qed.

End Conversion.

Lemma convert_features_keeps_count_and_order_witness :
  exists out,
    convert_features_to_geojson GeoJSON.clean_integers
      [linestring_feature (VDict [("name", VStr "a")]);
       feature "Polygon" (VList [integer_ring]) VNone] = Ok out
    /\ List.length out = 2%nat
    /\ forall i f,
         nth_error [linestring_feature (VDict [("name", VStr "a")]);
                    feature "Polygon" (VList [integer_ring]) VNone] i
         = Some f ->
         exists o props,
           nth_error out i = Some o
           /\ convert_single_feature_to_geojson f
                (GeoJSON.LineString GeoJSON.clean_integers) = Ok o
           /\ get_feature_geometry_type o = Ok (VStr "LineString")
           /\ subscript_key f "properties" = Ok props
           /\ subscript_key o "properties"
              = Ok (if truthy props then props else VDict []).
Proof.
  apply (convert_features_keeps_count_and_order GeoJSON.clean_integers
           [linestring_feature (VDict [("name", VStr "a")]);
            feature "Polygon" (VList [integer_ring]) VNone]).
  repeat constructor; do 3 eexists; repeat split; reflexivity.
Defined.

(** C5, counterexample. The conversion of a feature typed [LineString] is
    typed [LineString], not [Polygon]; and properties that are [None] come
    back as an empty mapping. *)
Lemma converted_feature_is_a_linestring :
  exists o,
    convert_features_to_geojson GeoJSON.clean_integers
      [linestring_feature VNone] = Ok [o]
    /\ get_feature_geometry_type o = Ok (VStr "LineString")
    /\ get_feature_geometry_type o <> Ok (VStr "Polygon")
    /\ subscript_key o "properties" = Ok (VDict [])
    /\ subscript_key (linestring_feature VNone) "properties" = Ok VNone.
Proof.
  eexists. split; [reflexivity|].
  repeat split; try reflexivity. discriminate.
Qed.

Ltac each_char c := destruct c as [[] [] [] [] [] [] [] []].

Ltac decide_same_letter :=
  unfold same_letter; split;
  [ intros H; first [discriminate H | vm_compute; tauto]
  | intros [H|[H|H]]; first [discriminate H | reflexivity] ].

(** For the letters of [Polygon], a character is the same letter exactly
    when [lower] maps it to the lower-case letter. *)
Lemma lower_char_letter (c d : ascii) :
  In d ["P"; "o"; "l"; "y"; "g"; "n"]%char ->
  Str.lower_char c = Str.lower_char d <-> same_letter c d.
Proof.
  intros [<-|[<-|[<-|[<-|[<-|[<-|[]]]]]]]; each_char c; decide_same_letter.
Qed.

Lemma lower_is_polygon (t : string) :
  Str.lower t = "polygon" <-> eq_nocase t "Polygon".
Proof.
  destruct t as [|c0 [|c1 [|c2 [|c3 [|c4 [|c5 [|c6 [|c7 t]]]]]]]];
    cbn [Str.lower eq_nocase];
    try (split; [intros H; discriminate H | tauto]).
  rewrite <- !lower_char_letter by (simpl; tauto).
  change (Str.lower_char "P") with "p"%char.
  change (Str.lower_char "o") with "o"%char.
  change (Str.lower_char "l") with "l"%char.
  change (Str.lower_char "y") with "y"%char.
  change (Str.lower_char "g") with "g"%char.
  change (Str.lower_char "n") with "n"%char.
  split.
  - intros H. injection H as H0 H1 H2 H3 H4 H5 H6. tauto.
  - intros (H0 & H1 & H2 & H3 & H4 & H5 & H6 & _).
    rewrite H0, H1, H2, H3, H4, H5, H6. reflexivity.
Qed.

(** C6, as amended. When the type of the geometry is present and is text,
    [validate_geojson_polygon] returns (the value [None], not the feature)
    if the type is [Polygon] up to the case of its letters, and raises the
    exception that names a wrong geometry otherwise. *)
Theorem validate_geojson_polygon_by_type (geojson g : value) (t : string) :
  subscript_key geojson "geometry" = Ok g ->
  subscript_key g "type" = Ok (VStr t) ->
  (eq_nocase t "Polygon" -> validate_geojson_polygon geojson = Ok VNone)
  /\ (~ eq_nocase t "Polygon" ->
      validate_geojson_polygon geojson
      = Raise (PlainException not_polygon_message)).
Proof.
  intros Hg Ht. unfold validate_geojson_polygon, get_feature_geometry_type.
  rewrite Hg. cbn [bind]. rewrite Ht. cbn [bind lower_method].
  rewrite <- lower_is_polygon.
  destruct (String.eqb_spec (Str.lower t) "polygon") as [E|E]; simpl; split;
    intros H; try reflexivity; contradiction.
Qed.

Lemma validate_geojson_polygon_by_type_witness :
  validate_geojson_polygon (feature "POLYGON" (VList [integer_ring]) VNone)
  = Ok VNone
  /\ validate_geojson_polygon (linestring_feature VNone)
     = Raise (PlainException not_polygon_message).
Proof.
  split.
  - apply (validate_geojson_polygon_by_type
             (feature "POLYGON" (VList [integer_ring]) VNone)
             (VDict [("type", VStr "POLYGON");
                     ("coordinates", VList [integer_ring])])
             "POLYGON"); try reflexivity.
    simpl. unfold same_letter. repeat split; tauto.
  - apply (validate_geojson_polygon_by_type
             (linestring_feature VNone)
             (VDict [("type", VStr "LineString");
                     ("coordinates",
                      VList [VList [VInt 0; VInt 51]; VList [VInt 1; VInt 52]])])
             "LineString"); try reflexivity.
    simpl. unfold same_letter. intros [[H|[H|H]] _]; discriminate H.
Defined.

(** C6, counterexample. On a feature typed [Polygon] the function returns
    [None], which is not the feature. *)
Lemma validate_geojson_polygon_returns_none :
  validate_geojson_polygon (feature "Polygon" (VList [integer_ring]) VNone)
  = Ok VNone
  /\ VNone <> feature "Polygon" (VList [integer_ring]) VNone.
Proof.
  split; [reflexivity | discriminate].
Qed.

End FeatureFacts.

(** ** Polygon text *)

Module PolygonTextFacts.

Import ApiUtils.

Lemma subscript_ring (t : string) (ring : value) (holes : list value)
  (props : value) :
  (g <- subscript_key (feature t (VList (ring :: holes)) props) "geometry" ;;
   c <- subscript_key g "coordinates" ;;
   subscript_first c) = Ok ring.
Proof. reflexivity. Qed.

(** The text of a ring: for each pair the second value, a comma and the
    first value, the pairs one blank apart. *)
Lemma polygon_text_of_pairs (t : string) (pairs : list (value * value))
  (holes : list value) (props : value) :
  geojson_polygon_to_string
    (feature t (VList (ring_value pairs :: holes)) props)
  = Ok (Str.join " " (map pair_text pairs)).
Proof.
  unfold geojson_polygon_to_string.
  change (g <- subscript_key
                 (feature t (VList (ring_value pairs :: holes)) props)
                 "geometry" ;;
          c <- subscript_key g "coordinates" ;;
          r <- subscript_first c ;; iterate r)
    with (Ok (map (fun p : value * value => VList [fst p; snd p]) pairs)).
  cbn [bind].
  match goal with
  | |- bind (comprehension ?f _) _ = _ =>
      assert (H : comprehension f
                    (map (fun p : value * value => VList [fst p; snd p]) pairs)
                  = Ok (map pair_text pairs))
  end.
  { induction pairs as [|p pairs IH]; [reflexivity|].
    cbn [map comprehension]. rewrite IH. reflexivity. }
  rewrite H. reflexivity.
Qed.

Lemma canonical_vertex_parses (v : string) :
  canonical_vertex v ->
  exists x y,
    comprehension to_float (Str.split "," v) = Ok [x; y]
    /\ PyFloat.to_string x ++ "," ++ PyFloat.to_string y = v.
Proof.
  intros (a & b & Hs & (x & Hx & Tx) & (y & Hy & Ty)).
  exists x, y. rewrite Hs. unfold to_float. cbn [comprehension].
  rewrite Hx, Hy. split; [reflexivity|].
  rewrite Tx, Ty. rewrite <- (StrFacts.join_split "," v), Hs. reflexivity.
Qed.

Lemma canonical_vertices_round_trip (vs : list string) :
  Forall canonical_vertex vs ->
  exists vertices,
    comprehension
      (fun coords => comprehension to_float (Str.split "," coords)) vs
    = Ok vertices
    /\ exists pairs,
        ring_of_parsed vertices = ring_value pairs
        /\ map pair_text pairs = vs.
Proof.
  induction 1 as [|v vs Hv _ (vertices & Hparse & pairs & Hring & Htext)].
  - exists []. split; [reflexivity|]. exists []. split; reflexivity.
  - destruct (canonical_vertex_parses v Hv) as (x & y & Hxy & Hjoin).
    exists ([x; y] :: vertices). cbn [comprehension]. rewrite Hxy, Hparse.
    split; [reflexivity|].
    exists ((VFloat y, VFloat x) :: pairs).
    unfold ring_of_parsed, ring_value in *. cbn [map rev app fst snd].
    injection Hring as Hring. rewrite Hring. split; [reflexivity|].
    unfold pair_text at 1. cbn [fst snd py_str py_repr].
    rewrite Hjoin, Htext. reflexivity.
Qed.

(** C7, as amended. [geojson_polygon_to_string] writes each pair of the
    outer ring with its second value first, the two values separated by a
    comma and the pairs by one blank.  For a polygon text whose vertices
    are each two tokens in the notation that [str] gives to floats, parsing
    the text, turning each vertex around and formatting the ring gives the
    text back, for any number of vertices. *)
Theorem polygon_text_round_trip (text : string) :
  Forall canonical_vertex (Str.split " " text) ->
  (forall t pairs holes props,
      geojson_polygon_to_string
        (feature t (VList (ring_value pairs :: holes)) props)
      = Ok (Str.join " " (map pair_text pairs)))
  /\ exists vertices,
      polygon_coords_of text = Ok vertices
      /\ forall t props,
          geojson_polygon_to_string
            (feature t (VList [ring_of_parsed vertices]) props)
          = Ok text.
Proof.
  intros Hall. split; [apply polygon_text_of_pairs|].
  destruct (canonical_vertices_round_trip _ Hall)
    as (vertices & Hparse & pairs & Hring & Htext).
  exists vertices. split; [exact Hparse|].
  intros t props. rewrite Hring, polygon_text_of_pairs, Htext.
  rewrite StrFacts.join_split. reflexivity.
Qed.

Ltac canonical_token_by_run :=
  eexists; split; [vm_compute; reflexivity | vm_compute; reflexivity].

Lemma polygon_text_round_trip_witness :
  (forall t pairs holes props,
      geojson_polygon_to_string
        (feature t (VList (ring_value pairs :: holes)) props)
      = Ok (Str.join " " (map pair_text pairs)))
  /\ exists vertices,
      polygon_coords_of example_polygon = Ok vertices
      /\ forall t props,
          geojson_polygon_to_string
            (feature t (VList [ring_of_parsed vertices]) props)
          = Ok example_polygon.
Proof.
  apply (polygon_text_round_trip example_polygon).
  replace (Str.split " " example_polygon)
    with ["49.9,-1.1"; "50.1,-1.1"; "50.1,-0.9"; "49.9,-0.9"]
    by (vm_compute; reflexivity).
  repeat (constructor;
          [unfold canonical_vertex, canonical_token; do 2 eexists; split;
           [vm_compute; reflexivity | split; canonical_token_by_run]|]).
  constructor.
Defined.

(** C7, counterexample. A ring with integer coordinates is written with
    integer literals; parsing that text, turning each vertex around and
    formatting again writes every value with a decimal point, which is
    another text. *)
Lemma integer_polygon_not_reproduced :
  geojson_polygon_to_string (feature "Polygon" (VList [integer_ring]) VNone)
  = Ok integer_polygon
  /\ exists vertices,
      polygon_coords_of integer_polygon = Ok vertices
      /\ geojson_polygon_to_string
           (feature "Polygon" (VList [ring_of_parsed vertices]) VNone)
         = Ok "51.0,0.0 51.0,1.0 52.0,1.0"
      /\ "51.0,0.0 51.0,1.0 52.0,1.0" <> integer_polygon.
Proof.
  split; [reflexivity|]. eexists. split; [vm_compute; reflexivity|].
  split; [vm_compute; reflexivity | discriminate].
Qed.

End PolygonTextFacts.

(** ** The spatial filter *)

Module TemplateFacts.

Import Str ApiUtils.

Lemma append_assoc (a b c : string) : (a ++ b) ++ c = a ++ (b ++ c).
Proof.
  induction a as [|x a IH]; simpl; [reflexivity | now rewrite IH].
Qed.

Lemma append_empty_r (a : string) : a ++ EmptyString = a.
Proof.
  induction a as [|x a IH]; simpl; [reflexivity | now rewrite IH].
Qed.

Lemma split_join (c : ascii) (lines : list string) :
  lines <> [] ->
  Forall (fun l => mem c l = false) lines ->
  split c (join (String c EmptyString) lines) = lines.
Proof.
  induction lines as [|l rest IH]; intros Hne Hall; [contradiction|].
  inversion Hall as [|? ? Hl Hrest]; subst.
  destruct rest as [|l' rest'].
  - simpl. apply StrFacts.split_absent, Hl.
  - change (join (String c EmptyString) (l :: l' :: rest'))
      with (l ++ String c (join (String c EmptyString) (l' :: rest'))).
    rewrite (StrFacts.split_app_sep c l _ Hl), IH; [reflexivity|discriminate|assumption].
Qed.

Lemma lstrip_spaces (n : nat) (s : string) : lstrip (spaces n ++ s) = lstrip s.
Proof.
  induction n as [|n IH]; simpl; [reflexivity | exact IH].
Qed.

Lemma rstrip_app_keep (a b : string) :
  rstrip b <> EmptyString -> rstrip (a ++ b) = a ++ rstrip b.
Proof.
  intros Hb. induction a as [|x a IH]; simpl; [reflexivity|].
  rewrite IH. destruct (a ++ rstrip b) as [|y r] eqn:E; [|reflexivity].
  exfalso. destruct a; simpl in E; [contradiction | discriminate].
Qed.

(** A line that starts and ends with characters other than blanks is left
    alone by [strip], whatever stands in between. *)
Lemma strip_between (x y : ascii) (pre mid post : string) :
  is_space x = false -> rstrip (String y post) = String y post ->
  strip (String x pre ++ mid ++ String y post)
  = String x pre ++ mid ++ String y post.
Proof.
  intros Hx Hy. unfold strip.
  change (lstrip (String x pre ++ mid ++ String y post))
    with (if is_space x then lstrip (pre ++ mid ++ String y post)
          else String x pre ++ mid ++ String y post).
  rewrite Hx.
  rewrite rstrip_app_keep.
  - rewrite rstrip_app_keep; rewrite Hy; [reflexivity | discriminate].
  - rewrite rstrip_app_keep; rewrite Hy; [|discriminate].
    destruct mid; discriminate.
Qed.

Lemma join_cons (sep l l' : string) (rest : list string) :
  join sep (l :: l' :: rest) = l ++ sep ++ join sep (l' :: rest).
Proof. reflexivity. Qed.

Lemma mem_join_empty (c : ascii) (parts : list string) :
  Forall (fun l => mem c l = false) parts ->
  mem c (join EmptyString parts) = false.
Proof.
  induction parts as [|l rest IH]; intros H; [reflexivity|].
  inversion H as [|? ? Hl Hrest]; subst.
  destruct rest as [|l' rest']; [exact Hl|].
  rewrite join_cons, StrFacts.mem_app, Hl.
  exact (IH Hrest).
Qed.

Lemma mem_lstrip (c : ascii) (s : string) :
  mem c s = false -> mem c (lstrip s) = false.
Proof.
  induction s as [|d s IH]; simpl; intros H; [reflexivity|].
  apply orb_false_iff in H. destruct H as [Hd Hs].
  destruct (is_space d); [auto | simpl; now rewrite Hd, Hs].
Qed.

Lemma mem_rstrip (c : ascii) (s : string) :
  mem c s = false -> mem c (rstrip s) = false.
Proof.
  induction s as [|d s IH]; simpl; intros H; [reflexivity|].
  apply orb_false_iff in H. destruct H as [Hd Hs]. specialize (IH Hs).
  destruct (rstrip s) as [|y r].
  - destruct (is_space d); simpl; [reflexivity | now rewrite Hd].
  - simpl. rewrite Hd. exact IH.
Qed.

Lemma mem_strip (c : ascii) (s : string) :
  mem c s = false -> mem c (strip s) = false.
Proof.
  intros H. apply mem_rstrip, mem_lstrip, H.
Qed.

(** Stripping the lines of a text and joining them leaves no newline. *)
Lemma tidied_has_no_newline (t : string) :
  mem nl (join EmptyString (map strip (split nl t))) = false.
Proof.
  apply mem_join_empty.
  induction (StrFacts.split_parts_free nl t) as [|l ls Hl _ IH];
    cbn [map]; constructor; [apply mem_strip, Hl | exact IH].
Qed.

(** Whatever the arguments, a filter that is returned has no newline. *)
Theorem filter_has_no_newline (polygon_string srs xml : string) :
  create_polygon_filter polygon_string srs = Ok xml -> mem nl xml = false.
Proof.
  unfold create_polygon_filter, bind.
  destruct (list_item _ 1) as [n|e]; [|discriminate].
  cbv zeta. generalize (filled_template n polygon_string). intros t H.
  injection H as <-. apply tidied_has_no_newline.
Qed.

Lemma strip_indented (n : nat) (x y : ascii) (pre mid post : string) :
  is_space x = false -> rstrip (String y post) = String y post ->
  strip (spaces n ++ String x pre ++ mid ++ String y post)
  = String x pre ++ mid ++ String y post.
Proof.
  intros Hx Hy. unfold strip. rewrite lstrip_spaces.
  apply (strip_between x y pre mid post Hx Hy).
Qed.

Ltac flatten_append :=
  cbn [append quoted]; repeat rewrite append_assoc; cbn [append].

Lemma strip_polygon_line (code : string) :
  strip (spaces 20 ++ "<gml:Polygon srsName="
         ++ quoted ("urn:ogc:def:crs:EPSG::" ++ code) ++ ">")
  = "<gml:Polygon srsName=" ++ quoted ("urn:ogc:def:crs:EPSG::" ++ code) ++ ">".
Proof.
  flatten_append.
  exact (strip_indented 20 "<" double_quote
           ("gml:Polygon srsName=" ++ String double_quote "urn:ogc:def:crs:EPSG::")
           code ">" eq_refl eq_refl).
Qed.

Lemma strip_coordinates_line (coords : string) :
  strip (spaces 32 ++ "<gml:coordinates>" ++ coords ++ "</gml:coordinates>")
  = "<gml:coordinates>" ++ coords ++ "</gml:coordinates>".
Proof.
  exact (strip_indented 32 "<" "<" "gml:coordinates>" coords
           "/gml:coordinates>" eq_refl eq_refl).
Qed.

Lemma filter_has_no_newline_witness :
  mem nl (spec_filter_form "4326" "50,051,1") = false.
Proof.
  apply (filter_has_no_newline two_line_polygon "EPSG:4326").
  vm_compute. reflexivity.
Defined.

Lemma stripped_template (code coords : string) :
  mem nl code = false -> mem nl coords = false ->
  join EmptyString
    (map strip (split nl (filled_template code coords)))
  = spec_filter_form code coords.
Proof.
  intros Hcode Hcoords. unfold filled_template.
  rewrite split_join.
  - unfold template_lines, spec_filter_form. cbn [map].
    rewrite strip_polygon_line, strip_coordinates_line.
    repeat match goal with
           | |- context [strip ?l] =>
               let v := eval vm_compute in (strip l) in
               change (strip l) with v
           end.
    cbn [join]. flatten_append. reflexivity.
  - discriminate.
  - unfold template_lines, quoted.
    repeat constructor; try reflexivity; cbn -[nl];
      rewrite ?StrFacts.mem_app; cbn -[nl];
      rewrite ?StrFacts.mem_app, ?Hcode, ?Hcoords; reflexivity.
Qed.

Lemma split_epsg (code : string) :
  mem ":" code = false -> split ":" ("EPSG:" ++ code) = ["EPSG"; code].
Proof.
  intros H.
  change ("EPSG:" ++ code) with ("EPSG" ++ String ":" code).
  rewrite StrFacts.split_app_sep by reflexivity.
  rewrite (StrFacts.split_absent ":" code H). reflexivity.
Qed.

(** C4, as amended. For a polygon text without a newline and a reference
    system [EPSG:<code>] whose code has neither a colon nor a newline,
    [create_polygon_filter] returns the template with each line stripped and
    the lines concatenated; this is the single-line form of the
    specification, in which [srsName] carries the code and the polygon text
    stands unchanged between the [gml:coordinates] tags; it has no newline.
    On the example of the specification the output contains the two
    fragments that the specification names. *)
Theorem create_polygon_filter_single_line (polygon_string code : string) :
  mem nl polygon_string = false ->
  mem nl code = false ->
  mem ":" code = false ->
  create_polygon_filter polygon_string ("EPSG:" ++ code)
  = Ok (join EmptyString (map strip (template_lines code polygon_string)))
  /\ join EmptyString (map strip (template_lines code polygon_string))
     = spec_filter_form code polygon_string
  /\ mem nl (spec_filter_form code polygon_string) = false
  /\ (exists xml,
        create_polygon_filter example_polygon "EPSG:4326" = Ok xml
        /\ contains xml ("srsName=" ++ quoted "urn:ogc:def:crs:EPSG::4326") = true
        /\ contains xml ("<gml:coordinates>" ++ example_polygon
                         ++ "</gml:coordinates>") = true).
Proof.
  intros HP Hcode Hcolon.
  assert (Hlines : split nl (filled_template code polygon_string)
                   = template_lines code polygon_string).
  { unfold filled_template. apply split_join; [discriminate|].
    unfold template_lines, quoted.
    repeat constructor; try reflexivity; cbn -[nl];
      rewrite ?StrFacts.mem_app; cbn -[nl];
      rewrite ?StrFacts.mem_app, ?Hcode, ?HP; reflexivity. }
  assert (Hrun : create_polygon_filter polygon_string ("EPSG:" ++ code)
                 = Ok (join EmptyString
                         (map strip (template_lines code polygon_string)))).
  { unfold create_polygon_filter. rewrite (split_epsg code Hcolon).
    cbv [list_item nth_error bind]. rewrite Hlines. reflexivity. }
  assert (Hform := stripped_template code polygon_string Hcode HP).
  rewrite Hlines in Hform.
  repeat split.
  - exact Hrun.
  - exact Hform.
  - rewrite <- Hform, <- Hlines. apply tidied_has_no_newline.
  - eexists. split; [vm_compute; reflexivity|]. split; vm_compute; reflexivity.
Qed.

Lemma create_polygon_filter_single_line_witness :
  create_polygon_filter example_polygon ("EPSG:" ++ "4326")
  = Ok (join EmptyString (map strip (template_lines "4326" example_polygon)))
  /\ join EmptyString (map strip (template_lines "4326" example_polygon))
     = spec_filter_form "4326" example_polygon
  /\ mem nl (spec_filter_form "4326" example_polygon) = false
  /\ (exists xml,
        create_polygon_filter example_polygon "EPSG:4326" = Ok xml
        /\ contains xml ("srsName=" ++ quoted "urn:ogc:def:crs:EPSG::4326") = true
        /\ contains xml ("<gml:coordinates>" ++ example_polygon
                         ++ "</gml:coordinates>") = true).
Proof.
  apply (create_polygon_filter_single_line example_polygon "4326");
    reflexivity.
Defined.

(** C4, counterexample. The two-line polygon text passes
    [validate_polygon_string], and the filter built from it joins the two
    lines: the text does not stand in the filter as it was given. *)
Lemma filter_joins_polygon_lines :
  validate_polygon_string two_line_polygon "EPSG:4326" = Ok VNone
  /\ create_polygon_filter two_line_polygon "EPSG:4326"
     = Ok (spec_filter_form "4326" "50,051,1")
  /\ contains (spec_filter_form "4326" "50,051,1") two_line_polygon = false.
Proof.
  repeat split; vm_compute; reflexivity.
Qed.

End TemplateFacts.

Module FilterFacts.

Import ApiUtils.

Lemma supported_srs_has_colon (srs : string) :
  In srs VALID_SPATIAL_REFERENCE_SYSTEMS -> Str.mem ":" srs = true.
Proof.
  intros [<-|[<-|[]]]; reflexivity.
Qed.

Lemma filter_defined_with_colon (polygon_string srs : string) :
  Str.mem ":" srs = true ->
  exists xml, create_polygon_filter polygon_string srs = Ok xml.
Proof.
  intros H. unfold create_polygon_filter.
  destruct (StrFacts.split_present ":" srs H) as (t & u & rest & E).
  rewrite E. simpl. eexists. reflexivity.
Qed.

(** C8. [create_polygon_filter] returns when [srs] has a colon and fails
    with the [IndexError] of [srs.split(":")[1]] when it has none; for the
    supported reference systems it returns. *)
Theorem create_polygon_filter_needs_colon (polygon_string srs : string) :
  (Str.mem ":" srs = true ->
   exists xml, create_polygon_filter polygon_string srs = Ok xml)
  /\ (Str.mem ":" srs = false ->
      create_polygon_filter polygon_string srs
      = Raise (IndexError "list index out of range"))
  /\ (In srs VALID_SPATIAL_REFERENCE_SYSTEMS ->
      exists xml, create_polygon_filter polygon_string srs = Ok xml).
Proof.
  split; [|split].
  - apply filter_defined_with_colon.
  - intros H. unfold create_polygon_filter.
    rewrite (StrFacts.split_absent ":" srs H). reflexivity.
  - intros H. apply filter_defined_with_colon, supported_srs_has_colon, H.
Qed.

End FilterFacts.

(** ** Text inside text *)

Module SubstringFacts.

Lemma prefix_app (t s : string) :
  String.prefix t s = true <-> exists post, s = t ++ post.
Proof.
  revert s. induction t as [|c t IH]; intros s.
  - simpl. split; [intros _; exists s; reflexivity | intros _; destruct s; reflexivity].
  - destruct s as [|d s]; simpl.
    + split; [discriminate | intros [post H]; discriminate H].
    + destruct (ascii_dec c d) as [<-|Hn].
      * rewrite IH. split; intros [post H]; exists post.
        -- rewrite H. reflexivity.
        -- injection H as H. exact H.
      * split; [discriminate|]. intros [post H]. injection H as H _.
        congruence.
Qed.

(** [t in s] holds exactly when [t] stands somewhere inside [s]. *)
Lemma contains_app (s t : string) :
  Str.contains s t = true <-> exists pre post, s = pre ++ t ++ post.
Proof.
  induction s as [|c s IH]; rewrite StrFacts.contains_unfold, orb_true_iff.
  - rewrite prefix_app. split.
    + intros [[post H]|H]; [|discriminate H]. exists EmptyString, post. exact H.
    + intros (pre & post & H). left. exists post.
      destruct pre as [|d pre]; [exact H | discriminate H].
  - rewrite prefix_app, IH. split.
    + intros [[post H]|(pre & post & H)].
      * exists EmptyString, post. exact H.
      * exists (String c pre), post. rewrite H. reflexivity.
    + intros (pre & post & H). destruct pre as [|d pre].
      * left. exists post. exact H.
      * right. injection H as _ H. exists pre, post. exact H.
Qed.

End SubstringFacts.

(** ** The output format *)

Module OutputFormatFacts.

Import ApiUtils.

(** [validate_output_format] accepts a text exactly when its lower-case
    form stands somewhere inside the text [geojson]: the name itself in any
    case, and also every fragment of it, the empty text included.  Any
    other text fails with the assertion that names it. *)
Theorem validate_output_format_accepts_fragments (output_format : string) :
  (validate_output_format output_format = Ok VNone
   <-> exists pre post,
       VALID_OUTPUT_FORMATS = pre ++ Str.lower output_format ++ post)
  /\ ((forall pre post,
          VALID_OUTPUT_FORMATS <> pre ++ Str.lower output_format ++ post) ->
      validate_output_format output_format
      = Raise (AssertionError (output_format_message output_format)))
  /\ validate_output_format EmptyString = Ok VNone
  /\ validate_output_format "JSON" = Ok VNone
  /\ validate_output_format "GeoJSON" = Ok VNone
  /\ validate_output_format "xml"
     = Raise (AssertionError (output_format_message "xml")).
Proof.
  split; [|split; [|repeat split]].
  - rewrite <- SubstringFacts.contains_app. unfold validate_output_format, py_assert, bind.
    destruct (Str.contains VALID_OUTPUT_FORMATS (Str.lower output_format));
      split; intros H; try reflexivity; discriminate H.
  - intros H. unfold validate_output_format, py_assert, bind.
    destruct (Str.contains VALID_OUTPUT_FORMATS (Str.lower output_format))
      eqn:E; [|reflexivity].
    apply SubstringFacts.contains_app in E. destruct E as (pre & post & E).
    exfalso. exact (H pre post E).
Qed.

End OutputFormatFacts.

(** ** Comprehensions that fail, and columns *)

Module ComprehensionFailure.

Lemma comprehension_first_failure {A B : Type} (f : A -> result B)
  (xs : list A) :
  Exists (fun x => exists e, f x = Raise e) xs ->
  exists x e, In x xs /\ f x = Raise e /\ comprehension f xs = Raise e.
Proof.
  induction xs as [|a xs IH]; intros H; inversion H as [? ? [e He]|? ? Hx]; subst.
  - exists a, e. simpl. rewrite He. auto.
  - destruct (f a) as [y|e] eqn:E.
    + destruct (IH Hx) as (x & e & Hin & Hf & Hc).
      exists x, e. simpl. rewrite E, Hc. auto.
    + exists a, e. simpl. rewrite E. auto.
Qed.

Lemma comprehension_Forall2 {A B : Type} (f : A -> result B) (xs : list A)
  (ys : list B) :
  comprehension f xs = Ok ys -> Forall2 (fun x y => f x = Ok y) xs ys.
Proof.
  revert ys. induction xs as [|x xs IH]; simpl; intros ys H.
  - injection H as <-. constructor.
  - destruct (f x) as [y|e] eqn:Ey; simpl in H; [|discriminate].
    destruct (comprehension f xs) as [ys'|e]; simpl in H; [|discriminate].
    injection H as <-. constructor; [exact Ey | apply IH; reflexivity].
Qed.

End ComprehensionFailure.

Module ZipFacts.

Lemma zip_cons_length {A : Type} (row : list A) (cols : list (list A)) :
  List.length (zip_cons row cols)
  = Nat.min (List.length row) (List.length cols).
Proof.
  revert cols. induction row as [|x row IH]; intros [|col cols]; simpl;
    try reflexivity.
  rewrite IH. reflexivity.
Qed.

(** There are no more columns than the shortest row has elements. *)
Lemma zip_star_length_le {A : Type} (rows : list (list A)) (r : list A) :
  In r rows -> (List.length (zip_star rows) <= List.length r)%nat.
Proof.
  induction rows as [|row rows IH]; intros Hin; [destruct Hin|].
  destruct rows as [|row' rows].
  - destruct Hin as [<-|[]]. simpl. rewrite length_map. lia.
  - change (zip_star (row :: row' :: rows))
      with (zip_cons row (zip_star (row' :: rows))).
    rewrite zip_cons_length. destruct Hin as [<-|Hin]; [lia|].
    specialize (IH Hin). lia.
Qed.

Lemma zip_star_length_ge {A : Type} (n : nat) (rows : list (list A)) :
  rows <> [] -> Forall (fun r => (n <= List.length r)%nat) rows ->
  (n <= List.length (zip_star rows))%nat.
Proof.
  induction rows as [|row rows IH]; intros Hne Hall; [contradiction|].
  inversion Hall as [|? ? Hrow Hrows]; subst.
  destruct rows as [|row' rows].
  - simpl. rewrite length_map. exact Hrow.
  - change (zip_star (row :: row' :: rows))
      with (zip_cons row (zip_star (row' :: rows))).
    rewrite zip_cons_length.
    assert (n <= List.length (zip_star (row' :: rows)))%nat
      by (apply IH; [discriminate | exact Hrows]).
    lia.
Qed.

Lemma zip_cons_columns {A : Type} (n : nat) (row : list A)
  (cols : list (list A)) :
  Forall (fun col => List.length col = n) cols ->
  Forall (fun col => List.length col = S n) (zip_cons row cols).
Proof.
  revert cols. induction row as [|x row IH]; intros cols H; [constructor|].
  destruct cols as [|col cols]; [constructor|].
  inversion H; subst. simpl. constructor; [reflexivity | apply IH; assumption].
Qed.

(** Every column has one element for each row. *)
Lemma zip_star_columns {A : Type} (rows : list (list A)) :
  rows <> [] ->
  Forall (fun col => List.length col = List.length rows) (zip_star rows).
Proof.
  induction rows as [|row rows IH]; intros Hne; [contradiction|].
  destruct rows as [|row' rows].
  - simpl. apply Forall_forall. intros col Hin.
    apply in_map_iff in Hin. destruct Hin as (x & <- & _). reflexivity.
  - change (zip_star (row :: row' :: rows))
      with (zip_cons row (zip_star (row' :: rows))).
    apply zip_cons_columns. apply IH. discriminate.
Qed.

Lemma firstn_zip_cons {A : Type} (n : nat) (row : list A)
  (cols : list (list A)) :
  firstn n (zip_cons row cols) = zip_cons (firstn n row) (firstn n cols).
Proof.
  revert row cols. induction n as [|n IH]; intros row cols; [reflexivity|].
  destruct row as [|x row]; [reflexivity|].
  destruct cols as [|col cols]; [reflexivity|].
  simpl. rewrite IH. reflexivity.
Qed.

(** The first [n] columns are the columns of the rows cut to [n]
    elements. *)
Lemma firstn_zip_star {A : Type} (n : nat) (rows : list (list A)) :
  firstn n (zip_star rows) = zip_star (map (firstn n) rows).
Proof.
  induction rows as [|row rows IH]; [apply firstn_nil|].
  destruct rows as [|row' rows].
  - simpl. apply firstn_map.
  - change (zip_star (row :: row' :: rows))
      with (zip_cons row (zip_star (row' :: rows))).
    rewrite firstn_zip_cons, IH. reflexivity.
Qed.

Lemma nth_error_zip_star {A : Type} (n i : nat) (rows : list (list A)) :
  (i < n)%nat ->
  nth_error (zip_star rows) i = nth_error (zip_star (map (firstn n) rows)) i.
Proof.
  intros Hi. rewrite <- firstn_zip_star, nth_error_firstn.
  apply Nat.ltb_lt in Hi. rewrite Hi. reflexivity.
Qed.

End ZipFacts.

Module PolygonShapeFacts.

Import ApiUtils.

Lemma to_float_fails (t : string) (e : exn) :
  to_float t = Raise e <-> PyFloat.of_string t = None /\ e = float_error t.
Proof.
  unfold to_float, float_error. destruct (PyFloat.of_string t); split.
  - discriminate.
  - intros [H _]. discriminate H.
  - intros H. injection H as <-. auto.
  - intros [_ ->]. reflexivity.
Qed.

(** The text is parsed vertex by vertex and token by token, and the first
    token that is not a number ends the parsing. *)
Lemma polygon_coords_bad_token (polygon : string) :
  (exists v t, In v (Str.split " " polygon) /\ In t (Str.split "," v)
               /\ PyFloat.of_string t = None) ->
  exists v t, In v (Str.split " " polygon) /\ In t (Str.split "," v)
              /\ PyFloat.of_string t = None
              /\ polygon_coords_of polygon = Raise (float_error t).
Proof.
  intros (v & t & Hv & Ht & Hbad). unfold polygon_coords_of.
  destruct (ComprehensionFailure.comprehension_first_failure
              (fun coords => comprehension to_float (Str.split "," coords))
              (Str.split " " polygon)) as (v' & e & Hv' & He & Hrun).
  { apply Exists_exists. exists v. split; [exact Hv|].
    destruct (ComprehensionFailure.comprehension_first_failure to_float
                (Str.split "," v)) as (t' & e & _ & _ & Hrun).
    - apply Exists_exists. exists t. split; [exact Ht|].
      exists (float_error t). apply to_float_fails. auto.
    - exists e. exact Hrun. }
  assert (Hex : exists t', In t' (Str.split "," v')
                           /\ PyFloat.of_string t' = None
                           /\ e = float_error t').
  { clear Hrun. revert He. induction (Str.split "," v') as [|a l IH];
      simpl; [discriminate|].
    destruct (to_float a) as [x|e'] eqn:Ea; simpl.
    - destruct (comprehension to_float l) as [ys|e']; simpl; [discriminate|].
      intros H. injection H as ->.
      destruct (IH eq_refl) as (t' & Hin & Hnone & Hmsg). eauto.
    - intros H. injection H as ->. apply to_float_fails in Ea.
      destruct Ea as [Hnone ->]. exists a. auto. }
  destruct Hex as (t' & Hin & Hnone & ->).
  exists v', t'. auto.
Qed.

Lemma polygon_coords_numeric (polygon : string) :
  (forall v t, In v (Str.split " " polygon) -> In t (Str.split "," v) ->
               PyFloat.of_string t <> None) ->
  exists rows,
    polygon_coords_of polygon = Ok rows
    /\ Forall2 (fun v row => List.length row = List.length (Str.split "," v))
         (Str.split " " polygon) rows.
Proof.
  intros Hnum. unfold polygon_coords_of.
  destruct (ComprehensionFacts.comprehension_total
              (fun coords => comprehension to_float (Str.split "," coords))
              (Str.split " " polygon)) as [rows Hrows].
  { apply Forall_forall. intros v Hv.
    apply ComprehensionFacts.comprehension_total.
    apply Forall_forall. intros t Ht. specialize (Hnum v t Hv Ht).
    unfold to_float. destruct (PyFloat.of_string t); [eauto | contradiction]. }
  exists rows. split; [exact Hrows|].
  apply ComprehensionFailure.comprehension_Forall2 in Hrows.
  apply Forall2_impl with (2 := Hrows).
  intros v row H. apply (ComprehensionFacts.comprehension_length _ _ _ H).
Qed.

(** Under a supported reference system, a polygon text with a token
    that is not a number (between two commas, or a whole vertex, as the
    empty vertex that two blanks in a row or a blank at either end leave)
    makes [validate_polygon_string] fail with the [ValueError] of [float]
    on such a token, whatever the other values are. *)
Theorem polygon_token_must_be_numeric (polygon srs : string) (ext : extent) :
  extent_of srs = Some ext ->
  (exists v t, In v (Str.split " " polygon) /\ In t (Str.split "," v)
               /\ PyFloat.of_string t = None) ->
  exists v t, In v (Str.split " " polygon) /\ In t (Str.split "," v)
              /\ PyFloat.of_string t = None
              /\ validate_polygon_string polygon srs
                 = Raise (ValueError ("could not convert string to float: "
                                      ++ Str.repr t)).
Proof.
  intros Hext Hbad.
  destruct (polygon_coords_bad_token polygon Hbad)
    as (v & t & Hv & Ht & Hnone & Hrun).
  exists v, t. repeat split; try assumption.
  destruct (PolygonFacts.validate_polygon_extent polygon srs ext Hext)
    as [-> _].
  unfold _validate_polygon_string. rewrite Hrun. reflexivity.
Qed.

Lemma polygon_token_must_be_numeric_witness :
  exists v t, In v (Str.split " " "50,0  51,1") /\ In t (Str.split "," v)
              /\ PyFloat.of_string t = None
              /\ validate_polygon_string "50,0  51,1" "EPSG:4326"
                 = Raise (ValueError ("could not convert string to float: "
                                      ++ Str.repr t)).
Proof.
  apply (polygon_token_must_be_numeric "50,0  51,1" "EPSG:4326"
           (Extent (-7) 2 49 61)); [reflexivity|].
  exists EmptyString, EmptyString.
  split; [vm_compute; tauto|]. split; [vm_compute; tauto|].
  vm_compute. reflexivity.
Defined.

(** Under a supported reference system, when every token of the
    polygon text is a number and some vertex has no comma, hence one value
    only, [validate_polygon_string] fails with an [IndexError]: there is no
    column of second values. *)
Theorem polygon_vertex_needs_two_values (polygon srs : string) (ext : extent)
  (v : string) :
  extent_of srs = Some ext ->
  (forall v t, In v (Str.split " " polygon) -> In t (Str.split "," v) ->
               PyFloat.of_string t <> None) ->
  In v (Str.split " " polygon) -> Str.mem "," v = false ->
  validate_polygon_string polygon srs
  = Raise (IndexError "list index out of range").
Proof.
  intros Hext Hnum Hv Hcomma.
  destruct (polygon_coords_numeric polygon Hnum) as (rows & Hrows & Hlen).
  destruct (PolygonFacts.validate_polygon_extent polygon srs ext Hext)
    as [-> _].
  assert (Hne : rows <> []).
  { intros ->. inversion Hlen as [E|]. rewrite <- E in Hv. destruct Hv. }
  assert (Hsome : Forall (fun r => (1 <= List.length r)%nat) rows).
  { clear Hv Hne Hrows Hnum. induction Hlen as [|v' row vs rs Hrow _ IH];
      constructor; [|exact IH].
    rewrite Hrow. pose proof (StrFacts.split_not_nil "," v').
    destruct (Str.split "," v'); [contradiction | simpl; lia]. }
  assert (Hone : exists r, In r rows /\ List.length r = 1%nat).
  { clear Hne Hsome Hrows Hnum. induction Hlen as [|v' row vs rs Hrow _ IH];
      [destruct Hv|].
    destruct Hv as [->|Hv].
    - exists row. split; [left; reflexivity|].
      rewrite Hrow, (StrFacts.split_absent "," v Hcomma). reflexivity.
    - destruct (IH Hv) as (r & Hin & Hr). exists r. split; [right|]; assumption. }
  destruct Hone as (r & Hin & Hr).
  pose proof (ZipFacts.zip_star_length_le rows r Hin) as Hle.
  pose proof (ZipFacts.zip_star_length_ge 1 rows Hne Hsome) as Hge.
  pose proof (ZipFacts.zip_star_columns rows Hne) as Hcols.
  unfold _validate_polygon_string. rewrite Hrows. cbn [bind].
  destruct (zip_star rows) as [|col [|col' cols]]; simpl in Hle, Hge; try lia.
  inversion Hcols as [|? ? Hcol _]; subst.
  destruct col as [|x col];
    [destruct rows; [contradiction | discriminate Hcol]|].
  reflexivity.
Qed.

Lemma polygon_vertex_needs_two_values_witness :
  validate_polygon_string "50,0 51" "EPSG:4326"
  = Raise (IndexError "list index out of range").
Proof.
  apply (polygon_vertex_needs_two_values "50,0 51" "EPSG:4326"
           (Extent (-7) 2 49 61) "51"); [reflexivity| | |reflexivity].
  - replace (Str.split " " "50,0 51") with ["50,0"; "51"]
      by (vm_compute; reflexivity).
    intros v t [<-|[<-|[]]].
    + intros [<-|[<-|[]]]; vm_compute; discriminate.
    + intros [<-|[]]; vm_compute; discriminate.
  - vm_compute. tauto.
Defined.

(** The outcome is a function of the extremes of the first two columns. *)
Lemma polygon_same_extremes (polygon polygon' srs : string)
  (rows rows' : list (list PyFloat.float)) (lo_x hi_x lo_y hi_y : Z) :
  polygon_coords_of polygon = Ok rows ->
  polygon_coords_of polygon' = Ok rows' ->
  (forall i, (i < 2)%nat ->
     (col <- list_item (zip_star rows') i ;; seq_max col)
     = (col <- list_item (zip_star rows) i ;; seq_max col)) ->
  (forall i, (i < 2)%nat ->
     (col <- list_item (zip_star rows') i ;; seq_min col)
     = (col <- list_item (zip_star rows) i ;; seq_min col)) ->
  _validate_polygon_string polygon' srs lo_x hi_x lo_y hi_y
  = _validate_polygon_string polygon srs lo_x hi_x lo_y hi_y.
Proof.
  intros Hc Hc' Hmax Hmin. unfold _validate_polygon_string.
  rewrite Hc, Hc'. cbn [bind].
  rewrite (Hmax 0%nat), (Hmin 0%nat), (Hmax 1%nat), (Hmin 1%nat) by lia.
  reflexivity.
Qed.

(** [validate_polygon_string] looks at the first two values of each
    vertex only: two polygon texts whose tokens are all numbers and whose
    vertices agree on their first two values have the same outcome, under
    any reference system. *)
Theorem polygon_further_values_ignored (polygon polygon' srs : string)
  (rows rows' : list (list PyFloat.float)) :
  polygon_coords_of polygon = Ok rows ->
  polygon_coords_of polygon' = Ok rows' ->
  map (firstn 2) rows' = map (firstn 2) rows ->
  validate_polygon_string polygon' srs = validate_polygon_string polygon srs.
Proof.
  intros Hc Hc' Hsame. unfold validate_polygon_string.
  assert (Hcol : forall i, (i < 2)%nat ->
            list_item (zip_star rows') i = list_item (zip_star rows) i).
  { intros i Hi. unfold list_item.
    rewrite (ZipFacts.nth_error_zip_star 2 i rows' Hi), Hsame,
      <- (ZipFacts.nth_error_zip_star 2 i rows Hi). reflexivity. }
  rewrite !(polygon_same_extremes polygon polygon' _ rows rows' _ _ _ _ Hc Hc');
    try reflexivity; intros i Hi; rewrite (Hcol i Hi); reflexivity.
Qed.

Lemma polygon_further_values_ignored_witness :
  validate_polygon_string "50,0,9999 51,1,-9999,7" "EPSG:4326"
  = validate_polygon_string "50,0 51,1" "EPSG:4326".
Proof.
  eapply (polygon_further_values_ignored "50,0 51,1" "50,0,9999 51,1,-9999,7").
  - vm_compute. reflexivity.
  - vm_compute. reflexivity.
  - reflexivity.
Defined.

End PolygonShapeFacts.

(** ** Values that are not numbers *)

Module NanFacts.

Import ApiUtils PyFloat.

Lemma ltb_nan_l (x : float) : is_nan x = true -> forall y, ltb x y = false.
Proof. destruct x; try discriminate. reflexivity. Qed.

Lemma ltb_nan_r (y : float) : is_nan y = true -> forall x, ltb x y = false.
Proof.
  destruct y; try discriminate. intros _ x. unfold ltb.
  destruct (value_of x); reflexivity.
Qed.

(** A first element that is not a number stays the result. *)
Lemma py_min_nan (first : float) (rest : list float) :
  is_nan first = true -> py_min first rest = first.
Proof.
  intros H. induction rest as [|x rest IH]; [reflexivity|].
  change (py_min first (x :: rest))
    with (py_min (if ltb x first then x else first) rest).
  rewrite (ltb_nan_r first H). exact IH.
Qed.

Lemma py_max_nan (first : float) (rest : list float) :
  is_nan first = true -> py_max first rest = first.
Proof.
  intros H. induction rest as [|x rest IH]; [reflexivity|].
  change (py_max first (x :: rest))
    with (py_max (if gtb x first then x else first) rest).
  unfold gtb. rewrite (ltb_nan_l first H). exact IH.
Qed.

(** Later elements that are not numbers are passed over. *)
Lemma py_min_skips_nan (rest : list float) (first : float) :
  py_min first rest = py_min first (filter is_number rest).
Proof.
  revert first. induction rest as [|x rest IH]; intros first; [reflexivity|].
  change (py_min first (x :: rest))
    with (py_min (if ltb x first then x else first) rest).
  cbn [filter]. unfold is_number at 1. destruct (is_nan x) eqn:E; cbn [negb].
  - rewrite (ltb_nan_l x E). apply IH.
  - rewrite IH. reflexivity.
Qed.

Lemma py_max_skips_nan (rest : list float) (first : float) :
  py_max first rest = py_max first (filter is_number rest).
Proof.
  revert first. induction rest as [|x rest IH]; intros first; [reflexivity|].
  change (py_max first (x :: rest))
    with (py_max (if gtb x first then x else first) rest).
  cbn [filter]. unfold is_number at 1. destruct (is_nan x) eqn:E; cbn [negb].
  - unfold gtb. rewrite (ltb_nan_r x E). apply IH.
  - rewrite IH. reflexivity.
Qed.

Lemma gt_Z_nan (x : float) (lo : Z) : is_nan x = true -> gt_Z x lo = false.
Proof. destruct x; try discriminate. reflexivity. Qed.

Lemma inside_numbers (lo hi : Z) (rest : list float) :
  Forall (strictly_inside lo hi) (filter is_number rest)
  <-> Forall (fun x => is_nan x = true \/ strictly_inside lo hi x) rest.
Proof.
  induction rest as [|x rest IH]; cbn [filter].
  - split; constructor.
  - unfold is_number at 1. destruct (is_nan x) eqn:E; cbn [negb].
    + rewrite IH. split.
      * intros H. constructor; [left; exact E | exact H].
      * intros H. inversion H; assumption.
    + split.
      * intros H. inversion H as [|? ? Hx Hr]; subst.
        constructor; [right; exact Hx | apply IH; exact Hr].
      * intros H. inversion H as [|? ? [Hx|Hx] Hr]; subst; [congruence|].
        constructor; [exact Hx | apply IH; exact Hr].
Qed.

(** A column whose first value is a number is within the bounds exactly
    when each of its values that is a number is. *)
Lemma within_column_numbers (lo hi : Z) (first : float) (rest : list float) :
  is_nan first = false ->
  gt_Z (py_min first rest) lo && lt_Z (py_max first rest) hi = true
  <-> Forall (fun x => is_nan x = true \/ strictly_inside lo hi x)
        (first :: rest).
Proof.
  intros Hf. rewrite py_min_skips_nan, py_max_skips_nan.
  rewrite PolygonFacts.within_column.
  - split.
    + intros H. inversion H as [|? ? Hx Hr]; subst.
      constructor; [right; exact Hx | apply inside_numbers; exact Hr].
    + intros H. inversion H as [|? ? [Hx|Hx] Hr]; subst; [congruence|].
      constructor; [exact Hx | apply inside_numbers; exact Hr].
  - constructor; [exact Hf|]. apply Forall_forall. intros x Hx.
    apply filter_In in Hx. destruct Hx as [_ Hx]. unfold is_number in Hx.
    destruct (is_nan x); [discriminate | reflexivity].
Qed.

(** A value that is not a number is noticed in the first vertex only.
    Under a supported reference system, a well-formed polygon text is
    rejected by an assertion when a value of its first vertex is not a
    number; when both values of the first vertex are numbers, it passes
    exactly when every value that is a number is inside its range, so that
    the values of later vertices that are not numbers are passed over. *)
Theorem polygon_nan_noticed_in_first_vertex_only (polygon srs : string)
  (ext : extent) (p0 : float * float) (pairs : list (float * float)) :
  extent_of srs = Some ext ->
  polygon_coords_of polygon = Ok (rows_of (p0 :: pairs)) ->
  (is_nan (fst p0) = true \/ is_nan (snd p0) = true ->
   exists m, validate_polygon_string polygon srs = Raise (AssertionError m))
  /\ (is_nan (fst p0) = false -> is_nan (snd p0) = false ->
      (validate_polygon_string polygon srs = Ok VNone
       <-> Forall (fun p =>
                     (is_nan (fst p) = true
                      \/ strictly_inside (min_y ext) (max_y ext) (fst p))
                     /\ (is_nan (snd p) = true
                         \/ strictly_inside (min_x ext) (max_x ext) (snd p)))
                  (p0 :: pairs))).
Proof.
  intros Hext Hc.
  destruct (PolygonFacts.validate_polygon_extent polygon srs ext Hext)
    as [-> [fmt Hm]].
  rewrite (PolygonFacts.polygon_rows polygon srs fmt _ _ _ _ p0 pairs Hc Hm).
  split.
  - intros [H|H].
    + rewrite (py_min_nan _ _ H), (gt_Z_nan _ _ H). cbn [andb]. eauto.
    + rewrite (py_min_nan (snd p0) _ H), (gt_Z_nan (snd p0) _ H). cbn [andb].
      destruct (gt_Z _ (min_y ext) && lt_Z _ (max_y ext)); eauto.
  - intros H1 H2.
    rewrite (PolygonFacts.Forall_columns
               (fun x => is_nan x = true
                         \/ strictly_inside (min_y ext) (max_y ext) x)
               (fun x => is_nan x = true
                         \/ strictly_inside (min_x ext) (max_x ext) x)).
    change (map fst (p0 :: pairs)) with (fst p0 :: map fst pairs).
    change (map snd (p0 :: pairs)) with (snd p0 :: map snd pairs).
    rewrite <- (within_column_numbers _ _ _ _ H1),
      <- (within_column_numbers _ _ _ _ H2).
    destruct (gt_Z _ (min_y ext) && lt_Z _ (max_y ext));
      destruct (gt_Z _ (min_x ext) && lt_Z _ (max_x ext));
      split; try tauto; try (intros H; discriminate H);
      intros [Ha Hb]; discriminate.
Qed.

Lemma polygon_nan_noticed_in_first_vertex_only_witness :
  (is_nan (fst (S754_nan, S754_zero false)) = true
   \/ is_nan (snd (S754_nan, S754_zero false)) = true ->
   exists m, validate_polygon_string "nan,0 50,0 51,1" "EPSG:4326"
             = Raise (AssertionError m))
  /\ (is_nan (fst (S754_nan, S754_zero false)) = false ->
      is_nan (snd (S754_nan, S754_zero false)) = false ->
      (validate_polygon_string "nan,0 50,0 51,1" "EPSG:4326" = Ok VNone
       <-> Forall (fun p =>
                     (is_nan (fst p) = true \/ strictly_inside 49 61 (fst p))
                     /\ (is_nan (snd p) = true
                         \/ strictly_inside (-7) 2 (snd p)))
                  [(S754_nan, S754_zero false);
                   (S754_finite false 7036874417766400 (-47), S754_zero false);
                   (S754_finite false 7177611906121728 (-47),
                    S754_finite false 4503599627370496 (-52))])).
Proof.
  apply (polygon_nan_noticed_in_first_vertex_only "nan,0 50,0 51,1"
           "EPSG:4326" (Extent (-7) 2 49 61)).
  - reflexivity.
  - vm_compute. reflexivity.
Defined.

End NanFacts.

(** ** Whitespace in a bounding box *)

Module WhitespaceFacts.

Import ApiUtils PyFloat.

Lemma lstrip_blank_app (w s : string) :
  blank w = true -> lstrip (w ++ s) = lstrip s.
Proof.
  induction w as [|c w IH]; simpl; intros H; [reflexivity|].
  apply andb_true_iff in H. destruct H as [Hc Hw].
  rewrite Hc. exact (IH Hw).
Qed.

Lemma lstrip_blank (w : string) : blank w = true -> lstrip w = EmptyString.
Proof.
  induction w as [|c w IH]; simpl; intros H; [reflexivity|].
  apply andb_true_iff in H. destruct H as [Hc Hw].
  rewrite Hc. exact (IH Hw).
Qed.

Lemma rstrip_blank (w : string) : blank w = true -> rstrip w = EmptyString.
Proof.
  induction w as [|c w IH]; simpl; intros H; [reflexivity|].
  apply andb_true_iff in H. destruct H as [Hc Hw].
  rewrite (IH Hw), Hc. reflexivity.
Qed.

Lemma rstrip_app_blank (s w : string) :
  blank w = true -> rstrip (s ++ w) = rstrip s.
Proof.
  intros H. induction s as [|c s IH]; cbn [append].
  - apply (rstrip_blank w H).
  - cbn [rstrip]. rewrite IH. reflexivity.
Qed.

Lemma strip_app_blank (t w : string) :
  blank w = true -> rstrip (lstrip (t ++ w)) = rstrip (lstrip t).
Proof.
  intros H. induction t as [|c t IH]; cbn [append].
  - rewrite (lstrip_blank w H). reflexivity.
  - cbn [lstrip]. destruct (is_space c); [exact IH|].
    apply (rstrip_app_blank (String c t) w H).
Qed.

(** [float] reads a token with whitespace around it as it reads the token
    alone. *)
Lemma of_string_padded (t u : string) :
  padded t u -> of_string u = of_string t.
Proof.
  intros (w & w' & Hw & Hw' & ->). unfold of_string.
  rewrite (lstrip_blank_app w _ Hw), (strip_app_blank t w' Hw').
  reflexivity.
Qed.

(** Whitespace around the values of a bounding box is immaterial to its
    acceptance: a bounding box whose first four tokens are those of another
    one with whitespace added around them is accepted exactly when the other
    one is, and fails an assertion exactly when the other one does, with the
    same message. *)
Theorem validate_bbox_whitespace_immaterial (bbox bbox' srs : string)
  (t0 t1 t2 t3 u0 u1 u2 u3 : string) (extra extra' : list string) :
  Str.split "," bbox = t0 :: t1 :: t2 :: t3 :: extra ->
  Str.split "," bbox' = u0 :: u1 :: u2 :: u3 :: extra' ->
  padded t0 u0 -> padded t1 u1 -> padded t2 u2 -> padded t3 u3 ->
  (validate_bbox bbox' srs = Ok VNone <-> validate_bbox bbox srs = Ok VNone)
  /\ (forall m, validate_bbox bbox' srs = Raise (AssertionError m)
                <-> validate_bbox bbox srs = Raise (AssertionError m))
  /\ ((exists m, validate_bbox bbox' srs = Raise (ValueError m))
      <-> (exists m, validate_bbox bbox srs = Raise (ValueError m))).
Proof.
  intros Hs Hs' P0 P1 P2 P3.
  apply of_string_padded in P0, P1, P2, P3.
  unfold validate_bbox, _validate_bbox.
  rewrite Hs, Hs', !BboxFacts.token_within_eq. cbn [nth_error].
  rewrite P0, P1, P2, P3.
  destruct (validate_srs srs) as [v|e]; cbn [bind];
    [|repeat split; intros H; exact H].
  assert (Hgen : forall lo_x hi_x lo_y hi_y (msg : result string),
    let run (a b c d : string) :=
      py_assert
        (match of_string t0 with
         | Some x => Ok (within lo_y hi_y x)
         | None => Raise (ValueError ("could not convert string to float: "
                                     ++ Str.repr a))
         end &&&
         match of_string t2 with
         | Some x => Ok (within lo_y hi_y x)
         | None => Raise (ValueError ("could not convert string to float: "
                                     ++ Str.repr c))
         end)
        (m <- msg ;; Ok (latitude_message lo_y hi_y m)) ;;;
      py_assert
        (match of_string t1 with
         | Some x => Ok (within lo_x hi_x x)
         | None => Raise (ValueError ("could not convert string to float: "
                                     ++ Str.repr b))
         end &&&
         match of_string t3 with
         | Some x => Ok (within lo_x hi_x x)
         | None => Raise (ValueError ("could not convert string to float: "
                                     ++ Str.repr d))
         end)
        (m <- msg ;; Ok (longitude_message lo_x hi_x m)) ;;;
      Ok VNone in
    (run u0 u1 u2 u3 = Ok VNone <-> run t0 t1 t2 t3 = Ok VNone)
    /\ (forall m, run u0 u1 u2 u3 = Raise (AssertionError m)
                  <-> run t0 t1 t2 t3 = Raise (AssertionError m))
    /\ ((exists m, run u0 u1 u2 u3 = Raise (ValueError m))
        <-> (exists m, run t0 t1 t2 t3 = Raise (ValueError m)))).
  { intros lo_x hi_x lo_y hi_y msg. cbv zeta.
    unfold py_assert, and_then, bind.
    destruct (of_string t0) as [a|], (of_string t1) as [b|],
      (of_string t2) as [c|], (of_string t3) as [d|], msg as [fmt|e];
      repeat match goal with
             | |- context [within ?lo ?hi ?x] => destruct (within lo hi x)
             end;
      repeat split;
      try (intros H; exact H);
      try (intros H; discriminate H);
      try (intros [m H]; discriminate H);
      try (intros _; eexists; reflexivity). }
  destruct (String.eqb srs "EPSG:4326"); [apply Hgen|].
  destruct (String.eqb srs "EPSG:27700"); [apply Hgen|].
  repeat split; intros H; exact H.
Qed.

Lemma validate_bbox_whitespace_immaterial_witness :
  (validate_bbox " 49.5, -6, 60 ,1 " "EPSG:4326" = Ok VNone
   <-> validate_bbox "49.5,-6,60,1" "EPSG:4326" = Ok VNone)
  /\ (forall m, validate_bbox " 49.5, -6, 60 ,1 " "EPSG:4326"
                = Raise (AssertionError m)
                <-> validate_bbox "49.5,-6,60,1" "EPSG:4326"
                    = Raise (AssertionError m))
  /\ ((exists m, validate_bbox " 49.5, -6, 60 ,1 " "EPSG:4326"
                 = Raise (ValueError m))
      <-> (exists m, validate_bbox "49.5,-6,60,1" "EPSG:4326"
                     = Raise (ValueError m))).
Proof.
  apply (validate_bbox_whitespace_immaterial "49.5,-6,60,1"
           " 49.5, -6, 60 ,1 " "EPSG:4326" "49.5" "-6" "60" "1"
           " 49.5" " -6" " 60 " "1 " [] []).
  - vm_compute. reflexivity.
  - vm_compute. reflexivity.
  - exists " ", EmptyString. repeat split.
  - exists " ", EmptyString. repeat split.
  - exists " ", " ". repeat split.
  - exists EmptyString, " ". repeat split.
Defined.

End WhitespaceFacts.

(** ** Products *)

Module CatalogueFacts.

Import ApiUtils.

Section Catalogue.

Variable has_attribute : string -> bool.
Variable products_attribute : string -> result product_dict.
Variable set_union : list string -> list string -> list string.

(** With a union of sets that has the elements of both, the outcome of
    [validate_type_name] is this.  A service name that, in lower case, is no
    attribute of [API_Service] raises the [TypeError] that lists the
    services.  Otherwise, with the products of the service at hand, the
    function returns for a name among the open products, and for a name
    among the premium products when premium products are allowed; whenever
    it returns, it returns [True] and never [False].  A premium name without
    that permission and a name in neither set raise a [ValueError], each
    with its own message. *)
Theorem validate_type_name_outcomes (type_name api_service : string)
  (allow_premium : bool) :
  (forall x a b, set_mem x (set_union a b) = set_mem x a || set_mem x b) ->
  (has_attribute (Str.lower api_service) = false ->
   validate_type_name has_attribute products_attribute set_union
     type_name api_service allow_premium
   = Raise (TypeError "Please use ['wfs', 'wmts', 'vts', 'zxy']"))
  /\ (forall catalogue,
        has_attribute (Str.lower api_service) = true ->
        products_attribute (Str.lower api_service ++ "_products")
        = Ok catalogue ->
        (validate_type_name has_attribute products_attribute set_union
           type_name api_service allow_premium = Ok (VBool true)
         <-> set_mem type_name (open_products catalogue) = true
             \/ (allow_premium = true
                 /\ set_mem type_name (premium_products catalogue) = true))
        /\ (forall v,
              validate_type_name has_attribute products_attribute set_union
                type_name api_service allow_premium = Ok v ->
              v = VBool true)
        /\ (allow_premium = false ->
            set_mem type_name (open_products catalogue) = false ->
            set_mem type_name (premium_products catalogue) = true ->
            validate_type_name has_attribute products_attribute set_union
              type_name api_service allow_premium
            = Raise (ValueError
                       (premium_only_message type_name
                          (find_most_similar_products type_name
                             (set_union (open_products catalogue)
                                (premium_products catalogue))))))
        /\ (set_mem type_name (open_products catalogue) = false ->
            set_mem type_name (premium_products catalogue) = false ->
            validate_type_name has_attribute products_attribute set_union
              type_name api_service allow_premium
            = Raise (ValueError
                       (invalid_product_message type_name
                          (set_union (open_products catalogue)
                             (premium_products catalogue))
                          (find_most_similar_products type_name
                             (set_union (open_products catalogue)
                                (premium_products catalogue))))))).
Proof.
  intros Hunion. split.
  - intros H. unfold validate_type_name, validate_api_service.
    rewrite H. reflexivity.
  - intros catalogue Hattr Hprod.
    unfold validate_type_name, validate_api_service.
    rewrite Hattr. cbn [negb bind]. rewrite Hprod. cbn [bind].
    rewrite Hunion.
    destruct allow_premium,
      (set_mem type_name (open_products catalogue)),
      (set_mem type_name (premium_products catalogue));
      cbn [negb andb orb bind];
      repeat split; try reflexivity; try tauto; try discriminate;
      try (intros v H; injection H as <-; reflexivity);
      try (intros v H; discriminate H);
      try (intros [H|[H1 H2]]; discriminate).
Qed.

End Catalogue.

Lemma validate_type_name_outcomes_witness :
  (example_services (Str.lower "WFS") = false ->
   validate_type_name example_services example_products (@app string)
     "Topography_TopographicArea" "WFS" false
   = Raise (TypeError "Please use ['wfs', 'wmts', 'vts', 'zxy']"))
  /\ (forall catalogue,
        example_services (Str.lower "WFS") = true ->
        example_products (Str.lower "WFS" ++ "_products") = Ok catalogue ->
        (validate_type_name example_services example_products (@app string)
           "Topography_TopographicArea" "WFS" false = Ok (VBool true)
         <-> set_mem "Topography_TopographicArea" (open_products catalogue)
             = true
             \/ (false = true
                 /\ set_mem "Topography_TopographicArea"
                      (premium_products catalogue) = true))
        /\ (forall v,
              validate_type_name example_services example_products
                (@app string) "Topography_TopographicArea" "WFS" false
              = Ok v ->
              v = VBool true)
        /\ (false = false ->
            set_mem "Topography_TopographicArea" (open_products catalogue)
            = false ->
            set_mem "Topography_TopographicArea" (premium_products catalogue)
            = true ->
            validate_type_name example_services example_products
              (@app string) "Topography_TopographicArea" "WFS" false
            = Raise (ValueError
                       (premium_only_message "Topography_TopographicArea"
                          (find_most_similar_products
                             "Topography_TopographicArea"
                             (open_products catalogue
                              ++ premium_products catalogue)))))
        /\ (set_mem "Topography_TopographicArea" (open_products catalogue)
            = false ->
            set_mem "Topography_TopographicArea" (premium_products catalogue)
            = false ->
            validate_type_name example_services example_products
              (@app string) "Topography_TopographicArea" "WFS" false
            = Raise (ValueError
                       (invalid_product_message "Topography_TopographicArea"
                          (open_products catalogue
                           ++ premium_products catalogue)
                          (find_most_similar_products
                             "Topography_TopographicArea"
                             (open_products catalogue
                              ++ premium_products catalogue)))))).
Proof.
  apply (validate_type_name_outcomes example_services example_products
           (@app string) "Topography_TopographicArea" "WFS" false).
  intros x a b. unfold set_mem. apply existsb_app.
Defined.

End CatalogueFacts.

(** ** The parameters of a request *)

Module RequestFacts.

Import ApiUtils.

Lemma sequence_returns_none {A : Type} (c : result A) (v : value) :
  (c ;;; Ok VNone) = Ok v -> v = VNone.
Proof.
  destruct c; simpl; intros H; [injection H as <-; reflexivity | discriminate].
Qed.

Lemma validate_srs_passes_iff (srs : string) :
  validate_srs srs = Ok VNone <-> In srs VALID_SPATIAL_REFERENCE_SYSTEMS.
Proof.
  split; [|apply SrsFacts.validate_srs_supported].
  intros H.
  destruct (in_dec string_dec srs VALID_SPATIAL_REFERENCE_SYSTEMS) as [Hin|Hn];
    [exact Hin|].
  rewrite (SrsFacts.validate_srs_unsupported srs Hn) in H. discriminate H.
Qed.

(** What the validators of coordinates return, when they return, is
    [None]. *)
Lemma validate_bbox_returns_none (bbox srs : string) (v : value) :
  validate_bbox bbox srs = Ok v -> v = VNone.
Proof.
  unfold validate_bbox, _validate_bbox.
  destruct (validate_srs srs); cbn [bind]; [|discriminate].
  destruct (String.eqb srs "EPSG:4326").
  { destruct (py_assert _ _); cbn [bind]; [|discriminate].
    apply sequence_returns_none. }
  destruct (String.eqb srs "EPSG:27700").
  { destruct (py_assert _ _); cbn [bind]; [|discriminate].
    apply sequence_returns_none. }
  intros H. injection H as <-. reflexivity.
Qed.

Lemma validate_polygon_returns_none (polygon srs : string) (v : value) :
  validate_polygon_string polygon srs = Ok v -> v = VNone.
Proof.
  unfold validate_polygon_string, _validate_polygon_string.
  destruct (validate_srs srs); cbn [bind]; [|discriminate].
  assert (Hgen : forall lo_x hi_x lo_y hi_y name,
    (polygon_coords <- polygon_coords_of polygon ;;
     max_lat <- (col <- list_item (zip_star polygon_coords) 0 ;; seq_max col) ;;
     min_lat <- (col <- list_item (zip_star polygon_coords) 0 ;; seq_min col) ;;
     max_lon <- (col <- list_item (zip_star polygon_coords) 1 ;; seq_max col) ;;
     min_lon <- (col <- list_item (zip_star polygon_coords) 1 ;; seq_min col) ;;
     py_assert
       (Ok (PyFloat.gt_Z min_lat lo_y) &&& Ok (PyFloat.lt_Z max_lat hi_y))
       (m <- polygon_msg name ;; Ok (latitude_message lo_y hi_y m)) ;;;
     py_assert
       (Ok (PyFloat.gt_Z min_lon lo_x) &&& Ok (PyFloat.lt_Z max_lon hi_x))
       (m <- polygon_msg name ;; Ok (longitude_message lo_x hi_x m)) ;;;
     Ok VNone) = Ok v -> v = VNone).
  { intros lo_x hi_x lo_y hi_y name.
    destruct (polygon_coords_of polygon) as [rows|]; cbn [bind]; [|discriminate].
    repeat match goal with
           | |- context [bind ?c _] =>
               match c with
               | py_assert _ _ => fail 1
               | _ => destruct c; cbn [bind]; [|discriminate]
               end
           end.
    destruct (py_assert _ _); cbn [bind]; [|discriminate].
    apply sequence_returns_none. }
  destruct (String.eqb srs "EPSG:4326"); [apply Hgen|].
  destruct (String.eqb srs "EPSG:27700"); [apply Hgen|].
  intros H. injection H as <-. reflexivity.
Qed.

Section Catalogue.

Variable has_attribute : string -> bool.
Variable products_attribute : string -> result product_dict.
Variable set_union : list string -> list string -> list string.

(** [validate_request_params] returns (the value [None]) exactly when
    the type name is accepted, the reference system is a supported one, the
    bounding box and the polygon text pass their validators if they are
    given and not empty, and the output format is accepted.  A bounding box
    or a polygon text that is the empty text is not validated at all. *)
Theorem validate_request_params_passes_iff (api_service : string)
  (allow_premium : bool) (type_name srs output_format : string)
  (bbox polygon_string : option string) :
  (validate_request_params has_attribute products_attribute set_union
     api_service allow_premium type_name srs output_format bbox
     polygon_string = Ok VNone
   <-> (exists v, validate_type_name has_attribute products_attribute
                    set_union type_name api_service allow_premium = Ok v)
       /\ In srs VALID_SPATIAL_REFERENCE_SYSTEMS
       /\ (forall b, bbox = Some b -> b <> EmptyString ->
                     validate_bbox b srs = Ok VNone)
       /\ (forall p, polygon_string = Some p -> p <> EmptyString ->
                     validate_polygon_string p srs = Ok VNone)
       /\ validate_output_format output_format = Ok VNone)
  /\ validate_request_params has_attribute products_attribute set_union
       api_service allow_premium type_name srs output_format
       (Some EmptyString) (Some EmptyString)
     = validate_request_params has_attribute products_attribute set_union
         api_service allow_premium type_name srs output_format None None.
Proof.
  split; [|reflexivity].
  unfold validate_request_params. rewrite <- validate_srs_passes_iff.
  destruct (validate_type_name _ _ _ _ _ _) as [t|e]; cbn [bind];
    [|split; [discriminate | intros [[v H] _]; discriminate H]].
  destruct (validate_srs srs) as [s|e] eqn:Es; cbn [bind];
    [|split; [discriminate | intros (_ & H & _); discriminate H]].
  assert (s = VNone) as ->.
  { unfold validate_srs in Es. apply (sequence_returns_none _ _ Es). }
  assert (Hb : forall (arg : option string) (check : string -> result value)
                      (rest : result value),
             (forall a v, check a = Ok v -> v = VNone) ->
             (match supplied arg with
              | Some a => check a
              | None => Ok VNone
              end ;;; rest) = Ok VNone
             <-> (forall a, arg = Some a -> a <> EmptyString ->
                            check a = Ok VNone)
                 /\ rest = Ok VNone).
  { intros arg check rest Hnone. destruct arg as [[|c a]|]; cbn [supplied bind].
    - split; [intros H; split; [|exact H] | tauto].
      intros a Ha Hne. injection Ha as <-. contradiction.
    - destruct (check (String c a)) as [v|e] eqn:E; cbn [bind].
      + pose proof (Hnone _ _ E) as ->. split; [intros H; split; [|exact H] | tauto].
        intros a' Ha _. injection Ha as <-. exact E.
      + split; [discriminate|]. intros [H _].
        specialize (H _ eq_refl). rewrite E in H.
        assert (String c a <> EmptyString) as Hne by discriminate.
        specialize (H Hne). discriminate H.
    - split; [intros H; split; [|exact H] | tauto].
      intros a Ha. discriminate Ha. }
  rewrite (Hb bbox (fun b => validate_bbox b srs) _
             (fun a v => validate_bbox_returns_none a srs v)).
  rewrite (Hb polygon_string (fun p => validate_polygon_string p srs) _
             (fun a v => validate_polygon_returns_none a srs v)).
  assert (Hf : (validate_output_format output_format ;;; Ok VNone) = Ok VNone
               <-> validate_output_format output_format = Ok VNone).
  { destruct (validate_output_format output_format) as [v|e] eqn:E;
      cbn [bind]; [|split; discriminate].
    unfold validate_output_format in E.
    rewrite (sequence_returns_none _ _ E). tauto. }
  rewrite Hf. split.
  - intros (H1 & H2 & H3). repeat split; eauto.
  - intros (_ & _ & H1 & H2 & H3). auto.
Qed.

End Catalogue.

End RequestFacts.

(** ** Features that cannot be read *)

Module FeatureFailureFacts.

Import ApiUtils.

Lemma comprehension_stops {A B : Type} (f : A -> result B)
  (good rest : list A) (x : A) (e : exn) :
  Forall (fun a => exists b, f a = Ok b) good -> f x = Raise e ->
  comprehension f (good ++ x :: rest)%list = Raise e.
Proof.
  intros Hgood Hx. induction Hgood as [|a good [b Hb] _ IH]; simpl.
  - rewrite Hx. reflexivity.
  - rewrite Hb, IH. reflexivity.
Qed.

(** [get_feature_geometry_type] returns the member [type] of the member
    [geometry], and never lets a [KeyError] out.  On a feature that is a
    mapping, a missing [geometry], or a [geometry] that is a mapping
    without [type], gives the exception with the text on standard GeoJSON,
    also through [validate_geojson_polygon]; but a [geometry] that is
    [None], as GeoJSON allows for a feature without a location, gives the
    [TypeError] of subscripting [None], which is not caught. *)
Theorem geometry_lookup_failures (feature : value) :
  (forall t, get_feature_geometry_type feature = Ok t
             <-> exists g, subscript_key feature "geometry" = Ok g
                           /\ subscript_key g "type" = Ok t)
  /\ (forall k, get_feature_geometry_type feature <> Raise (KeyError k))
  /\ (forall entries,
        feature = VDict entries ->
        lookup "geometry" entries = None
        \/ (exists g, lookup "geometry" entries = Some (VDict g)
                      /\ lookup "type" g = None) ->
        get_feature_geometry_type feature
        = Raise (PlainException "Feature is not in standard GeoJSON format.")
        /\ validate_geojson_polygon feature
           = Raise (PlainException
                      "Feature is not in standard GeoJSON format."))
  /\ (forall entries,
        feature = VDict entries ->
        lookup "geometry" entries = Some VNone ->
        get_feature_geometry_type feature
        = Raise (TypeError "'NoneType' object is not subscriptable")
        /\ validate_geojson_polygon feature
           = Raise (TypeError "'NoneType' object is not subscriptable")).
Proof.
  unfold validate_geojson_polygon, get_feature_geometry_type.
  split; [|split; [|split]].
  - intros t. destruct (subscript_key feature "geometry") as [g|e]; cbn [bind].
    + destruct (subscript_key g "type") as [t'|e] eqn:E.
      * split; [intros H; injection H as <-; exists g; auto|].
        intros (g' & Hg & Ht). injection Hg as <-. congruence.
      * split; [destruct e; cbn; intros H; discriminate H|].
        intros (g' & Hg & Ht). injection Hg as <-. congruence.
    + split; [destruct e; cbn; intros H; discriminate H|]. intros (g & Hg & _). discriminate Hg.
  - intros k.
    destruct (g <- subscript_key feature "geometry" ;; subscript_key g "type")
      as [t|e]; [discriminate | destruct e; cbn; discriminate].
  - intros entries -> [H|(g & Hg & Ht)]; cbn [subscript_key].
    + rewrite H. split; reflexivity.
    + rewrite Hg. cbn [bind subscript_key]. rewrite Ht. split; reflexivity.
  - intros entries -> H. cbn [subscript_key]. rewrite H. split; reflexivity.
Qed.

Section Conversion.

Variable clean_coordinates : value -> result value.

(** [convert_features_to_geojson] converts all the features or none:
    the first feature that [convert_single_feature_to_geojson] fails on ends
    the conversion with its exception, and no list is returned.  A feature
    that is returned has the members [type], [geometry] and [properties]
    and no other one: an identifier or a bounding box of the input feature
    is not carried over. *)
Theorem convert_features_all_or_nothing (features : list value) :
  (forall good f rest e,
      features = (good ++ f :: rest)%list ->
      Forall (fun g => exists o,
                convert_single_feature_to_geojson g
                  (GeoJSON.LineString clean_coordinates) = Ok o) good ->
      convert_single_feature_to_geojson f
        (GeoJSON.LineString clean_coordinates) = Raise e ->
      convert_features_to_geojson clean_coordinates features = Raise e)
  /\ (forall out,
        convert_features_to_geojson clean_coordinates features = Ok out ->
        Forall2 (fun f o =>
                   convert_single_feature_to_geojson f
                     (GeoJSON.LineString clean_coordinates) = Ok o
                   /\ forall k, k <> "type" -> k <> "geometry" ->
                                k <> "properties" ->
                                subscript_key o k = Raise (KeyError k))
          features out).
Proof.
  split.
  - intros good f rest e -> Hgood Hf. unfold convert_features_to_geojson.
    apply comprehension_stops; assumption.
  - intros out H. unfold convert_features_to_geojson in H.
    apply ComprehensionFailure.comprehension_Forall2 in H.
    apply Forall2_impl with (2 := H). intros f o Ho. split; [exact Ho|].
    intros k K1 K2 K3. unfold convert_single_feature_to_geojson in Ho.
    destruct (g <- subscript_key f "geometry" ;;
              c <- subscript_key g "coordinates" ;; subscript_first c)
      as [ring|]; cbn [bind] in Ho; [|discriminate].
    destruct (GeoJSON.LineString clean_coordinates ring) as [line|];
      cbn [bind] in Ho; [|discriminate].
    destruct (subscript_key f "properties") as [props|];
      cbn [bind] in Ho; [|discriminate].
    injection Ho as <-. unfold GeoJSON.Feature. cbn [subscript_key lookup].
    apply String.eqb_neq in K1, K2, K3.
    rewrite (String.eqb_sym "type"), K1, (String.eqb_sym "geometry"), K2,
      (String.eqb_sym "properties"), K3. reflexivity.
Qed.

End Conversion.

End FeatureFailureFacts.

(** ** The validators together, and the rest of the filter *)

Module AgreementFacts.

Import ApiUtils.

(** On numbers the two validators of coordinates agree: under a
    supported reference system, a bounding box with the tokens [t0], [t1],
    [t2], [t3] and the polygon text of the two vertices [t0,t1] and [t2,t3]
    are accepted together or rejected together, when the four tokens are
    read as numbers. *)
Theorem bbox_and_polygon_agree (bbox polygon srs : string) (ext : extent)
  (t0 t1 t2 t3 v0 v1 : string) (extra : list string)
  (a b c d : PyFloat.float) :
  extent_of srs = Some ext ->
  Str.split "," bbox = t0 :: t1 :: t2 :: t3 :: extra ->
  Str.split " " polygon = [v0; v1] ->
  Str.split "," v0 = [t0; t1] -> Str.split "," v1 = [t2; t3] ->
  PyFloat.of_string t0 = Some a -> PyFloat.of_string t1 = Some b ->
  PyFloat.of_string t2 = Some c -> PyFloat.of_string t3 = Some d ->
  PyFloat.is_nan a = false -> PyFloat.is_nan b = false ->
  PyFloat.is_nan c = false -> PyFloat.is_nan d = false ->
  (validate_bbox bbox srs = Ok VNone
   <-> validate_polygon_string polygon srs = Ok VNone).
Proof.
  intros Hext Hs Hp Hv0 Hv1 Ha Hb Hc Hd Na Nb Nc Nd.
  rewrite (BboxFacts.validate_bbox_passes_iff bbox srs ext t0 t1 t2 t3 extra
             Hext Hs).
  assert (Hrows : polygon_coords_of polygon = Ok (rows_of [(a, b); (c, d)])).
  { unfold polygon_coords_of, to_float. rewrite Hp. cbn [comprehension].
    rewrite Hv0, Hv1. cbn [comprehension]. rewrite Ha, Hb, Hc, Hd.
    reflexivity. }
  destruct (PolygonFacts.validate_polygon_extent polygon srs ext Hext)
    as [-> [fmt Hm]].
  rewrite (PolygonFacts.polygon_rows polygon srs fmt _ _ _ _ (a, b) [(c, d)]
             Hrows Hm).
  cbn [fst snd map].
  assert (Hy := PolygonFacts.within_column (min_y ext) (max_y ext) a [c]).
  assert (Hx := PolygonFacts.within_column (min_x ext) (max_x ext) b [d]).
  specialize (Hy ltac:(repeat constructor; assumption)).
  specialize (Hx ltac:(repeat constructor; assumption)).
  destruct (PyFloat.gt_Z _ (min_y ext) && PyFloat.lt_Z _ (max_y ext));
    destruct (PyFloat.gt_Z _ (min_x ext) && PyFloat.lt_Z _ (max_x ext)).
  - split; [reflexivity|]. intros _.
    assert (Fy := proj1 Hy eq_refl). assert (Fx := proj1 Hx eq_refl).
    inversion Fy as [|? ? Ia Fy']; inversion Fy' as [|? ? Ic _]; subst.
    inversion Fx as [|? ? Ib Fx']; inversion Fx' as [|? ? Id _]; subst.
    exists a, b, c, d. repeat split; assumption.
  - split; [|discriminate].
    intros (a' & b' & c' & d' & Ea & Eb & Ec & Ed & Ia & Ib & Ic & Id).
    assert (a' = a) by congruence. assert (b' = b) by congruence.
    assert (c' = c) by congruence. assert (d' = d) by congruence. subst.
    assert (H : false = true) by (apply Hx; repeat constructor; assumption).
    discriminate H.
  - split; [|discriminate].
    intros (a' & b' & c' & d' & Ea & Eb & Ec & Ed & Ia & Ib & Ic & Id).
    assert (a' = a) by congruence. assert (b' = b) by congruence.
    assert (c' = c) by congruence. assert (d' = d) by congruence. subst.
    assert (H : false = true) by (apply Hy; repeat constructor; assumption).
    discriminate H.
  - split; [|discriminate].
    intros (a' & b' & c' & d' & Ea & Eb & Ec & Ed & Ia & Ib & Ic & Id).
    assert (a' = a) by congruence. assert (b' = b) by congruence.
    assert (c' = c) by congruence. assert (d' = d) by congruence. subst.
    assert (H : false = true) by (apply Hy; repeat constructor; assumption).
    discriminate H.
Qed.

Lemma bbox_and_polygon_agree_witness :
  validate_bbox "49.5,-6,60,1" "EPSG:4326" = Ok VNone
  <-> validate_polygon_string "49.5,-6 60,1" "EPSG:4326" = Ok VNone.
Proof.
  eapply (bbox_and_polygon_agree "49.5,-6,60,1" "49.5,-6 60,1" "EPSG:4326"
            (Extent (-7) 2 49 61) "49.5" "-6" "60" "1" "49.5,-6" "60,1" []).
  - reflexivity.
  - vm_compute. reflexivity.
  - vm_compute. reflexivity.
  - vm_compute. reflexivity.
  - vm_compute. reflexivity.
  - vm_compute. reflexivity.
  - vm_compute. reflexivity.
  - vm_compute. reflexivity.
  - vm_compute. reflexivity.
  - reflexivity.
  - reflexivity.
  - reflexivity.
  - reflexivity.
Defined.

End AgreementFacts.

Module SegmentFacts.

Import ApiUtils.

(** [create_polygon_filter] takes the code of the reference system from
    between the first and the second colon of [srs] and looks at nothing
    else of it: whatever stands before the first colon and after the second
    one, the filter is the single-line form with that code, for a polygon
    text and a code without a newline. *)
Theorem filter_reads_second_segment (polygon_string srs authority code : string)
  (more : list string) :
  Str.split ":" srs = authority :: code :: more ->
  Str.mem Str.nl polygon_string = false ->
  Str.mem Str.nl code = false ->
  create_polygon_filter polygon_string srs
  = Ok (spec_filter_form code polygon_string).
Proof.
  intros Hs Hp Hc. unfold create_polygon_filter. rewrite Hs.
  cbv [list_item nth_error bind].
  rewrite (TemplateFacts.stripped_template code polygon_string Hc Hp).
  reflexivity.
Qed.

Lemma filter_reads_second_segment_witness :
  create_polygon_filter example_polygon "no such authority:27700:and more"
  = Ok (spec_filter_form "27700" example_polygon).
Proof.
  apply (filter_reads_second_segment example_polygon
           "no such authority:27700:and more" "no such authority" "27700"
           ["and more"]); vm_compute; reflexivity.
Defined.

End SegmentFacts.

Module SuggestionFacts.

Import ApiUtils.

Lemma contains_empty (s : string) : Str.contains s EmptyString = true.
Proof.
  apply SubstringFacts.contains_app. exists EmptyString, s. reflexivity.
Qed.

(** The best matches of [find_most_similar_products] are the products
    whose name, in lower case, has the type name in lower case somewhere
    inside.  A product that is the type name
    up to the case of its letters is among them, and for the empty type
    name every product is. *)
Theorem best_matches_contain_the_name (type_name : string)
  (all_products : list string) :
  (forall product,
      In product (find_most_similar_products type_name all_products)
      <-> In product all_products
          /\ exists pre post,
               Str.lower product = pre ++ Str.lower type_name ++ post)
  /\ (forall product,
        In product all_products ->
        Str.lower product = Str.lower type_name ->
        In product (find_most_similar_products type_name all_products))
  /\ find_most_similar_products EmptyString all_products = all_products.
Proof.
  unfold find_most_similar_products. split; [|split].
  - intros product. rewrite filter_In, SubstringFacts.contains_app.
    reflexivity.
  - intros product Hin Hsame. apply filter_In. split; [exact Hin|].
    rewrite Hsame. apply StrFacts.contains_refl.
  - induction all_products as [|p ps IH]; [reflexivity|].
    cbn [filter Str.lower]. rewrite contains_empty. f_equal. exact IH.
Qed.

End SuggestionFacts.

(** ** From GeoJSON to the filter *)

Module NumeralFacts.

Import PyFloat.

Lemma numeral_text_app (a b : string) :
  numeral_text (a ++ b) = numeral_text a && numeral_text b.
Proof.
  induction a as [|c a IH]; simpl; [reflexivity|].
  rewrite IH, andb_assoc. reflexivity.
Qed.

Lemma numeral_text_lacks (c : ascii) (s : string) :
  numeral_char c = false -> numeral_text s = true -> Str.mem c s = false.
Proof.
  intros Hc. induction s as [|d s IH]; simpl; intros H; [reflexivity|].
  apply andb_true_iff in H. destruct H as [Hd Hs]. rewrite (IH Hs), orb_false_r.
  destruct (Ascii.eqb_spec d c) as [->|_]; [congruence | reflexivity].
Qed.

Lemma digit_char (r : Z) :
  0 <= r < 10 -> numeral_char (ascii_of_N (Z.to_N (48 + r))) = true.
Proof.
  intros H.
  assert (E : r = 0 \/ r = 1 \/ r = 2 \/ r = 3 \/ r = 4 \/ r = 5 \/ r = 6
              \/ r = 7 \/ r = 8 \/ r = 9) by lia.
  destruct E as [->|[->|[->|[->|[->|[->|[->|[->|[->| ->]]]]]]]]]; reflexivity.
Qed.

Lemma digits_of_pos_numeral (fuel : nat) (n : Z) (acc : string) :
  numeral_text acc = true ->
  numeral_text (Str.digits_of_pos fuel n acc) = true.
Proof.
  revert n acc. induction fuel as [|fuel IH]; intros n acc H; [exact H|].
  cbn [Str.digits_of_pos].
  assert (Hacc : numeral_text
                   (String (ascii_of_N (Z.to_N (48 + n mod 10))) acc) = true).
  { cbn [numeral_text]. rewrite digit_char, H; [reflexivity|].
    apply Z.mod_pos_bound. lia. }
  destruct (n <? 10); [exact Hacc | apply IH, Hacc].
Qed.

Lemma of_Z_numeral (n : Z) : numeral_text (Str.of_Z n) = true.
Proof.
  destruct n as [|p|p]; [reflexivity| |]; unfold Str.of_Z.
  - apply digits_of_pos_numeral. reflexivity.
  - cbn [numeral_text]. rewrite digits_of_pos_numeral; reflexivity.
Qed.

Lemma zeros_numeral (n : nat) : numeral_text (zeros n) = true.
Proof. induction n as [|n IH]; [reflexivity | exact IH]. Qed.

Lemma substring_numeral (s : string) (n m : nat) :
  numeral_text s = true -> numeral_text (substring n m s) = true.
Proof.
  revert n m. induction s as [|c s IH]; intros n m H.
  - destruct n, m; reflexivity.
  - simpl in H. apply andb_true_iff in H. destruct H as [Hc Hs].
    destruct n as [|n]; cbn [substring].
    + destruct m as [|m]; [reflexivity|].
      cbn [numeral_text]. rewrite Hc, (IH 0%nat m Hs). reflexivity.
    + apply (IH n m Hs).
Qed.

Lemma exponent_text_numeral (x : Z) : numeral_text (exponent_text x) = true.
Proof.
  unfold exponent_text. rewrite numeral_text_app.
  destruct (x <? 0), (Z.abs x <? 10); cbn [numeral_text append andb];
    rewrite ?of_Z_numeral; reflexivity.
Qed.

Lemma layout_numeral (digits : string) (decpt : Z) :
  numeral_text digits = true -> numeral_text (layout digits decpt) = true.
Proof.
  intros H. unfold layout.
  destruct ((decpt <=? -4) || (16 <? decpt)).
  - destruct digits as [|d [|d' rest]]; [reflexivity| |].
    + rewrite !numeral_text_app, exponent_text_numeral, H. reflexivity.
    + cbn [numeral_text] in H. apply andb_true_iff in H. destruct H as [Hd H].
      change (String d ("." ++ String d' rest))
        with (String d (String "." (String d' rest))).
      rewrite !numeral_text_app, exponent_text_numeral.
      cbn [numeral_text]. rewrite Hd. cbn [numeral_text] in H. rewrite H.
      reflexivity.
  - destruct (decpt <=? 0).
    + rewrite !numeral_text_app, zeros_numeral, H. reflexivity.
    + destruct (Z.of_nat (String.length digits) <=? decpt).
      * rewrite !numeral_text_app, zeros_numeral, H. reflexivity.
      * rewrite !numeral_text_app, !substring_numeral by exact H.
        reflexivity.
Qed.

(** What [str] writes for a float is made of digits, a point, signs and
    the letters of the exponent, [inf] and [nan]. *)
Lemma to_string_numeral (x : float) : numeral_text (to_string x) = true.
Proof.
  destruct x as [[|]|[|]| |neg m e]; try reflexivity.
  unfold to_string, shortest_digits.
  destruct (shortest _ _ _ _ _ _ _) as [c q].
  destruct (drop_zeros _ _ _) as [c' q'].
  assert (H := layout_numeral (Str.of_Z c')
                 (q' + Z.of_nat (String.length (Str.of_Z c')))
                 (of_Z_numeral c')).
  destruct neg; [|exact H].
  rewrite numeral_text_app, H. reflexivity.
Qed.

Lemma py_str_numeral (v : value) :
  is_numeric v = true -> numeral_text (py_str v) = true.
Proof.
  destruct v; try discriminate; intros _; cbn [py_str py_repr].
  - apply of_Z_numeral.
  - apply to_string_numeral.
Qed.

End NumeralFacts.

Module PipelineFacts.

Import ApiUtils.

Lemma pair_text_lacks (c : ascii) (p : value * value) :
  numeral_char c = false -> Ascii.eqb "," c = false ->
  is_numeric (fst p) = true -> is_numeric (snd p) = true ->
  Str.mem c (pair_text p) = false.
Proof.
  intros Hc Hcomma Hx Hy. unfold pair_text.
  rewrite !StrFacts.mem_app.
  rewrite (NumeralFacts.numeral_text_lacks c _ Hc
             (NumeralFacts.py_str_numeral _ Hx)),
    (NumeralFacts.numeral_text_lacks c _ Hc
       (NumeralFacts.py_str_numeral _ Hy)).
  cbn [Str.mem]. rewrite Hcomma. reflexivity.
Qed.

Lemma mem_join (c : ascii) (sep : string) (parts : list string) :
  Str.mem c sep = false -> Forall (fun l => Str.mem c l = false) parts ->
  Str.mem c (Str.join sep parts) = false.
Proof.
  intros Hsep. induction parts as [|l rest IH]; intros H; [reflexivity|].
  inversion H as [|? ? Hl Hrest]; subst.
  destruct rest as [|l' rest']; [exact Hl|].
  rewrite TemplateFacts.join_cons, !StrFacts.mem_app, Hl, Hsep.
  exact (IH Hrest).
Qed.

(** From GeoJSON to the filter.  For a feature whose outer ring holds
    pairs of numbers, integers or floats, [geojson_polygon_to_string]
    returns a text without a newline, which [create_polygon_filter] puts
    unchanged between the [gml:coordinates] tags of the single-line filter;
    and the text can be taken apart again: split at the blanks it gives the
    vertices of the ring, and each vertex split at the comma gives the text
    of its second value followed by the text of its first value. *)
Theorem ring_of_numbers_reaches_filter (t code : string)
  (pairs : list (value * value)) (holes : list value) (props : value) :
  pairs <> [] ->
  Forall (fun p => is_numeric (fst p) = true /\ is_numeric (snd p) = true)
    pairs ->
  Str.mem Str.nl code = false -> Str.mem ":" code = false ->
  exists text,
    geojson_polygon_to_string
      (feature t (VList (ring_value pairs :: holes)) props) = Ok text
    /\ Str.mem Str.nl text = false
    /\ create_polygon_filter text ("EPSG:" ++ code)
       = Ok (spec_filter_form code text)
    /\ Str.split " " text = map pair_text pairs
    /\ Forall (fun p => Str.split "," (pair_text p)
                        = [py_str (snd p); py_str (fst p)]) pairs.
Proof.
  intros Hne Hnum Hcode Hcolon.
  exists (Str.join " " (map pair_text pairs)).
  assert (Hlacks : forall c, numeral_char c = false ->
                             Ascii.eqb "," c = false ->
            Forall (fun l => Str.mem c l = false) (map pair_text pairs)).
  { intros c Hc Hcomma. apply Forall_forall. intros l Hl.
    apply in_map_iff in Hl. destruct Hl as (p & <- & Hp).
    rewrite Forall_forall in Hnum. destruct (Hnum p Hp) as [Hx Hy].
    apply (pair_text_lacks c p Hc Hcomma Hx Hy). }
  assert (Hnl : Str.mem Str.nl (Str.join " " (map pair_text pairs)) = false).
  { apply mem_join; [reflexivity|]. apply Hlacks; reflexivity. }
  split; [apply PolygonTextFacts.polygon_text_of_pairs|].
  split; [exact Hnl|].
  split; [|split].
  - unfold create_polygon_filter. rewrite (TemplateFacts.split_epsg code Hcolon).
    cbv [list_item nth_error bind].
    rewrite (TemplateFacts.stripped_template code _ Hcode Hnl). reflexivity.
  - apply (TemplateFacts.split_join " " (map pair_text pairs)).
    + destruct pairs; [contradiction | discriminate].
    + apply Hlacks; reflexivity.
  - apply Forall_forall. intros p Hp.
    rewrite Forall_forall in Hnum. destruct (Hnum p Hp) as [Hx Hy].
    unfold pair_text.
    change (py_str (snd p) ++ "," ++ py_str (fst p))
      with (py_str (snd p) ++ String "," (py_str (fst p))).
    rewrite StrFacts.split_app_sep, StrFacts.split_absent; [reflexivity| |];
      apply NumeralFacts.numeral_text_lacks;
      try reflexivity; apply NumeralFacts.py_str_numeral; assumption.
Qed.

Lemma ring_of_numbers_reaches_filter_witness :
  exists text,
    geojson_polygon_to_string
      (feature "Polygon" (VList (ring_value
         [(VFloat (S754_finite true 4953959590107546 (-52)), VInt 50);
          (VInt 0, VFloat (S754_finite false 7050948166601933 (-47)))] :: []))
         VNone) = Ok text
    /\ Str.mem Str.nl text = false
    /\ create_polygon_filter text ("EPSG:" ++ "4326")
       = Ok (spec_filter_form "4326" text)
    /\ Str.split " " text
       = map pair_text
           [(VFloat (S754_finite true 4953959590107546 (-52)), VInt 50);
            (VInt 0, VFloat (S754_finite false 7050948166601933 (-47)))]
    /\ Forall (fun p => Str.split "," (pair_text p)
                        = [py_str (snd p); py_str (fst p)])
         [(VFloat (S754_finite true 4953959590107546 (-52)), VInt 50);
          (VInt 0, VFloat (S754_finite false 7050948166601933 (-47)))].
Proof.
  apply (ring_of_numbers_reaches_filter "Polygon" "4326"
           [(VFloat (S754_finite true 4953959590107546 (-52)), VInt 50);
            (VInt 0, VFloat (S754_finite false 7050948166601933 (-47)))]
           [] VNone).
  - discriminate.
  - repeat constructor.
  - reflexivity.
  - reflexivity.
Defined.

End PipelineFacts.

(** ** Positions of any length *)

Module PositionFacts.

Import ApiUtils.

Lemma comprehension_map {A B : Type} (f : A -> B) (xs : list A) :
  comprehension (fun x => Ok (f x)) xs = Ok (map f xs).
Proof.
  induction xs as [|x xs IH]; [reflexivity|].
  cbn [comprehension map bind]. rewrite IH. reflexivity.
Qed.

(** [geojson_polygon_to_string] turns every position of the outer ring
    around as a whole, whatever its length: a position with an altitude,
    which GeoJSON allows as a third value, is written with the altitude
    first, followed by the second and the first value; a position of two
    values is written with the second value first. *)
Theorem polygon_text_turns_positions_around (t : string)
  (positions : list (list value)) (holes : list value) (props : value) :
  geojson_polygon_to_string
    (feature t (VList (VList (map VList positions) :: holes)) props)
  = Ok (Str.join " " (map position_text positions))
  /\ (forall x y z,
        position_text [x; y; z]
        = py_str z ++ "," ++ py_str y ++ "," ++ py_str x)
  /\ (forall x y, position_text [x; y] = py_str y ++ "," ++ py_str x).
Proof.
  split; [|split; reflexivity].
  unfold geojson_polygon_to_string.
  change (g <- subscript_key
                 (feature t (VList (VList (map VList positions) :: holes))
                    props) "geometry" ;;
          c <- subscript_key g "coordinates" ;;
          r <- subscript_first c ;; iterate r)
    with (Ok (map VList positions)).
  cbn [bind].
  match goal with
  | |- bind (comprehension ?f _) _ = _ =>
      assert (H : comprehension f (map VList positions)
                  = Ok (map position_text positions))
  end.
  { induction positions as [|p positions IH]; [reflexivity|].
    cbn [map comprehension reversed_slice iterate bind].
    rewrite comprehension_map. cbn [bind]. rewrite IH. reflexivity. }
  rewrite H. reflexivity.
Qed.

End PositionFacts.
